(** * Lightning local-government triage: a shallow embedding

    The development follows the repository's modules:
    - [JS], [JSON]  the fragment of the JavaScript platform the code relies
                    on: strings, numbers, truthiness, [String()],
                    [parseFloat], [Date], [JSON.parse];
    - [Types]       types.ts;
    - [Firebase]    services/firebase.ts ([fetchReports], [deleteReport]);
    - [Gemini], [GeminiChat]  services/geminiService.ts ([analyzeReports],
                    [sendChatMessage], [verifyReportImage],
                    [createAnalysisChat]);
    - [SolutionPanel], [Panel]  the handlers of
                    components/SolutionPanel.tsx;
    - [Deletion], [DeletionRun]  [handleDeleteClick] of
                    components/ReportTable.tsx with [handleDelete] of
                    App.tsx, in an event loop with a clock and timers;
    - [Views], [AuditColumn]  the image source and the audit column of a
                    row of components/ReportTable.tsx;
    - [App], [MapView]  [loadData] of App.tsx and the two effects of
                    components/Map.tsx;
    - [Spec], [Samples]  readings of the specification's sentences and
                    concrete inputs;
    - the modules whose names end in [Props]: the properties proved.

    Asynchronous calls to collaborators (Firestore, the generative model,
    the chat handle) are modelled by oracles that say how the call settles,
    with a value or with a rejection; every function that may contact a
    collaborator also returns the list of requests it issued.  Exceptions
    of the engine's conversions are part of the outcomes.  Console output
    is not modelled.  Strings are Latin-1 text and a Number is written as
    the shortest decimal that denotes it, as explained in [JS]. *)

From Stdlib Require Import ZArith NArith Arith List Bool Ascii String Lia.
From Stdlib Require Import DecimalString.
Import ListNotations.

Open Scope string_scope.
Open Scope Z_scope.

(* ================================================================== *)
(** * The JavaScript platform *)
(* ================================================================== *)

Module JS.

(** ** Strings

    A JavaScript string is a sequence of UTF-16 code units.  [string] holds
    the code units below 256 (Latin-1 text); text using higher code units is
    outside the model.  On that domain [String.length] is [.length]. *)

Definition dq : string := String (ascii_of_nat 34) "".
Definition LF : ascii := ascii_of_nat 10.

(** WhiteSpace and LineTerminator code units below 256: TAB, LF, VT, FF, CR,
    SP and NBSP. *)
Definition isStrWhiteSpaceChar (c : ascii) : bool :=
  let n := nat_of_ascii c in
  ((9 <=? n) && (n <=? 13) || (n =? 32) || (n =? 160))%nat.

(** The LineTerminator code units below 256, the ones [.] of a regular
    expression does not match. *)
Definition isLineTerminator (c : ascii) : bool :=
  let n := nat_of_ascii c in ((n =? 10) || (n =? 13))%nat.

Definition isDigit (c : ascii) : bool :=
  let n := nat_of_ascii c in ((48 <=? n) && (n <=? 57))%nat.

Fixpoint trimStart (s : string) : string :=
  match s with
  | String c r => if isStrWhiteSpaceChar c then trimStart r else s
  | EmptyString => EmptyString
  end.

Fixpoint rev_string (s acc : string) : string :=
  match s with
  | EmptyString => acc
  | String c r => rev_string r (String c acc)
  end.

Definition trimEnd (s : string) : string :=
  rev_string (trimStart (rev_string s "")) "".

(** [String.prototype.trim] *)
Definition trim (s : string) : string := trimEnd (trimStart s).

(** [String.prototype.startsWith] *)
Definition startsWith (s p : string) : bool := String.prefix p s.

(** The text before the first occurrence of [p] in [s] and the text after
    it, when [p] occurs. *)
Fixpoint splitFirst (p s : string) : option (string * string) :=
  if String.prefix p s then
    Some (EmptyString, substring (String.length p) (String.length s - String.length p) s)
  else
    match s with
    | EmptyString => None
    | String c r =>
        match splitFirst p r with
        | Some (b, a) => Some (String c b, a)
        | None => None
        end
    end.

(** [String.prototype.includes] *)
Definition includes (s p : string) : bool :=
  match splitFirst p s with Some _ => true | None => false end.

(** [takeWhile f s] and the rest. *)
Fixpoint span (f : ascii -> bool) (s : string) : string * string :=
  match s with
  | String c r =>
      if f c then let (a, b) := span f r in (String c a, b)
      else (EmptyString, s)
  | EmptyString => (EmptyString, EmptyString)
  end.

(** ** Numbers

    A Number is a binary64 value.  A finite one is written [Dec neg m e],
    (-1)^neg * m * 10^e, where [m * 10^e] is the decimal with the fewest
    digits that rounds to the value: the digits Number::toString prints.
    [mkDec] keeps mantissas free of trailing zeros, and the two zeros are
    [Dec false 0 0] and [Dec true 0 0]. *)

Inductive number : Type :=
| NaN
| Inf (neg : bool)
| Dec (neg : bool) (m : N) (e : Z).

Definition zero : number := Dec false 0 0.

Definition isNaN (x : number) : bool :=
  match x with NaN => true | _ => false end.

Fixpoint strip_zeros (fuel : nat) (m : N) (e : Z) : N * Z :=
  match fuel with
  | O => (m, e)
  | S f =>
      if (N.eqb (m mod 10) 0)%N then strip_zeros f (m / 10)%N (e + 1)
      else (m, e)
  end.

Definition mkDec (neg : bool) (m : N) (e : Z) : number :=
  if N.eqb m 0 then Dec neg 0 0
  else let (m', e') := strip_zeros (N.to_nat (N.size m)) m e in Dec neg m' e'.

(** Value of a string of decimal digits. *)
Fixpoint digitsValue (s : string) (acc : N) : N :=
  match s with
  | EmptyString => acc
  | String c r => digitsValue r (acc * 10 + N.of_nat (nat_of_ascii c - 48))%N
  end.

Definition N_to_string (n : N) : string :=
  NilZero.string_of_uint (N.to_uint n).

Definition Z_to_string (z : Z) : string :=
  if z <? 0 then "-" ++ N_to_string (Z.abs_N z) else N_to_string (Z.abs_N z).

Fixpoint zeros (n : nat) : string :=
  match n with O => "" | S k => String "0" (zeros k) end.

(** Number::toString, radix 10.  With [s] the [k] digits of the mantissa and
    [n = k + e], the value is 0.s * 10^n. *)
Definition NumberToString (x : number) : string :=
  match x with
  | NaN => "NaN"
  | Inf neg => if neg then "-Infinity" else "Infinity"
  | Dec neg m e =>
      if N.eqb m 0 then "0" else
      let s := N_to_string m in
      let k := Z.of_nat (String.length s) in
      let n := k + e in
      let body :=
        if (k <=? n) && (n <=? 21) then s ++ zeros (Z.to_nat (n - k))
        else if (0 <? n) && (n <=? 21) then
          substring 0 (Z.to_nat n) s ++ "." ++
          substring (Z.to_nat n) (Z.to_nat (k - n)) s
        else if (-6 <? n) && (n <=? 0) then
          "0." ++ zeros (Z.to_nat (- n)) ++ s
        else
          let ex := (if n - 1 <? 0 then "-" else "+") ++
                    N_to_string (Z.abs_N (n - 1)) in
          if k =? 1 then s ++ "e" ++ ex
          else substring 0 1 s ++ "." ++
               substring 1 (Z.to_nat (k - 1)) s ++ "e" ++ ex
      in if neg then "-" ++ body else body
  end.

(** *** Rounding to binary64 *)

(** The quotient [p / q] of two positive integers, rounded to the nearest
    integer, ties to even. *)
Definition divNearestEven (p q : Z) : Z :=
  let d := p / q in
  let r := p mod q in
  if 2 * r <? q then d
  else if q <? 2 * r then d + 1
  else if Z.even d then d else d + 1.

(** [(p / q) * 2^k] and [(p / q) * 10^k] for any integer [k], as fractions
    of integers. *)
Definition scale2 (p q k : Z) : Z * Z :=
  (p * 2 ^ Z.max 0 k, q * 2 ^ Z.max 0 (- k)).

Definition scale10 (p q k : Z) : Z * Z :=
  (p * 10 ^ Z.max 0 k, q * 10 ^ Z.max 0 (- k)).

(** The binary64 value nearest to the positive rational [p / q], ties to
    even: [Some (M, E)] is [M * 2^E], with [2^52 <= M < 2^53] for a normal
    value and [E = -1074] for a subnormal one and for zero; [None] is
    infinity. *)
Definition nearest64 (p q : Z) : option (Z * Z) :=
  let l := Z.log2 p - Z.log2 q in
  let (pl, ql) := scale2 p q (- l) in
  let floorLog2 := if pl <? ql then l - 1 else l in
  let E := Z.max (floorLog2 - 52) (-1074) in
  let (pe, qe) := scale2 p q (- E) in
  let M := divNearestEven pe qe in
  let '(M', E') := if M =? 2 ^ 53 then (2 ^ 52, E + 1) else (M, E) in
  if 971 <? E' then None else Some (M', E').

Definition decimalDigits (z : Z) : Z :=
  Z.of_nat (String.length (N_to_string (Z.to_N z))).

(** The digits of the binary64 value [M * 2^E], [M > 0], which lies
    between [10^(n-1)] and [10^n]: for the first [k] of [ks] at which a
    decimal [s * 10^(n-k)] rounds back to the value, that decimal, the
    closest to the value when the one below and the one above both do. *)
Fixpoint shortestFrom (ks : list Z) (M E n : Z) : option (Z * Z) :=
  match ks with
  | [] => None
  | k :: rest =>
      let x := n - k in
      let (P, Q) := scale2 M 1 E in
      let (num, den) := scale10 P Q (- x) in
      let lo := num / den in
      let r := num mod den in
      let back (s : Z) : bool :=
        let (p, q) := scale10 s 1 x in
        match nearest64 p q with
        | Some (M', E') => (M' =? M) && (E' =? E)
        | None => false
        end in
      let lower := (0 <? lo) && back lo in
      let upper := back (lo + 1) in
      if lower && upper then
        if 2 * r <? den then Some (lo, x)
        else if den <? 2 * r then Some (lo + 1, x)
        else if Z.even lo then Some (lo, x) else Some (lo + 1, x)
      else if lower then Some (lo, x)
      else if upper then Some (lo + 1, x)
      else shortestFrom rest M E n
  end.

(** The decimal with the fewest digits that rounds to [M * 2^E]; 17 digits
    always suffice. *)
Definition shortest (M E : Z) : Z * Z :=
  let (P, Q) := scale2 M 1 E in
  let c := decimalDigits P - decimalDigits Q in
  let (pc, qc) := scale10 P Q (- c) in
  let n := if pc <? qc then c else c + 1 in
  match shortestFrom [1;2;3;4;5;6;7;8;9;10;11;12;13;14;15;16;17] M E n with
  | Some sx => sx
  | None => if E <? 0 then (M * 5 ^ (- E), E) else (M * 2 ^ E, 0)
  end.

(** The Number value of the mathematical value [(-1)^neg * m * 10^e]: it is
    rounded to the nearest binary64 value, to an infinity from
    [2^1024 - 2^970] on and to a zero up to [2^(-1075)].  The standard lets
    an engine round a numeral once more after its 20th significant digit;
    the engines round exactly, as here. *)
Definition roundDecimal (neg : bool) (m : N) (e : Z) : number :=
  if N.eqb m 0 then Dec neg 0 0 else
  let (p, q) := scale10 (Z.of_N m) 1 e in
  match nearest64 p q with
  | None => Inf neg
  | Some (M, E) =>
      if M =? 0 then Dec neg 0 0
      else let (s, x) := shortest M E in mkDec neg (Z.to_N s) x
  end.

(** The Number value of an integer. *)
Definition ofZ (z : Z) : number := roundDecimal (z <? 0) (Z.abs_N z) 0.

(** *** [parseFloat] on strings

    The longest prefix of the trimmed string that is a StrDecimalLiteral,
    as a Number; [NaN] when there is none. *)
Definition parseExponent (s : string) : Z :=
  match s with
  | String c r =>
      if (Ascii.eqb c "e" || Ascii.eqb c "E")%bool then
        let '(neg, r') :=
          match r with
          | String "-" t => (true, t)
          | String "+" t => (false, t)
          | _ => (false, r)
          end in
        let (ds, _) := span isDigit r' in
        match ds with
        | EmptyString => 0
        | _ => let v := Z.of_N (digitsValue ds 0) in if neg then - v else v
        end
      else 0
  | EmptyString => 0
  end.

Definition parseFloatString (inputString : string) : number :=
  let trimmed := trimStart inputString in
  let '(neg, u) :=
    match trimmed with
    | String "-" t => (true, t)
    | String "+" t => (false, t)
    | _ => (false, trimmed)
    end in
  if String.prefix "Infinity" u then Inf neg else
  let (ip, r1) := span isDigit u in
  let (fp, r2) :=
    match r1 with
    | String "." t => span isDigit t
    | _ => (EmptyString, r1)
    end in
  match ip ++ fp with
  | EmptyString => NaN
  | ds => roundDecimal neg (digitsValue ds 0)
                (parseExponent r2 - Z.of_nat (String.length fp))
  end.

(** ** Values

    The values a Firestore document can hold, as the JavaScript SDK hands
    them to the application: primitives, [Timestamp] objects, arrays and
    plain objects (maps).  [VUndefined] is what reading a missing property
    yields. *)

#[local] Set Warnings "-register-all".

Inductive value : Type :=
| VUndefined
| VNull
| VBool (b : bool)
| VNum (n : number)
| VStr (s : string)
| VTimestamp (seconds nanoseconds : Z)
| VArray (items : list value)
| VObject (fields : list (string * value)).

(** ToBoolean *)
Definition truthy (v : value) : bool :=
  match v with
  | VUndefined | VNull => false
  | VBool b => b
  | VNum NaN => false
  | VNum (Dec _ m _) => negb (N.eqb m 0)
  | VNum (Inf _) => true
  | VStr s => negb (String.eqb s "")
  | VTimestamp _ _ | VArray _ | VObject _ => true
  end.

(** [hasOwnProperty] on a plain object. *)
Definition hasOwn (fields : list (string * value)) (key : string) : bool :=
  existsb (fun kv => String.eqb (fst kv) key) fields.

(** ToString, as [String(v)], [parseFloat(v)] and template literals apply
    it; [None] is a thrown [TypeError].  A Firestore [Timestamp] prints
    through its own [toString]; an array joins its elements with commas,
    printing [null] and [undefined] as nothing.  A plain object prints
    through [Object.prototype.toString] unless it has a property of its
    own named [toString]: a value held by a document or produced by
    [JSON.parse] is never a function, so the conversion then finds no
    method that returns a primitive value and throws. *)
Fixpoint ToString (v : value) : option string :=
  match v with
  | VUndefined => Some "undefined"
  | VNull => Some "null"
  | VBool true => Some "true"
  | VBool false => Some "false"
  | VNum n => Some (NumberToString n)
  | VStr s => Some s
  | VTimestamp sec ns =>
      Some ("Timestamp(seconds=" ++ Z_to_string sec ++
            ", nanoseconds=" ++ Z_to_string ns ++ ")")
  | VArray items =>
      (fix join (l : list value) : option string :=
         match l with
         | [] => Some ""
         | x :: r =>
             match (match x with
                    | VUndefined | VNull => Some ""
                    | _ => ToString x
                    end) with
             | None => None
             | Some sx =>
                 match r with
                 | [] => Some sx
                 | _ =>
                     match join r with
                     | None => None
                     | Some sr => Some (sx ++ "," ++ sr)
                     end
                 end
             end
         end) items
  | VObject fields =>
      if hasOwn fields "toString" then None else Some "[object Object]"
  end.

(** [parseFloat(v)]: the argument is converted with ToString first. *)
Definition parseFloat (v : value) : option number :=
  match ToString v with
  | Some s => Some (parseFloatString s)
  | None => None
  end.

(** [a || b] *)
Definition or_else (a b : value) : value := if truthy a then a else b.

(** Property read [obj.key] on a plain object given by its own enumerable
    properties in [Object.keys] order. *)
Fixpoint get (data : list (string * value)) (key : string) : value :=
  match data with
  | [] => VUndefined
  | (k, v) :: rest => if String.eqb k key then v else get rest key
  end.

(** [Object.keys] *)
Definition keys (data : list (string * value)) : list string := map fst data.

(** ** Dates

    A [Date] is its time value, milliseconds since the epoch, UTC. *)

Definition msPerDay : Z := 86400000.

(** Proleptic Gregorian (year, month, day) of a day number counted from
    1970-01-01. *)
Definition civil_from_days (z0 : Z) : Z * Z * Z :=
  let z := z0 + 719468 in
  let era := z / 146097 in
  let doe := z - era * 146097 in
  let yoe := (doe - doe / 1460 + doe / 36524 - doe / 146096) / 365 in
  let doy := doe - (365 * yoe + yoe / 4 - yoe / 100) in
  let mp := (5 * doy + 2) / 153 in
  let d := doy - (153 * mp + 2) / 5 + 1 in
  let m := if mp <? 10 then mp + 3 else mp - 9 in
  let y := yoe + era * 400 + (if m <=? 2 then 1 else 0) in
  (y, m, d).

Definition pad (width : nat) (z : Z) : string :=
  let s := N_to_string (Z.abs_N z) in
  zeros (width - String.length s) ++ s.

(** [Date.prototype.toISOString] *)
Definition toISOString (t : Z) : string :=
  let '(y, m, d) := civil_from_days (t / msPerDay) in
  let r := t mod msPerDay in
  let year :=
    if (0 <=? y) && (y <=? 9999) then pad 4 y
    else (if y <? 0 then "-" else "+") ++ pad 6 y in
  year ++ "-" ++ pad 2 m ++ "-" ++ pad 2 d ++ "T" ++
  pad 2 (r / 3600000) ++ ":" ++ pad 2 (r / 60000 mod 60) ++ ":" ++
  pad 2 (r / 1000 mod 60) ++ "." ++ pad 3 (r mod 1000) ++ "Z".

(** [Date.prototype.toLocaleString] depends on the host's locale and time
    zone; the application code takes it as a parameter.  This is the
    rendering of the en-US locale in UTC, for concrete runs. *)
Definition toLocaleString_enUS_UTC (t : Z) : string :=
  let '(y, m, d) := civil_from_days (t / msPerDay) in
  let r := t mod msPerDay in
  let h := r / 3600000 in
  let h12 := if h mod 12 =? 0 then 12 else h mod 12 in
  Z_to_string m ++ "/" ++ Z_to_string d ++ "/" ++ Z_to_string y ++ ", " ++
  Z_to_string h12 ++ ":" ++ pad 2 (r / 60000 mod 60) ++ ":" ++
  pad 2 (r / 1000 mod 60) ++ (if h <? 12 then " AM" else " PM").

(** [Timestamp.prototype.toDate]: the time value of
    [new Date(seconds * 1000 + nanoseconds / 1e6)], truncated to an integral
    number of milliseconds. *)
Definition toDate (seconds nanoseconds : Z) : Z :=
  Z.quot (seconds * 1000000000 + nanoseconds) 1000000.

End JS.

(* ================================================================== *)
(** * JSON.parse *)
(* ================================================================== *)

(** The application takes [JSON.parse] from the platform; its functions
    below are parametric in it.  [JSON.parse] here is a reference parser of
    the JSON grammar for concrete runs: [None] stands for a thrown
    [SyntaxError]. *)

Module JSON.
Import JS.

(** JSON white space: TAB, LF, CR, SP. *)
Definition isJSONWhiteSpace (c : ascii) : bool :=
  let n := nat_of_ascii c in
  ((n =? 9) || (n =? 10) || (n =? 13) || (n =? 32))%nat.

Fixpoint skipWs (s : string) : string :=
  match s with
  | String c r => if isJSONWhiteSpace c then skipWs r else s
  | EmptyString => EmptyString
  end.

Definition hexValue (c : ascii) : option nat :=
  let n := nat_of_ascii c in
  if ((48 <=? n) && (n <=? 57))%nat then Some (n - 48)%nat
  else if ((65 <=? n) && (n <=? 70))%nat then Some (n - 55)%nat
  else if ((97 <=? n) && (n <=? 102))%nat then Some (n - 87)%nat
  else None.

(** The code unit of [\uXXXX], when it is one [string] can hold.  An escape
    for a code unit of 256 or more denotes text outside [string]; this
    parser does not accept it, which the platform's parser does. *)
Definition hex4 (a b c d : ascii) : option ascii :=
  match hexValue a, hexValue b, hexValue c, hexValue d with
  | Some x, Some y, Some z, Some w =>
      let u := (((x * 16 + y) * 16 + z) * 16 + w)%nat in
      if (u <? 256)%nat then Some (ascii_of_nat u) else None
  | _, _, _, _ => None
  end.

(** The characters of a JSON string after its opening quote, up to the
    closing quote, and the text after it. *)
Fixpoint parseChars (s : string) : option (string * string) :=
  let cons (c : ascii) (k : option (string * string)) :=
    match k with
    | Some (t, rest) => Some (String c t, rest)
    | None => None
    end in
  match s with
  | EmptyString => None
  | String c r =>
      if Ascii.eqb c (ascii_of_nat 34) then Some (EmptyString, r)
      else if (nat_of_ascii c <? 32)%nat then None
      else if Ascii.eqb c (ascii_of_nat 92) then
        match r with
        | String "u" (String a (String b (String x (String y r')))) =>
            match hex4 a b x y with
            | Some u => cons u (parseChars r')
            | None => None
            end
        | String e r' =>
            if Ascii.eqb e (ascii_of_nat 34) then cons e (parseChars r')
            else if Ascii.eqb e (ascii_of_nat 92) then cons e (parseChars r')
            else if Ascii.eqb e "/" then cons e (parseChars r')
            else if Ascii.eqb e "b" then cons (ascii_of_nat 8) (parseChars r')
            else if Ascii.eqb e "f" then cons (ascii_of_nat 12) (parseChars r')
            else if Ascii.eqb e "n" then cons (ascii_of_nat 10) (parseChars r')
            else if Ascii.eqb e "r" then cons (ascii_of_nat 13) (parseChars r')
            else if Ascii.eqb e "t" then cons (ascii_of_nat 9) (parseChars r')
            else None
        | EmptyString => None
        end
      else cons c (parseChars r)
  end.

(** A JSON number at the head of [s]. *)
Definition parseNumber (s : string) : option (number * string) :=
  let '(neg, r0) :=
    match s with String "-" t => (true, t) | _ => (false, s) end in
  let (ip, r1) := span isDigit r0 in
  let intOk :=
    match ip with
    | EmptyString => false
    | String "0" (String _ _) => false
    | _ => true
    end in
  if negb intOk then None else
  let frac :=
    match r1 with
    | String "." t =>
        let (fp, r2) := span isDigit t in
        match fp with EmptyString => None | _ => Some (fp, r2) end
    | _ => Some (EmptyString, r1)
    end in
  match frac with
  | None => None
  | Some (fp, r2) =>
      let mk (ex : Z) (rest : string) :=
        Some (roundDecimal neg (digitsValue (ip ++ fp) 0)
                (ex - Z.of_nat (String.length fp)), rest) in
      match r2 with
      | String c t =>
          if (Ascii.eqb c "e" || Ascii.eqb c "E")%bool then
            let '(eneg, t') :=
              match t with
              | String "-" u => (true, u)
              | String "+" u => (false, u)
              | _ => (false, t)
              end in
            let (ds, r3) := span isDigit t' in
            match ds with
            | EmptyString => None
            | _ => let v := Z.of_N (digitsValue ds 0) in
                   mk (if eneg then - v else v) r3
            end
          else mk 0 r2
      | EmptyString => mk 0 r2
      end
  end.

(** CreateDataProperty: a repeated key keeps its place and takes the later
    value. *)
Fixpoint setField (fields : list (string * value)) (k : string) (v : value)
  : list (string * value) :=
  match fields with
  | [] => [(k, v)]
  | (k', v') :: rest =>
      if String.eqb k' k then (k', v) :: rest
      else (k', v') :: setField rest k v
  end.

(** Recursive descent.  [fuel] bounds the nesting of calls; every call
    consumes a character before the next one of its kind. *)
Fixpoint parseValue (fuel : nat) (s : string) {struct fuel}
  : option (value * string) :=
  match fuel with
  | O => None
  | S f =>
      match skipWs s with
      | EmptyString => None
      | String c r as t =>
          if Ascii.eqb c "{" then
            match skipWs r with
            | String "}" r' => Some (VObject [], r')
            | r' => parseMembers f r' []
            end
          else if Ascii.eqb c "[" then
            match skipWs r with
            | String "]" r' => Some (VArray [], r')
            | r' => parseElements f r' []
            end
          else if Ascii.eqb c (ascii_of_nat 34) then
            match parseChars r with
            | Some (str, r') => Some (VStr str, r')
            | None => None
            end
          else if String.prefix "null" t then
            Some (VNull, substring 4 (String.length t - 4) t)
          else if String.prefix "true" t then
            Some (VBool true, substring 4 (String.length t - 4) t)
          else if String.prefix "false" t then
            Some (VBool false, substring 5 (String.length t - 5) t)
          else
            match parseNumber t with
            | Some (n, r') => Some (VNum n, r')
            | None => None
            end
      end
  end
with parseElements (fuel : nat) (s : string) (acc : list value) {struct fuel}
  : option (value * string) :=
  match fuel with
  | O => None
  | S f =>
      match parseValue f s with
      | Some (v, r) =>
          match skipWs r with
          | String "," r' => parseElements f r' (acc ++ [v])
          | String "]" r' => Some (VArray (acc ++ [v]), r')
          | _ => None
          end
      | None => None
      end
  end
with parseMembers (fuel : nat) (s : string) (acc : list (string * value))
  {struct fuel} : option (value * string) :=
  match fuel with
  | O => None
  | S f =>
      match skipWs s with
      | String c r =>
          if Ascii.eqb c (ascii_of_nat 34) then
            match parseChars r with
            | Some (k, r1) =>
                match skipWs r1 with
                | String ":" r2 =>
                    match parseValue f r2 with
                    | Some (v, r3) =>
                        match skipWs r3 with
                        | String "," r4 => parseMembers f r4 (setField acc k v)
                        | String "}" r4 => Some (VObject (setField acc k v), r4)
                        | _ => None
                        end
                    | None => None
                    end
                | _ => None
                end
            | None => None
            end
          else None
      | EmptyString => None
      end
  end.

(** [JSON.parse(text)] *)
Definition parse (text : string) : option value :=
  match parseValue (2 * String.length text + 2) text with
  | Some (v, r) =>
      match skipWs r with
      | EmptyString => Some v
      | _ => None
      end
  | None => None
  end.

End JSON.

(* ================================================================== *)
(** * Outcomes of asynchronous functions *)
(* ================================================================== *)

(** What a collaborator rejects with: Firestore errors carry a [code] and a
    [message]; an absent message is the empty string. *)
Record Failure : Type := mkFailure { code : string; message : string }.

(** Thrown values, each with its [message]. *)
Inductive Exn : Type :=
| Error (msg : string)            (* [new Error(msg)] *)
| SyntaxError (msg : string)      (* thrown by [JSON.parse] *)
| TypeError (msg : string)        (* thrown by a conversion of the engine *)
| Rejected (f : Failure).         (* a collaborator's rejection, rethrown *)

(** How a promise settles. *)
Inductive Outcome (A : Type) : Type :=
| Return (a : A)
| Throw (e : Exn).
Arguments Return {A} a.
Arguments Throw {A} e.

(** [err.message] *)
Definition exn_message (e : Exn) : string :=
  match e with
  | Error m => m
  | SyntaxError m => m
  | TypeError m => m
  | Rejected f => message f
  end.

(** Sequencing: what follows a step runs only if the step did not throw. *)
Definition andThen {A B : Type} (o : Outcome A) (f : A -> Outcome B)
  : Outcome B :=
  match o with
  | Return a => f a
  | Throw e => Throw e
  end.

(* ================================================================== *)
(** * types.ts *)
(* ================================================================== *)

Module Types.

(** [Report].  types.ts declares [address], [dateTime], [description] and
    [imageBase64] as [string]; [S] is the type of what these four fields
    hold.  Code that receives a [Report] relies on the declaration
    ([Report := ReportOf string]); [fetchReports] fills them from the
    any-typed document with [data.x || default], so what it builds is a
    [ReportOf JS.value]. *)
Record ReportOf (S : Type) : Type := mkReport {
  id : string;
  address : S;
  dateTime : S;
  description : S;
  imageBase64 : S;
  latitude : JS.number;
  longitude : JS.number;
  timestampString : option string
}.
Arguments mkReport {S}.
Arguments id {S}.
Arguments address {S}.
Arguments dateTime {S}.
Arguments description {S}.
Arguments imageBase64 {S}.
Arguments latitude {S}.
Arguments longitude {S}.
Arguments timestampString {S}.

Definition Report : Type := ReportOf string.

Inductive Role : Type := user | model.

Record ChatMessage : Type := mkChatMessage {
  role : Role;
  text : string;
  timestamp : option Z
}.

End Types.

(* ================================================================== *)
(** * services/firebase.ts *)
(* ================================================================== *)

Module Firebase.
Import JS Types.

(** A document of the query snapshot: [doc.id] and [doc.data()], the latter
    as its fields in [Object.keys] order. *)
Record Doc : Type := mkDoc {
  doc_id : string;
  doc_data : list (string * value)
}.

Section Normalizer.

(** The host's [Date.prototype.toLocaleString]. *)
Variable toLocaleString : Z -> string.

(** The [message] the engine gives the [TypeError] it throws when a value
    cannot be converted to a primitive value. *)
Variable typeErrorMessage : value -> string.

(** A conversion of [v] by the engine, or the [TypeError] it throws. *)
Definition converted {A : Type} (v : value) (result : option A) : Outcome A :=
  match result with
  | Some a => Return a
  | None => Throw (TypeError (typeErrorMessage v))
  end.

(** [String(v)], and [v] in a template literal. *)
Definition stringOf (v : value) : Outcome string := converted v (ToString v).

(** [parseFloat(v)] *)
Definition parseFloatOf (v : value) : Outcome number :=
  converted v (parseFloat v).

(** [v.toDate()] when [typeof v.toDate === 'function']: among the values a
    document holds, only a [Timestamp] has a [toDate] method. *)
Definition toDateOf (v : value) : option Z :=
  match v with VTimestamp sec ns => Some (toDate sec ns) | _ => None end.

(** [v === "..."] *)
Definition isPlaceholder (v : value) : bool :=
  match v with VStr s => String.eqb s "..." | _ => false end.

(** The [timestampStr] local of the [forEach] callback, or what computing
    it throws. *)
Definition timestampStr (data : list (string * value)) : Outcome string :=
  let ts := get data "timestamp" in
  match (if truthy ts then toDateOf ts else None) with
  | Some date => Return (toLocaleString date)
  | None =>
      if truthy ts then stringOf ts
      else if truthy (get data "timestampJanuary") then
        andThen (stringOf (get data "timestampJanuary"))
                (fun january => Return ("January " ++ january))
      else
        match find (fun k => startsWith k "timestamp") (keys data) with
        | Some tsKey =>
            if negb (String.eqb tsKey "") then stringOf (get data tsKey)
            else Return "Unknown Time"
        | None => Return "Unknown Time"
        end
  end.

(** The [imgBase64] local of the [forEach] callback. *)
Definition imgBase64 (data : list (string * value)) : value :=
  let img := or_else (get data "imageBase64") (VStr "") in
  if isPlaceholder img then VStr "" else img.

(** The body of the [forEach] callback of [fetchReports]: the report pushed
    for one document, or what the callback throws before it pushes one.
    [now] is the instant [new Date()] reads. *)
Definition normalize (now : Z) (doc : Doc) : Outcome (ReportOf value) :=
  let data := doc_data doc in
  andThen (parseFloatOf (get data "latitude")) (fun lat =>
  andThen (parseFloatOf (get data "longitude")) (fun lng =>
  andThen (timestampStr data) (fun timestampStr =>
  Return
    {| id := doc_id doc;
       address := or_else (get data "address") (VStr "Unknown Location");
       dateTime := or_else (get data "dateTime") (VStr (toISOString now));
       description := or_else (get data "description")
                              (VStr "No description provided");
       imageBase64 := imgBase64 data;
       latitude := if isNaN lat then zero else lat;
       longitude := if isNaN lng then zero else lng;
       timestampString := Some timestampStr |}))).

(** [querySnapshot.forEach]: document [i] is normalised at instant
    [clock i]; the first callback that throws ends the loop. *)
Fixpoint forEach (clock : nat -> Z) (i : nat) (docs : list Doc)
  : Outcome (list (ReportOf value)) :=
  match docs with
  | [] => Return []
  | d :: rest =>
      andThen (normalize (clock i) d) (fun report =>
      andThen (forEach clock (S i) rest) (fun reports =>
      Return (report :: reports)))
  end.

(** [error.message || fallback] *)
Definition messageOr (error : Exn) (fallback : string) : string :=
  if String.eqb (exn_message error) "" then fallback else exn_message error.

(** [fetchReports], given how [getDocs] settles: whatever the [try] block
    throws, the store's rejection or an exception of a callback, is caught
    and replaced by an [Error] with its message. *)
Definition fetchReports (clock : nat -> Z) (getDocs : Failure + list Doc)
  : Outcome (list (ReportOf value)) :=
  let attempt :=
    match getDocs with
    | inr docs => forEach clock 0 docs
    | inl f => Throw (Rejected f)
    end in
  match attempt with
  | Return reports => Return reports
  | Throw error => Throw (Error (messageOr error "Unknown Firestore Error"))
  end.

End Normalizer.

(** [deleteReport], given how [deleteDoc] settles if it is called
    ([None]: resolved).  The second component lists the identifiers
    [deleteDoc] was called with. *)
Definition deleteReport (deleteDoc : option Failure) (id : string)
  : Outcome unit * list string :=
  if String.eqb id "" then (Throw (Error "Invalid ID provided"), [])
  else
    match deleteDoc with
    | None => (Return tt, [id])
    | Some f =>
        if String.eqb (code f) "permission-denied" then
          (Throw (Error "Permission denied: You do not have rights to delete this report."),
           [id])
        else
          (Throw (Error (if String.eqb (message f) "" then "Failed to delete report"
                         else message f)),
           [id])
    end.

End Firebase.

(* ================================================================== *)
(** * services/geminiService.ts *)
(* ================================================================== *)

Module Gemini.
Import JS Types.

(** ** Requests and responses of the generative model *)

#[local] Set Warnings "-register-all".

(** Response schemas, as the object literals passed in [responseSchema]. *)
Inductive Schema : Type :=
| STRING (description : option string) (enum : option (list string))
| BOOLEAN (description : option string)
| ARRAY (description : option string) (items : Schema)
| OBJECT (properties : list (string * Schema)) (required : list string).

Inductive Part : Type :=
| inlineData (mimeType data : string)
| textPart (t : string).

Inductive Contents : Type :=
| promptOnly (prompt : string)
| parts (ps : list Part).

Record Config : Type := mkConfig {
  responseMimeType : string;
  responseSchema : Schema;
  thinkingBudget : option Z
}.

Record GenRequest : Type := mkGenRequest {
  model : string;
  contents : Contents;
  config : Config
}.

(** [response.text]: a string or [undefined]. *)
Record GenResponse : Type := mkGenResponse { text : option string }.

(** [if (x)] on a string or [undefined]. *)
Definition present (t : option string) : option string :=
  match t with
  | Some s => if String.eqb s "" then None else Some s
  | None => None
  end.

(** A function's settled outcome together with the requests it issued. *)
Definition Async (Req A : Type) : Type := Outcome A * list Req.

(** ** The response schemas *)

Definition analysisSchema : Schema :=
  OBJECT
    [ ("strategicOverview",
       STRING (Some "A short, 2-sentence executive summary of the current situation for the mayor.") None);
      ("prioritizedReports",
       ARRAY None
         (OBJECT
            [ ("reportId", STRING (Some "The exact ID of the report being referenced.") None);
              ("severity", STRING None (Some ["Critical"; "High"; "Medium"; "Low"]));
              ("displayTitle", STRING (Some "A short 3-5 word title for the problem (e.g. 'Fallen Tree Blocking Road')") None);
              ("actionPlan", STRING (Some "Specific instruction on what to do. If irrelevant, explain why.") None);
              ("recommendedResource", STRING (Some "The specific team to send (e.g. 'Fire Dept', 'TNB', 'Public Works'). If irrelevant, use 'None' or 'Private'.") None);
              ("justification", STRING (Some "Why this priority level was chosen.") None);
              ("isRelevant", BOOLEAN (Some "Set to FALSE if the issue is a private matter (e.g. broken TV, personal dispute) or outside government jurisdiction. Set to TRUE for public issues.")) ]
            [ "reportId"; "severity"; "displayTitle"; "actionPlan";
              "recommendedResource"; "justification"; "isRelevant" ])) ]
    [ "strategicOverview"; "prioritizedReports" ].

Definition verificationSchema : Schema :=
  OBJECT
    [ ("matchesDescription", BOOLEAN None);
      ("isRelevant", BOOLEAN (Some "True for Public/Gov issues, False for Private/Civil issues."));
      ("findings", ARRAY (Some "List of 3 concise observations (max 10 words each).")
                         (STRING None None)) ]
    [ "matchesDescription"; "isRelevant"; "findings" ].

Section Service.

(** The platform's [JSON.parse]: the parsed value, or the message of the
    [SyntaxError] it throws. *)
Variable JSON_parse : string -> string + value.

(** How [ai.models.generateContent] settles on a request. *)
Variable generateContent : GenRequest -> Failure + GenResponse.

Definition modelId : string := "gemini-3-flash-preview".

(** [r.timestampString || r.dateTime] *)
Definition timeLabel (r : Report) : string :=
  match present (timestampString r) with
  | Some t => t
  | None => dateTime r
  end.

(** [Array.prototype.join] *)
Fixpoint join (sep : string) (l : list string) : string :=
  match l with
  | [] => ""
  | [x] => x
  | x :: rest => x ++ sep ++ join sep rest
  end.

Definition reportSummary (r : Report) : string :=
  "ID: " ++ id r ++ "
    Location: " ++ address r ++ "
    Issue: " ++ description r ++ "
    Time: " ++ timeLabel r.

Definition analysisPrompt (reports : list Report) : string :=
  let reportSummaries :=
    join (String LF "---" ++ String LF "") (map reportSummary reports) in
  "
    You are " ++ dq ++ "Lightning AI" ++ dq ++ ", an intelligent consultant for local government.
    Analyze the following citizen reports and create a prioritized response plan.

    CRITICAL INSTRUCTIONS:
    1. JURISDICTION CHECK:
       Identify reports that are NOT under the jurisdiction of local government (e.g. " ++ dq ++ "My TV is broken" ++ dq ++ ", " ++ dq ++ "Neighbor's dog is barking inside their house" ++ dq ++ ", " ++ dq ++ "Private driveway repair" ++ dq ++ ", " ++ dq ++ "Personal disputes" ++ dq ++ ").
       Mark these as irrelevant (isRelevant: false). Valid government issues include roads, drainage, public safety, streetlights, waste, public trees, etc.

    2. PRIORITY CLASSIFICATION RULES:
       - **Critical**: You MUST classify as 'Critical' if the issue involves:
         a) **Life-threatening situations**.
         b) **Traffic jams, road obstructions, or hazards** (like deep potholes or fallen trees) that have a **high potential to cause accidents**.
       - **High**: Major disruptions or significant safety hazards that are not immediately life-threatening.
       - **Medium**: Functional issues or nuisances (e.g. clogged drains, garbage piles).
       - **Low**: Cosmetic or minor maintenance issues.
    
    Reports:
    " ++ reportSummaries ++ "
  ".

Definition analysisRequest (reports : list Report) : GenRequest :=
  {| model := modelId;
     contents := promptOnly (analysisPrompt reports);
     config := {| responseMimeType := "application/json";
                  responseSchema := analysisSchema;
                  thinkingBudget := Some 0 |} |}.

(** The tail shared by [analyzeReports] and [verifyReportImage]: the [try]
    block around the request.  The parsed value is returned as it is, under
    a type assertion. *)
Definition requestJSON (req : GenRequest) : Async GenRequest (option value) :=
  match generateContent req with
  | inl f => (Throw (Rejected f), [req])
  | inr response =>
      match present (text response) with
      | Some t =>
          match JSON_parse t with
          | inr v => (Return (Some v), [req])
          | inl msg => (Throw (SyntaxError msg), [req])
          end
      | None => (Return None, [req])
      end
  end.

(** [analyzeReports] *)
Definition analyzeReports (reports : list Report)
  : Async GenRequest (option value) :=
  if (List.length reports =? 0)%nat then (Return None, [])
  else requestJSON (analysisRequest reports).

(** [sendChatMessage], given how [chat.sendMessage({ message })] settles.
    The second component lists the messages sent to the chat handle. *)
Definition sendChatMessage (sendMessage : string -> Failure + GenResponse)
  (message : string) : Async string string :=
  match sendMessage message with
  | inr result =>
      (Return match present (text result) with
              | Some t => t
              | None => "I couldn't generate a response."
              end, [message])
  | inl f => (Throw (Rejected f), [message])
  end.

(** [s.match] with the regular expression of [verifyReportImage]: the text
    [data:], a lazy group of non-line-terminators, the text [;base64,] and a
    greedy group of non-line-terminators.  The result is the two groups of
    the leftmost match. *)
Fixpoint lazyUntil (p s : string) : option (string * string) :=
  if String.prefix p s then
    Some (EmptyString,
          substring (String.length p) (String.length s - String.length p) s)
  else
    match s with
    | EmptyString => None
    | String c r =>
        if isLineTerminator c then None
        else match lazyUntil p r with
             | Some (g, rest) => Some (String c g, rest)
             | None => None
             end
    end.

Fixpoint matchDataUrl (s : string) : option (string * string) :=
  let here :=
    if String.prefix "data:" s then
      match lazyUntil ";base64," (substring 5 (String.length s - 5) s) with
      | Some (g1, rest) =>
          Some (g1, fst (span (fun c => negb (isLineTerminator c)) rest))
      | None => None
      end
    else None in
  match here with
  | Some m => Some m
  | None =>
      match s with
      | EmptyString => None
      | String _ r => matchDataUrl r
      end
  end.

(** [s.split(sep)[1]] when [sep] occurs in [s]: the text between the first
    occurrence of [sep] and the next one. *)
Definition splitSecond (sep s : string) : string :=
  match splitFirst sep s with
  | Some (_, after) =>
      match splitFirst sep after with
      | Some (piece, _) => piece
      | None => after
      end
  | None => s
  end.

(** The [mimeType] and [cleanBase64] locals of [verifyReportImage]. *)
Definition detectMime (img : string) : string * string :=
  if includes img "data:" && includes img "base64," then
    match matchDataUrl img with
    | Some (g1, g2) => (g1, g2)
    | None => ("image/jpeg", img)
    end
  else if includes img "base64," then ("image/jpeg", splitSecond "base64," img)
  else ("image/jpeg", img).

Definition verificationPrompt (report : Report) : string :=
  "
    You are an expert Local Government Consultant and AI Auditor.
    
    Task:
    1. Analyze the image and compare it to the description: " ++ dq ++ description report ++ dq ++ ".
    2. Determine if the reported issue is visually confirmed by the image.
    3. Determine if this falls under **Local Government Jurisdiction** (e.g. Public Roads, Drains, Streetlights, Public Trees, Waste) or is a **Private/Civil matter** (e.g. Private house interior, personal appliance, neighbor argument, private condo facility).
    
    Output Requirements:
    - findings: A list of 3 extremely concise bullet points (max 10 words each). Simple English. State clearly what is seen.

    Return valid JSON.
  ".

Definition verificationRequest (report : Report) : GenRequest :=
  let (mimeType, cleanBase64) := detectMime (imageBase64 report) in
  {| model := modelId;
     contents := parts [ inlineData mimeType cleanBase64;
                         textPart (verificationPrompt report) ];
     config := {| responseMimeType := "application/json";
                  responseSchema := verificationSchema;
                  thinkingBudget := None |} |}.

(** [!report.imageBase64 || report.imageBase64.length < 50] *)
Definition noValidImage (report : Report) : bool :=
  String.eqb (imageBase64 report) "" ||
  (String.length (imageBase64 report) <? 50)%nat.

(** [verifyReportImage] *)
Definition verifyReportImage (report : Report)
  : Async GenRequest (option value) :=
  if noValidImage report then (Throw (Error "No valid image to verify"), [])
  else requestJSON (verificationRequest report).

End Service.

End Gemini.

(* ================================================================== *)
(** * components/SolutionPanel.tsx: the consultation chat *)
(* ================================================================== *)

Module SolutionPanel.
Import JS Types.

(** The chat handle held in [chatRef.current]: how its [sendMessage]
    settles on a message. *)
Definition Chat : Type := string -> Failure + Gemini.GenResponse.

(** The chat state of the component. *)
Record State : Type := mkState {
  chatRef : option Chat;
  messages : list ChatMessage;
  input : string;
  chatLoading : bool
}.

Definition apology : string :=
  "Sorry, I encountered an error responding to that.".

(** [handleSendChat].  [t0] is the instant read when the operator's message
    is built, [t1] the one read when the chat call has settled.  The
    result is the state after the handler has run to completion, how its
    promise settles, and the messages sent to the chat handle. *)
Definition handleSendChat (t0 t1 : Z) (st : State)
  : State * Outcome unit * list string :=
  match chatRef st with
  | None => (st, Return tt, [])
  | Some chat =>
      if String.eqb (trim (input st)) "" then (st, Return tt, [])
      else
        let userMsg := mkChatMessage user (input st) (Some t0) in
        let st1 := {| chatRef := chatRef st;
                      messages := messages st ++ [userMsg];
                      input := "";
                      chatLoading := true |} in
        let (settled, sent) := Gemini.sendChatMessage chat (text userMsg) in
        let reply :=
          match settled with
          | Return responseText => mkChatMessage model responseText (Some t1)
          | Throw _ => mkChatMessage model apology (Some t1)
          end in
        ({| chatRef := chatRef st1;
            messages := messages st1 ++ [reply];
            input := input st1;
            chatLoading := false |}, Return tt, sent)
  end.

End SolutionPanel.

(* ================================================================== *)
(** * App.tsx and components/ReportTable.tsx: deleting a report *)
(* ================================================================== *)

Module Deletion.
Import JS Types.

(** The [deleteState] of a [ReportRow]. *)
Inductive DeleteState : Type := idle | confirm | deleting.

(** The row of one report, the [App] state it acts on, and the event loop
    around them. *)
Record World : Type := mkWorld {
  clock : Z;                     (* the current instant, in milliseconds *)
  deleteState : DeleteState;     (* [ReportRow] state *)
  timers : list Z;               (* deadlines of the row's pending timeouts *)
  awaiting : bool;               (* the row awaits [onDelete] *)
  reports : list Report;         (* [App] state: the working set *)
  alerts : list string;          (* messages shown by [alert] *)
  deleteDocCalls : list string   (* identifiers [deleteDoc] was called with *)
}.

Definition set_deleteState (f : DeleteState -> DeleteState) (w : World) : World :=
  {| clock := clock w; deleteState := f (deleteState w); timers := timers w;
     awaiting := awaiting w; reports := reports w; alerts := alerts w;
     deleteDocCalls := deleteDocCalls w |}.

(** [handleDelete] of App.tsx once [deleteReport] has settled: the new
    working set and alerts. *)
Definition handleDelete (settled : Outcome unit) (rid : string) (w : World)
  : World :=
  match settled with
  | Return _ =>
      {| clock := clock w; deleteState := deleteState w; timers := timers w;
         awaiting := awaiting w;
         reports := filter (fun r => negb (String.eqb (id r) rid)) (reports w);
         alerts := alerts w; deleteDocCalls := deleteDocCalls w |}
  | Throw err =>
      {| clock := clock w; deleteState := deleteState w; timers := timers w;
         awaiting := awaiting w; reports := reports w;
         alerts := alerts w ++ ["Failed to delete report: " ++ exn_message err];
         deleteDocCalls := deleteDocCalls w |}
  end.

(** [prev => prev === 'confirm' ? 'idle' : prev] *)
Definition reverted (prev : DeleteState) : DeleteState :=
  match prev with confirm => idle | _ => prev end.

(** The callback armed by [setTimeout]: [setDeleteState] with the updater
    above. *)
Definition timerCallback (w : World) : World := set_deleteState reverted w.

Section Row.

(** [report.id] of the row. *)
Variable rid : string.

(** What follows [await onDelete(report.id)] in [handleDeleteClick], once the
    store has answered: [handleDelete] finishes, then the row goes back to
    [idle]. *)
Definition resume (deleteDoc : option Failure) (w : World) : World :=
  let w1 := handleDelete (fst (Firebase.deleteReport deleteDoc rid)) rid w in
  {| clock := clock w1; deleteState := idle; timers := timers w1;
     awaiting := false; reports := reports w1; alerts := alerts w1;
     deleteDocCalls := deleteDocCalls w1 |}.

(** [handleDeleteClick], up to its [await].  In [confirm] it calls
    [onDelete], that is [handleDelete] and through it [deleteReport]: the
    store is called with what [deleteReport] calls it with, which does not
    depend on how the store will answer, and the handler waits for the
    answer.  When [deleteReport] throws before calling the store, nothing
    is awaited and the handler runs to its end. *)
Definition handleDeleteClick (w : World) : World :=
  match deleteState w with
  | idle =>
      {| clock := clock w; deleteState := confirm;
         timers := timers w ++ [clock w + 3000];
         awaiting := awaiting w; reports := reports w; alerts := alerts w;
         deleteDocCalls := deleteDocCalls w |}
  | confirm =>
      let w1 := set_deleteState (fun _ => deleting) w in
      match snd (Firebase.deleteReport None rid) with
      | [] => resume None w1
      | calls =>
          {| clock := clock w1; deleteState := deleteState w1;
             timers := timers w1; awaiting := true; reports := reports w1;
             alerts := alerts w1;
             deleteDocCalls := deleteDocCalls w1 ++ calls |}
      end
  | deleting => w
  end.

(** The store answers the pending delete. *)
Definition settle (deleteDoc : option Failure) (w : World) : World :=
  if awaiting w then resume deleteDoc w else w.

(** Time passes: [dt] milliseconds later every timeout whose deadline has
    been reached has run. *)
Definition advance (dt : Z) (w : World) : World :=
  let now := clock w + dt in
  let due := filter (fun d => d <=? now) (timers w) in
  let w1 := fold_left (fun acc _ => timerCallback acc) due w in
  {| clock := now; deleteState := deleteState w1;
     timers := filter (fun d => negb (d <=? now)) (timers w);
     awaiting := awaiting w1; reports := reports w1; alerts := alerts w1;
     deleteDocCalls := deleteDocCalls w1 |}.

End Row.

End Deletion.

(* ================================================================== *)
(** * Image sources shown by the components *)
(* ================================================================== *)

Module Views.
Import JS Types.

(** The [imageSrc] of [ReportRow], of the map markers and of the action
    items: a payload that does not already start as an image data URL is
    wrapped as a JPEG one. *)
Definition imageSrc (img : string) : string :=
  if startsWith img "data:image" then img
  else "data:image/jpeg;base64," ++ img.

End Views.

(* ================================================================== *)
(** * services/geminiService.ts: [createAnalysisChat] *)
(* ================================================================== *)

Module GeminiChat.
Import JS Types.

(** [v.k] on a value that is neither [null] nor [undefined], for a property
    name [k] that no built-in prototype defines ([prioritizedReports],
    [reportId], [severity], [isRelevant], [strategicOverview]): an object
    gives its own property, anything else [undefined]. *)
Definition field (v : value) (k : string) : value :=
  match v with
  | VObject fields => get fields k
  | _ => VUndefined
  end.

(** [v] is a plain object. *)
Definition isObject (v : value) : Prop := exists fields, v = VObject fields.

(** [v] prints: converting it to a string does not throw. *)
Definition prints (v : value) : Prop := exists text, ToString v = Some text.

(** A verdict whose line can be written: a plain object whose [severity]
    and [isRelevant] print. *)
Definition isVerdict (p : value) : Prop :=
  exists fields, p = VObject fields /\
                 prints (get fields "severity") /\
                 prints (get fields "isRelevant").

(** [l.find(p => p.reportId === rid)] on the elements of an array: [None] is
    the [TypeError] of reading [reportId] on [null] or [undefined], [Some
    None] is [undefined] (no element matches).  Elements after the first
    match are not visited. *)
Fixpoint findPriority (rid : string) (l : list value) : option (option value) :=
  match l with
  | [] => Some None
  | p :: rest =>
      match p with
      | VUndefined | VNull => None
      | _ =>
          match field p "reportId" with
          | VStr s0 => if String.eqb s0 rid then Some (Some p)
                       else findPriority rid rest
          | _ => findPriority rid rest
          end
      end
  end.

(** [analysis.prioritizedReports.find(...)]: only an array has a [find]
    method; on anything else the call is a [TypeError]. *)
Definition priorityOf (analysis : value) (rid : string) : option (option value) :=
  match field analysis "prioritizedReports" with
  | VArray l => findPriority rid l
  | _ => None
  end.

(** One line of [reportSummaries], or [None] when building it throws. *)
Definition chatLine (analysis : value) (r : Report) : option string :=
  match priorityOf analysis (id r) with
  | None => None
  | Some priority =>
      let severity :=
        match priority with
        | Some p => or_else (field p "severity") (VStr "N/A")
        | None => VStr "N/A"
        end in
      let relevant :=
        match priority with
        | Some p => field p "isRelevant"
        | None => VUndefined
        end in
      match ToString severity, ToString relevant with
      | Some severityText, Some relevantText =>
          Some ("[ID: " ++ id r ++ "] Loc: " ++ address r ++ " | Issue: " ++
                description r ++ " | Severity: " ++ severityText ++
                " | Relevant: " ++ relevantText)
      | _, _ => None
      end
  end.

(** [reports.map(...)]: the lines in order, or [None] at the first throw. *)
Fixpoint chatLines (analysis : value) (reports : list Report)
  : option (list string) :=
  match reports with
  | [] => Some []
  | r :: rest =>
      match chatLine analysis r with
      | None => None
      | Some line =>
          match chatLines analysis rest with
          | None => None
          | Some lines => Some (line :: lines)
          end
      end
  end.

(** The [systemInstruction] local, or [None] when building it throws. *)
Definition systemInstruction (reports : list Report) (analysis : value)
  : option string :=
  match chatLines analysis reports,
        ToString (field analysis "strategicOverview") with
  | Some lines, Some strategicOverview =>
      let reportSummaries := Gemini.join (String LF "") lines in
      Some ("
    You are Lightning AI, a smart assistant for local government admins.
    You have just performed a strategic analysis of citizen reports.

    Current Situation Overview: " ++ dq ++ strategicOverview ++ dq ++ "

    Report Data:
    " ++ reportSummaries ++ "

    The admin will ask questions about these reports.
    If a report was marked as irrelevant (isRelevant: false), explain that it falls outside municipal jurisdiction (e.g. private property, personal appliances).
    Otherwise, answer concisely about resources and action plans.
  ")
  | _, _ => None
  end.

(** What [ai.chats.create] is called with. *)
Record ChatRequest : Type := mkChatRequest {
  chat_model : string;
  chat_systemInstruction : string
}.

(** [createAnalysisChat], given the SDK's [ai.chats.create]: the handle, or
    [None] when a [TypeError] is thrown before the handle is created. *)
Definition createAnalysisChat (create : ChatRequest -> SolutionPanel.Chat)
  (reports : list Report) (analysis : value) : option SolutionPanel.Chat :=
  match systemInstruction reports analysis with
  | None => None
  | Some instruction =>
      Some (create {| chat_model := "gemini-3-flash-preview";
                      chat_systemInstruction := instruction |})
  end.

End GeminiChat.

(* ================================================================== *)
(** * components/SolutionPanel.tsx: the whole panel *)
(* ================================================================== *)

Module Panel.
Import JS Types.

(** The state of [SolutionPanel]: the analysis (a parsed value held under
    a type assertion, or [null]), the two flags of the analysis request and
    the chat state. *)
Record State : Type := mkState {
  analysis : option value;
  loading : bool;
  error : option string;
  chat : SolutionPanel.State
}.

Definition initial : State :=
  {| analysis := None; loading := false; error := None;
     chat := {| SolutionPanel.chatRef := None; SolutionPanel.messages := [];
                SolutionPanel.input := ""; SolutionPanel.chatLoading := false |} |}.

Definition greetingText : string :=
  "I've analyzed the reports. I can help you with specific details, resource contacts, or drafting public announcements. What do you need?".

Definition noResults : string := "AI returned empty results.".

Definition noPlan : string :=
  "Unable to generate strategic plan. Please check connectivity and try again.".

(** [handleGenerateSolution], run to completion on the [reports] prop.
    [now] is the instant read for the greeting.  When [createAnalysisChat]
    throws, [setAnalysis] has already run. *)
Definition handleGenerateSolution
  (JSON_parse : string -> string + value)
  (generateContent : Gemini.GenRequest -> Failure + Gemini.GenResponse)
  (create : GeminiChat.ChatRequest -> SolutionPanel.Chat)
  (reports : list Report) (now : Z) (st : State)
  : State * list Gemini.GenRequest :=
  let (settled, issued) :=
    Gemini.analyzeReports JSON_parse generateContent reports in
  let empty := {| analysis := analysis st; loading := false;
                  error := Some noResults; chat := chat st |} in
  (match settled with
   | Return (Some result) =>
       if truthy result then
         match GeminiChat.createAnalysisChat create reports result with
         | Some handle =>
             {| analysis := Some result; loading := false; error := None;
                chat := {| SolutionPanel.chatRef := Some handle;
                           SolutionPanel.messages :=
                             [mkChatMessage model greetingText (Some now)];
                           SolutionPanel.input := SolutionPanel.input (chat st);
                           SolutionPanel.chatLoading :=
                             SolutionPanel.chatLoading (chat st) |} |}
         | None =>
             {| analysis := Some result; loading := false;
                error := Some noPlan; chat := chat st |}
         end
       else empty
   | Return None => empty
   | Throw _ =>
       {| analysis := analysis st; loading := false; error := Some noPlan;
          chat := chat st |}
   end, issued).

(** [onChange] of the input: [setInput(e.target.value)]. *)
Definition setInput (typed : string) (st : State) : State :=
  {| analysis := analysis st; loading := loading st; error := error st;
     chat := {| SolutionPanel.chatRef := SolutionPanel.chatRef (chat st);
                SolutionPanel.messages := SolutionPanel.messages (chat st);
                SolutionPanel.input := typed;
                SolutionPanel.chatLoading := SolutionPanel.chatLoading (chat st) |} |}.

(** [handleSendChat] within the panel. *)
Definition sendChat (t0 t1 : Z) (st : State) : State :=
  {| analysis := analysis st; loading := loading st; error := error st;
     chat := fst (fst (SolutionPanel.handleSendChat t0 t1 (chat st))) |}.

(** What the operator and the collaborators can make happen, one handler
    run at a time. *)
Inductive Event : Type :=
| Generate (JSON_parse : string -> string + value)
           (generateContent : Gemini.GenRequest -> Failure + Gemini.GenResponse)
           (create : GeminiChat.ChatRequest -> SolutionPanel.Chat)
           (reports : list Report) (now : Z)
| Typed (text : string)
| Send (t0 t1 : Z).

Definition step (st : State) (e : Event) : State :=
  match e with
  | Generate JSON_parse generateContent create reports now =>
      fst (handleGenerateSolution JSON_parse generateContent create reports now st)
  | Typed text => setInput text st
  | Send t0 t1 => sendChat t0 t1 st
  end.

Definition run (events : list Event) (st : State) : State :=
  fold_left step events st.

(** The conversation after the greeting: user and model turns in pairs. *)
Fixpoint turns (roles : list Role) : bool :=
  match roles with
  | [] => true
  | user :: model :: rest => turns rest
  | _ => false
  end.

(** What every run of the panel keeps true: no request is left pending;
    without a chat handle there is no conversation; with one, there is an
    analysis and the conversation is the greeting followed by user and
    model turns in pairs; no message is empty. *)
Definition wellFormed (st : State) : Prop :=
  loading st = false /\
  SolutionPanel.chatLoading (chat st) = false /\
  match SolutionPanel.chatRef (chat st) with
  | None => SolutionPanel.messages (chat st) = []
  | Some _ =>
      analysis st <> None /\
      exists greeting rest,
        SolutionPanel.messages (chat st) = greeting :: rest /\
        role greeting = model /\ text greeting = greetingText /\
        turns (map role rest) = true
  end /\
  Forall (fun m => text m <> "") (SolutionPanel.messages (chat st)).

End Panel.

(* ================================================================== *)
(** * components/ReportTable.tsx: the audit column of a row *)
(* ================================================================== *)

Module AuditColumn.
Import JS Types.

(** The [verifyState] of a [ReportRow]. *)
Inductive VerifyState : Type := idle | loading | done.

Record State : Type := mkState {
  verifyState : VerifyState;
  auditResult : option value;    (* a parsed value under a type assertion, or [null] *)
  alerts : list string
}.

Definition initial : State :=
  {| verifyState := idle; auditResult := None; alerts := [] |}.

Definition verificationFailed : string :=
  "Verification failed. Please ensure the image is valid.".

(** [handleVerifyClick], run to completion, with the requests issued. *)
Definition handleVerifyClick
  (JSON_parse : string -> string + value)
  (generateContent : Gemini.GenRequest -> Failure + Gemini.GenResponse)
  (report : Report) (st : State) : State * list Gemini.GenRequest :=
  if String.eqb (imageBase64 report) "" then (st, [])
  else
    let (settled, issued) :=
      Gemini.verifyReportImage JSON_parse generateContent report in
    (match settled with
     | Return result =>
         {| verifyState := done; auditResult := result; alerts := alerts st |}
     | Throw _ =>
         {| verifyState := idle; auditResult := auditResult st;
            alerts := alerts st ++ [verificationFailed] |}
     end, issued).

(** What the audit column shows: the button (possibly disabled), the
    spinner, the result card or nothing. *)
Inductive Cell : Type :=
| Button (disabled : bool)
| Spinner
| Card (result : value)
| Nothing.

(** The conditional rendering of the audit column. *)
Definition cell (report : Report) (st : State) : Cell :=
  match verifyState st with
  | idle => Button (String.eqb (imageBase64 report) "")
  | loading => Spinner
  | done =>
      match auditResult st with
      | Some result => if truthy result then Card result else Nothing
      | None => Nothing
      end
  end.

End AuditColumn.

(* ================================================================== *)
(** * App.tsx: loading the reports *)
(* ================================================================== *)

Module App.
Import JS Types.

(** The state [loadData] writes.  The reports are what [fetchReports]
    resolved with. *)
Record State : Type := mkState {
  reports : list (ReportOf value);
  loading : bool;
  error : option string
}.

(** The state of a freshly mounted [App]. *)
Definition initial : State :=
  {| reports := []; loading := true; error := None |}.

(** [loadData], run to completion, given how [getDocs] settles. *)
Definition loadData (toLocaleString : Z -> string)
  (typeErrorMessage : value -> string) (clock : nat -> Z)
  (getDocs : Failure + list Firebase.Doc) (st : State) : State :=
  match Firebase.fetchReports toLocaleString typeErrorMessage clock getDocs with
  | Return data => {| reports := data; loading := false; error := None |}
  | Throw err =>
      {| reports := reports st; loading := false;
         error := Some (Firebase.messageOr err
                          "An unexpected error occurred while fetching reports.") |}
  end.

(** [if (x)] on [string | null]. *)
Definition shown (e : option string) : bool :=
  match e with
  | Some m => negb (String.eqb m "")
  | None => false
  end.

(** What the main area shows above the views. *)
Definition errorBanner (st : State) : bool := shown (error st).

Definition emptyState (st : State) : bool :=
  negb (loading st) && negb (shown (error st)) &&
  (List.length (reports st) =? 0)%nat.

End App.

(* ================================================================== *)
(** * components/Map.tsx: markers and bounds *)
(* ================================================================== *)

Module MapView.
Import JS Types.

(** [x === 0]: true of both zeros, false of [NaN] and the infinities. *)
Definition isZero (x : number) : bool :=
  match x with
  | Dec _ m _ => N.eqb m 0
  | _ => false
  end.

(** The guard of the marker loop, negated: a report is skipped when
    [latitude === 0 && longitude === 0]. *)
Definition plotted {S : Type} (r : ReportOf S) : bool :=
  negb (isZero (latitude r) && isZero (longitude r)).

(** The guard of the bounds loop:
    [latitude !== 0 || longitude !== 0]. *)
Definition extendsBounds {S : Type} (r : ReportOf S) : bool :=
  negb (isZero (latitude r)) || negb (isZero (longitude r)).

Definition defaultCenter : number * number :=
  (Dec false 3007 (-3), Dec false 101797 (-3)).

(** The [center] the map is created with. *)
Definition center {S : Type} (reports : list (ReportOf S)) : number * number :=
  match reports with
  | r :: _ =>
      if negb (isZero (latitude r)) then (latitude r, longitude r)
      else defaultCenter
  | [] => defaultCenter
  end.

(** What a marker looks like: the report's photo or the fallback icon
    inside the custom container, or the platform's default pin when
    [AdvancedMarkerElement] is not available. *)
Inductive Icon : Type :=
| Photo (src : string)
| FallbackIcon
| DefaultPin.

(** The content of the custom container:
    [imageBase64 && imageBase64.length > 50] chooses the photo. *)
Definition markerContent (r : Report) : Icon :=
  if negb (String.eqb (imageBase64 r) "") &&
     (50 <? String.length (imageBase64 r))%nat
  then Photo (Views.imageSrc (imageBase64 r))
  else FallbackIcon.

(** A marker: where it is, what it looks like and its title.  The info
    window opened on a click is not modelled. *)
Record Marker : Type := mkMarker {
  position : number * number;
  icon : Icon;
  title : string
}.

Definition marker (advanced : bool) (r : Report) : Marker :=
  {| position := (latitude r, longitude r);
     icon := if advanced then markerContent r else DefaultPin;
     title := description r |}.

(** The markers the loop of the first effect creates; [advanced] says
    whether [google.maps.marker.AdvancedMarkerElement] is available. *)
Definition markers (advanced : bool) (reports : list Report) : list Marker :=
  map (marker advanced) (filter plotted reports).

(** The refs of the component: whether [mapInstanceRef.current] holds a
    map, and [markersRef.current]. *)
Record Refs : Type := mkRefs {
  mapInstance : bool;
  markersRef : list Marker
}.

(** The refs when the component mounts. *)
Definition mounted : Refs := {| mapInstance := false; markersRef := [] |}.

(** The first effect, which runs when [reports] changes.  [apiLoaded] says
    whether it gets past its two guards: the container is mounted and the
    [google] global is defined.  It then makes sure the map exists and
    replaces the markers. *)
Definition manageMarkers (apiLoaded advanced : bool) (reports : list Report)
  (refs : Refs) : Refs :=
  if apiLoaded then
    {| mapInstance := true; markersRef := markers advanced reports |}
  else refs.

(** The guard of the second effect:
    [isActive && mapInstanceRef.current && reports.length > 0]. *)
Definition focuses {S : Type} (isActive : bool) (reports : list (ReportOf S))
  (refs : Refs) : bool :=
  isActive && mapInstance refs && (0 <? List.length reports)%nat.

(** The points the second effect extends the bounds with: none when its
    guard fails. *)
Definition boundsPoints {S : Type} (isActive : bool)
  (reports : list (ReportOf S)) (refs : Refs) : list (number * number) :=
  if focuses isActive reports refs then
    map (fun r => (latitude r, longitude r)) (filter extendsBounds reports)
  else [].

(** Whether the second effect reaches [fitBounds]: its guard holds and the
    loop has set [hasValidBounds]. *)
Definition hasValidBounds {S : Type} (isActive : bool)
  (reports : list (ReportOf S)) (refs : Refs) : bool :=
  focuses isActive reports refs && existsb extendsBounds reports.

End MapView.

(* ================================================================== *)
(** * Runs of the deletion workflow *)
(* ================================================================== *)

Module DeletionRun.
Import JS Types Deletion.

(** What can happen to a row: a click on its delete button, the passing of
    [dt] milliseconds, an answer of the store to the pending delete. *)
Inductive Event : Type :=
| Click
| Wait (dt : Z)
| Answer (reply : option Failure).

Definition step (rid : string) (w : World) (e : Event) : World :=
  match e with
  | Click => handleDeleteClick rid w
  | Wait dt => advance dt w
  | Answer reply => settle rid reply w
  end.

Definition run (rid : string) (events : list Event) (w : World) : World :=
  fold_left (step rid) events w.

Definition isClick (e : Event) : bool :=
  match e with Click => true | _ => false end.

Definition isSuccess (e : Event) : bool :=
  match e with Answer None => true | _ => false end.

(** The number of clicks among the events. *)
Definition clicks (events : list Event) : nat :=
  List.length (filter isClick events).

(** One when the row shows "Confirm?", zero otherwise. *)
Definition armed (w : World) : nat :=
  match deleteState w with confirm => 1 | _ => 0 end.

(** What every step keeps true, with [n] the clicks so far: two clicks
    for each call of the store and one more while the row is armed. *)
Definition guarded (rid : string) (n : nat) (w : World) : Prop :=
  (2 * List.length (deleteDocCalls w) + armed w <= n)%nat /\
  Forall (eq rid) (deleteDocCalls w) /\
  (rid = "" -> deleteDocCalls w = []) /\
  (awaiting w = true <-> deleteState w = deleting).

(** A freshly mounted row over a working set. *)
Definition fresh (now : Z) (reports : list Report) : World :=
  {| clock := now; deleteState := idle; timers := []; awaiting := false;
     reports := reports; alerts := []; deleteDocCalls := [] |}.

End DeletionRun.

(* ================================================================== *)
(** * Predicates on text *)
(* ================================================================== *)

Module Text.
Import JS.

(** Every code unit of [s] satisfies [f]. *)
Fixpoint allChars (f : ascii -> bool) (s : string) : bool :=
  match s with
  | EmptyString => true
  | String c r => f c && allChars f r
  end.

(** No code unit of [s] is a line terminator. *)
Definition singleLine (s : string) : bool :=
  allChars (fun c => negb (isLineTerminator c)) s.

(** [s] is a single line without a semicolon, as media types such as
    [image/png] are. *)
Definition plainMediaType (s : string) : bool :=
  allChars (fun c => negb (Ascii.eqb c ";") && negb (isLineTerminator c)) s.

(** [x] occurs in [s]. *)
Definition occursIn (x s : string) : Prop :=
  exists before after, s = before ++ x ++ after.

End Text.

(* ================================================================== *)
(** * Readings of the specification and sample inputs *)
(* ================================================================== *)

Module Spec.
Import JS Types.

(** The spec's reading of [timestampString], written from its five rules
    to be compared with [Firebase.timestampStr]: a [Timestamp] object is
    rendered by the host; otherwise a string-typed [timestamp] is kept;
    otherwise a [timestampJanuary] field gives "January <value>"; otherwise
    the first field whose name starts with [timestamp] gives its value;
    otherwise "Unknown Time".  A value is rendered the way the code renders
    it, with [Firebase.stringOf], so that the two can only differ in the
    rule they apply. *)
Definition timestampString_spec (toLocaleString : Z -> string)
  (typeErrorMessage : value -> string)
  (data : list (string * value)) : Outcome string :=
  match get data "timestamp" with
  | VTimestamp sec ns => Return (toLocaleString (toDate sec ns))
  | VStr s0 => Return s0
  | _ =>
      if existsb (String.eqb "timestampJanuary") (keys data) then
        andThen (Firebase.stringOf typeErrorMessage
                   (get data "timestampJanuary"))
                (fun january => Return ("January " ++ january))
      else
        match find (fun k => startsWith k "timestamp") (keys data) with
        | Some k => Firebase.stringOf typeErrorMessage (get data k)
        | None => Return "Unknown Time"
        end
  end.





(** The [timestamp] field holds what the comments of [fetchReports] expect:
    nothing, a [Timestamp] or a non-empty string; and [timestampJanuary],
    when present, holds a truthy value. *)
Definition timestampFieldsAsExpected (data : list (string * value)) : Prop :=
  (~ In "timestamp" (keys data) \/
   (exists sec ns, get data "timestamp" = VTimestamp sec ns) \/
   (exists s0, get data "timestamp" = VStr s0 /\ s0 <> "")) /\
  (In "timestampJanuary" (keys data) ->
   truthy (get data "timestampJanuary") = true).

(** What it means for a value to follow a response schema.  The code never
    checks this; it is the reading of "parseable as the schema": the value
    has the schema's type, a string with an [enum] is one of its members,
    every array element follows [items], every [required] property is
    present and every declared property that is present follows its
    schema. *)
Fixpoint conforms (sch : Gemini.Schema) (v : value) {struct sch} : bool :=
  match sch, v with
  | Gemini.STRING _ None, VStr _ => true
  | Gemini.STRING _ (Some allowed), VStr s0 => existsb (String.eqb s0) allowed
  | Gemini.BOOLEAN _, VBool _ => true
  | Gemini.ARRAY _ items, VArray l => forallb (conforms items) l
  | Gemini.OBJECT props required, VObject fields =>
      forallb (fun k => existsb (fun kv => String.eqb (fst kv) k) fields) required &&
      (fix each (ps : list (string * Gemini.Schema)) : bool :=
         match ps with
         | [] => true
         | (k, sk) :: rest =>
             (if existsb (fun kv => String.eqb (fst kv) k) fields
              then conforms sk (get fields k) else true) && each rest
         end) props
  | _, _ => false
  end.

(** The spec's sentence on a failed [send]: the failure reaches the caller
    of [sendChatMessage]; what the handler appends to the message list
    contains the operator's message and no message of role [model]. *)
Definition send_failure_claim (t0 t1 : Z) (st : SolutionPanel.State) : Prop :=
  forall chat f,
    SolutionPanel.chatRef st = Some chat ->
    trim (SolutionPanel.input st) <> "" ->
    chat (SolutionPanel.input st) = inl f ->
    fst (Gemini.sendChatMessage chat (SolutionPanel.input st)) =
      Throw (Rejected f) /\
    exists appended,
      SolutionPanel.messages (fst (fst (SolutionPanel.handleSendChat t0 t1 st))) =
        (SolutionPanel.messages st ++ appended)%list /\
      In (mkChatMessage user (SolutionPanel.input st) (Some t0)) appended /\
      Forall (fun m => role m <> model) appended.

End Spec.

Module Samples.
Import JS Types.

(** A document whose [timestamp] is a number (epoch milliseconds) and which
    also carries the month-literal key. *)
Definition numericTimestampDoc : list (string * value) :=
  [ ("timestamp", VNum (ofZ 1700000000000));
    ("timestampJanuary", VStr "12") ].

(** A document whose [timestamp] is the empty string. *)
Definition emptyTimestampDoc : list (string * value) :=
  [ ("timestamp", VStr ""); ("timestampJanuary", VStr "12") ].

(** A document with a [Timestamp] and the month-literal key. *)
Definition timestampedDoc : list (string * value) :=
  [ ("timestamp", VTimestamp 1700000000 0);
    ("timestampJanuary", VStr "12") ].

(** A document with no field at all. *)
Definition emptyDoc : Firebase.Doc := Firebase.mkDoc "r1" [].

(** The engine's wording of the [TypeError] of a failed conversion, as V8
    words it. *)
Definition typeErrorMessage (_ : value) : string :=
  "Cannot convert object to primitive value".

(** A document whose [latitude] is a map with a field named [toString]. *)
Definition opaqueLatitudeDoc : Firebase.Doc :=
  Firebase.mkDoc "r5"
    [ ("latitude", VObject [ ("toString", VStr "x") ]);
      ("longitude", VStr "101.797") ].

(** The scenario of the specification. *)
Definition scenarioDoc : Firebase.Doc :=
  Firebase.mkDoc "r2"
    [ ("latitude", VStr "3.007"); ("longitude", VStr "101.797");
      ("imageBase64", VStr "...") ].

Definition pothole : Report :=
  {| id := "r1"; address := "Jalan Reko"; dateTime := "2024-01-05T08:00:00.000Z";
     description := "Deep pothole"; imageBase64 := "";
     latitude := zero; longitude := zero; timestampString := Some "Unknown Time" |}.

(** A report with a 64-character image payload. *)
Definition fallenTree : Report :=
  {| id := "r3"; address := "Jalan Bukit"; dateTime := "2024-01-06T09:30:00.000Z";
     description := "Fallen tree blocking road";
     imageBase64 :=
       "data:image/png;base64,iVBORw0KGgoAAAANSUhEUgAAAAEAAAABCAYAAAAfFcSJ";
     latitude := zero; longitude := zero; timestampString := None |}.

(** A host whose [JSON.parse] is the reference parser and whose
    [SyntaxError] reads "Unexpected token". *)
Definition JSON_parse (text : string) : string + value :=
  match JSON.parse text with
  | Some v => inr v
  | None => inl "Unexpected token"
  end.

(** A classification service that answers every request with the text
    of an empty JSON object. *)
Definition emptyObjectService (_ : Gemini.GenRequest)
  : Failure + Gemini.GenResponse :=
  inr (Gemini.mkGenResponse (Some "{}")).

(** A service that answers with text that is not JSON. *)
Definition proseService (_ : Gemini.GenRequest)
  : Failure + Gemini.GenResponse :=
  inr (Gemini.mkGenResponse (Some "I cannot help with that.")).

(** A service that answers with an empty text. *)
Definition silentService (_ : Gemini.GenRequest)
  : Failure + Gemini.GenResponse :=
  inr (Gemini.mkGenResponse (Some "")).

Definition unavailable : Failure := mkFailure "unavailable" "The service is unavailable".

(** A chat handle whose every call fails. *)
Definition failingChat : SolutionPanel.Chat := fun _ => inl unavailable.

Definition greeting : ChatMessage :=
  mkChatMessage model "I've analyzed the reports. I can help you with specific details, resource contacts, or drafting public announcements. What do you need?" (Some 0).

(** The panel after an analysis, with a question typed in. *)
Definition askingState : SolutionPanel.State :=
  {| SolutionPanel.chatRef := Some failingChat;
     SolutionPanel.messages := [greeting];
     SolutionPanel.input := "Who handles r1?";
     SolutionPanel.chatLoading := false |}.

(** A freshly mounted row over a working set of two reports. *)
Definition freshWorld : Deletion.World :=
  {| Deletion.clock := 0; Deletion.deleteState := Deletion.idle;
     Deletion.timers := []; Deletion.awaiting := false;
     Deletion.reports := [pothole; fallenTree]; Deletion.alerts := [];
     Deletion.deleteDocCalls := [] |}.

End Samples.

Module Samples2.
Import JS Types.

(** A report whose image data is too short to be an image. *)
Definition thumbnail : Report :=
  {| id := "r4"; address := "Jalan Semenyih";
     dateTime := "2024-01-07T10:00:00.000Z"; description := "Broken streetlight";
     imageBase64 := "iVBORw0KGgo=";
     latitude := Dec false 2951 (-3); longitude := Dec false 101843 (-3);
     timestampString := None |}.

(** A document without a latitude whose longitude is a numeral, too small
    in magnitude for binary64, that [parseFloat] rounds to 0. *)
Definition faintDoc : Firebase.Doc :=
  Firebase.mkDoc "r6" [ ("longitude", VStr "1e-400") ].

(** A service that answers with the JSON text [null]. *)
Definition nullService (_ : Gemini.GenRequest)
  : Failure + Gemini.GenResponse :=
  inr (Gemini.mkGenResponse (Some "null")).

(** An analysis that follows the schema, with one verdict. *)
Definition calmAnalysis : value :=
  VObject
    [ ("strategicOverview", VStr "One road hazard needs a crew today.");
      ("prioritizedReports",
       VArray
         [ VObject
             [ ("reportId", VStr "r3"); ("severity", VStr "Critical");
               ("displayTitle", VStr "Fallen Tree Blocking Road");
               ("actionPlan", VStr "Send a crew to clear the road.");
               ("recommendedResource", VStr "Public Works");
               ("justification", VStr "Road obstruction with accident risk.");
               ("isRelevant", VBool true) ] ]) ].

End Samples2.

(* ================================================================== *)
(** * Properties of the Report Normalizer *)
(* ================================================================== *)

Module NormalizerProps.
Import JS Types Firebase.

(** ** Reading fields *)

Lemma get_absent (data : list (string * value)) (key : string) :
  ~ In key (keys data) -> get data key = VUndefined.
Proof.
  induction data as [|[k v] rest IH]; simpl; intros Hnot.
  - reflexivity.
  - destruct (String.eqb_spec k key) as [->|Hne].
    + exfalso. apply Hnot. now left.
    + apply IH. intros Hin. apply Hnot. now right.
Qed.

Lemma find_all_false {A : Type} (f : A -> bool) (l : list A) :
  (forall x, In x l -> f x = false) -> find f l = None.
Proof.
  induction l as [|a l IH]; simpl; intros H.
  - reflexivity.
  - rewrite (H a (or_introl eq_refl)). apply IH.
    intros x Hx. apply H. now right.
Qed.

Lemma startsWith_nonempty (k : string) :
  startsWith k "timestamp" = true -> String.eqb k "" = false.
Proof.
  destruct k; simpl; [discriminate | reflexivity].
Qed.

Lemma existsb_key_In (k : string) (l : list string) :
  existsb (String.eqb k) l = true <-> In k l.
Proof.
  rewrite existsb_exists. split.
  - intros [x [Hin Heq]]. apply String.eqb_eq in Heq. now subst.
  - intros Hin. exists k. split; [assumption | apply String.eqb_refl].
Qed.

(** A field that no key starting with [timestamp] names reads as
    [undefined] under the two names the normalizer looks up first. *)
Lemma no_timestamp_key (data : list (string * value)) :
  (forall k, In k (keys data) -> startsWith k "timestamp" = false) ->
  get data "timestamp" = VUndefined /\
  get data "timestampJanuary" = VUndefined /\
  find (fun k => startsWith k "timestamp") (keys data) = None.
Proof.
  intros Hno. repeat split.
  - apply get_absent. intros Hin. apply Hno in Hin. discriminate Hin.
  - apply get_absent. intros Hin. apply Hno in Hin. discriminate Hin.
  - now apply find_all_false.
Qed.

(** ** Conversions *)

(** A conversion throws exactly when ToString does; a string converts to
    itself. *)
Lemma stringOf_cases (typeErrorMessage : value -> string) (v : value) :
  (forall text, ToString v = Some text ->
     stringOf typeErrorMessage v = Return text) /\
  (ToString v = None ->
     stringOf typeErrorMessage v = Throw (TypeError (typeErrorMessage v))).
Proof. unfold stringOf, converted. split; now intros; subst; rewrite ?H. Qed.

Lemma parseFloatOf_cases (typeErrorMessage : value -> string) (v : value) :
  (forall x, parseFloat v = Some x ->
     parseFloatOf typeErrorMessage v = Return x) /\
  (parseFloat v = None ->
     parseFloatOf typeErrorMessage v = Throw (TypeError (typeErrorMessage v))).
Proof. unfold parseFloatOf, converted. split; now intros; subst; rewrite ?H. Qed.

Lemma parseFloatOf_returns (typeErrorMessage : value -> string) (v : value)
  (x : number) :
  parseFloatOf typeErrorMessage v = Return x -> parseFloat v = Some x.
Proof.
  unfold parseFloatOf, converted.
  destruct (parseFloat v); [| discriminate]. now intros [= ->].
Qed.

(** A plain object with a field of its own named [toString] cannot be
    converted: neither [String()] nor [parseFloat] returns. *)
Lemma ToString_own_toString (fields : list (string * value)) :
  hasOwn fields "toString" = true ->
  ToString (VObject fields) = None /\ parseFloat (VObject fields) = None.
Proof. intros Hown. unfold parseFloat. cbn. now rewrite Hown. Qed.

(** ** The branches of [timestampStr] *)

Section TimestampStr.
Variable toLocaleString : Z -> string.
Variable typeErrorMessage : value -> string.
Variable data : list (string * value).

Lemma timestampStr_object (sec ns : Z) :
  get data "timestamp" = VTimestamp sec ns ->
  timestampStr toLocaleString typeErrorMessage data =
  Return (toLocaleString (toDate sec ns)).
Proof. unfold timestampStr. now intros ->. Qed.

Lemma timestampStr_truthy :
  toDateOf (get data "timestamp") = None ->
  truthy (get data "timestamp") = true ->
  timestampStr toLocaleString typeErrorMessage data =
  stringOf typeErrorMessage (get data "timestamp").
Proof.
  unfold timestampStr. intros Hobj Htruthy.
  now rewrite Hobj, Htruthy.
Qed.

Lemma timestampStr_january :
  truthy (get data "timestamp") = false ->
  truthy (get data "timestampJanuary") = true ->
  timestampStr toLocaleString typeErrorMessage data =
  andThen (stringOf typeErrorMessage (get data "timestampJanuary"))
          (fun january => Return ("January " ++ january)).
Proof.
  unfold timestampStr. intros Hts Hjan. now rewrite Hts, Hjan.
Qed.

Lemma timestampStr_prefix (k : string) :
  truthy (get data "timestamp") = false ->
  truthy (get data "timestampJanuary") = false ->
  find (fun k => startsWith k "timestamp") (keys data) = Some k ->
  timestampStr toLocaleString typeErrorMessage data =
  stringOf typeErrorMessage (get data k).
Proof.
  unfold timestampStr. intros Hts Hjan Hfind. rewrite Hts, Hjan, Hfind.
  apply find_some in Hfind. destruct Hfind as [_ Hpre].
  now rewrite (startsWith_nonempty _ Hpre).
Qed.

Lemma timestampStr_fallback :
  truthy (get data "timestamp") = false ->
  truthy (get data "timestampJanuary") = false ->
  find (fun k => startsWith k "timestamp") (keys data) = None ->
  timestampStr toLocaleString typeErrorMessage data = Return "Unknown Time".
Proof.
  unfold timestampStr. intros Hts Hjan Hfind. now rewrite Hts, Hjan, Hfind.
Qed.

End TimestampStr.

(** X3.  On documents whose timestamp fields hold what the code expects
    (no [timestamp], a [Timestamp] object or a non-empty string; a truthy
    [timestampJanuary] if any), [timestampStr] computes what the five rules
    of the specification describe, and throws when rendering the value
    they select throws. *)
Theorem timestampStr_agrees_with_spec (toLocaleString : Z -> string)
  (typeErrorMessage : value -> string) (data : list (string * value)) :
  Spec.timestampFieldsAsExpected data ->
  timestampStr toLocaleString typeErrorMessage data =
  Spec.timestampString_spec toLocaleString typeErrorMessage data.
Proof.
  intros [Hts Hjan]. unfold Spec.timestampString_spec.
  destruct Hts as [Habsent | [[sec [ns Hobj]] | [s0 [Hstr Hne]]]].
  - rewrite (get_absent _ _ Habsent).
    destruct (existsb (String.eqb "timestampJanuary") (keys data)) eqn:Hkey.
    + apply existsb_key_In in Hkey.
      apply timestampStr_january; [| now apply Hjan].
      now rewrite (get_absent _ _ Habsent).
    + assert (Hno : ~ In "timestampJanuary" (keys data)).
      { intros Hin. apply existsb_key_In in Hin. congruence. }
      destruct (find (fun k => startsWith k "timestamp") (keys data)) eqn:Hfind.
      * apply timestampStr_prefix; try assumption.
        -- now rewrite (get_absent _ _ Habsent).
        -- now rewrite (get_absent _ _ Hno).
      * apply timestampStr_fallback; try assumption.
        -- now rewrite (get_absent _ _ Habsent).
        -- now rewrite (get_absent _ _ Hno).
  - rewrite Hobj. now apply timestampStr_object.
  - rewrite Hstr. rewrite timestampStr_truthy; rewrite Hstr; try reflexivity.
    simpl. apply String.eqb_neq in Hne. now rewrite Hne.
Qed.

Lemma timestampStr_agrees_with_spec_witness :
  timestampStr toLocaleString_enUS_UTC Samples.typeErrorMessage
    Samples.timestampedDoc =
  Spec.timestampString_spec toLocaleString_enUS_UTC Samples.typeErrorMessage
    Samples.timestampedDoc.
Proof.
  apply (timestampStr_agrees_with_spec toLocaleString_enUS_UTC
           Samples.typeErrorMessage Samples.timestampedDoc).
  split.
  - right. left. exists 1700000000, 0. reflexivity.
  - intros _. reflexivity.
Defined.

(** C5, as amended.  [timestampStr] is resolved by first match: (1) a
    [Timestamp] object in [timestamp] is rendered by the host's
    [toLocaleString]; (2) any other truthy [timestamp] is rendered by
    [String()], a non-empty string as itself; (3) otherwise a truthy
    [timestampJanuary] gives "January <value>"; (4) otherwise the first
    field, in key order, whose name starts with [timestamp] gives
    [String()] of its value; (5) otherwise, and in particular when no
    field name starts with [timestamp], the result is "Unknown Time".
    Where [String()] or the template literal throws, so does the
    computation. *)
Theorem timestampStr_first_match (toLocaleString : Z -> string)
  (typeErrorMessage : value -> string) (data : list (string * value)) :
  let ts := get data "timestamp" in
  let jan := get data "timestampJanuary" in
  let firstKey := find (fun k => startsWith k "timestamp") (keys data) in
  let result := timestampStr toLocaleString typeErrorMessage data in
  (forall sec ns, ts = VTimestamp sec ns ->
     result = Return (toLocaleString (toDate sec ns))) /\
  (toDateOf ts = None -> truthy ts = true ->
     result = stringOf typeErrorMessage ts) /\
  (forall s0, ts = VStr s0 -> s0 <> "" -> result = Return s0) /\
  (truthy ts = false -> truthy jan = true ->
     result = andThen (stringOf typeErrorMessage jan)
                      (fun january => Return ("January " ++ january))) /\
  (forall k, truthy ts = false -> truthy jan = false -> firstKey = Some k ->
     result = stringOf typeErrorMessage (get data k)) /\
  (truthy ts = false -> truthy jan = false -> firstKey = None ->
     result = Return "Unknown Time") /\
  ((forall k, In k (keys data) -> startsWith k "timestamp" = false) ->
     result = Return "Unknown Time").
Proof.
  cbv zeta. repeat split.
  - intros sec ns. apply timestampStr_object.
  - apply timestampStr_truthy.
  - intros s0 Hstr Hne.
    rewrite timestampStr_truthy; rewrite Hstr; try reflexivity.
    simpl. apply String.eqb_neq in Hne. now rewrite Hne.
  - apply timestampStr_january.
  - intros k. apply timestampStr_prefix.
  - apply timestampStr_fallback.
  - intros Hno. destruct (no_timestamp_key data Hno) as [Hts [Hjan Hfind]].
    apply timestampStr_fallback; try assumption.
    + now rewrite Hts.
    + now rewrite Hjan.
Qed.

(** The scenario of the specification: a record with no timestamp-like
    field normalizes to "Unknown Time". *)
Lemma timestampStr_first_match_witness :
  timestampStr toLocaleString_enUS_UTC Samples.typeErrorMessage
    (doc_data Samples.scenarioDoc) = Return "Unknown Time".
Proof.
  apply (timestampStr_first_match toLocaleString_enUS_UTC
           Samples.typeErrorMessage (doc_data Samples.scenarioDoc)).
  intros k Hin. simpl in Hin.
  destruct Hin as [<- | [<- | [<- | []]]]; reflexivity.
Defined.

(** C5, as stated, fails.  With a numeric [timestamp] and the month-literal
    key present, rule (2) of the specification does not apply (the field is
    not string-typed) and rule (3) gives "January 12", but the code
    renders the number.  With an empty string in [timestamp], rule (2)
    applies and gives the empty string, but the code moves on to the
    month-literal key. *)
Lemma timestampStr_numeric_timestamp :
  (timestampStr toLocaleString_enUS_UTC Samples.typeErrorMessage
     Samples.numericTimestampDoc = Return "1700000000000" /\
   Spec.timestampString_spec toLocaleString_enUS_UTC Samples.typeErrorMessage
     Samples.numericTimestampDoc = Return "January 12") /\
  (timestampStr toLocaleString_enUS_UTC Samples.typeErrorMessage
     Samples.emptyTimestampDoc = Return "January 12" /\
   Spec.timestampString_spec toLocaleString_enUS_UTC Samples.typeErrorMessage
     Samples.emptyTimestampDoc = Return "").
Proof. repeat split. Qed.

(** ** What the callback pushes *)

(** When the callback completes, the three conversions have returned and
    the report is built from what they returned. *)
Lemma normalize_returns (toLocaleString : Z -> string)
  (typeErrorMessage : value -> string) (now : Z) (doc : Doc)
  (r : ReportOf value) :
  normalize toLocaleString typeErrorMessage now doc = Return r ->
  let data := doc_data doc in
  exists lat lng ts,
    parseFloat (get data "latitude") = Some lat /\
    parseFloat (get data "longitude") = Some lng /\
    timestampStr toLocaleString typeErrorMessage data = Return ts /\
    r = {| id := doc_id doc;
           address := or_else (get data "address") (VStr "Unknown Location");
           dateTime := or_else (get data "dateTime") (VStr (toISOString now));
           description := or_else (get data "description")
                                  (VStr "No description provided");
           imageBase64 := imgBase64 data;
           latitude := if isNaN lat then zero else lat;
           longitude := if isNaN lng then zero else lng;
           timestampString := Some ts |}.
Proof.
  cbv zeta. unfold normalize, parseFloatOf, converted.
  destruct (parseFloat (get (doc_data doc) "latitude")) as [lat |];
    [| discriminate].
  destruct (parseFloat (get (doc_data doc) "longitude")) as [lng |];
    [| discriminate].
  cbn [andThen].
  destruct (timestampStr toLocaleString typeErrorMessage (doc_data doc))
    as [ts | e]; [| discriminate].
  cbn [andThen]. intros [= <-]. now exists lat, lng, ts.
Qed.

(** Whether the callback throws, and what, does not depend on the instant
    it runs at. *)
Lemma normalize_throws_alike (toLocaleString : Z -> string)
  (typeErrorMessage : value -> string) (now1 now2 : Z) (doc : Doc) :
  (forall e, normalize toLocaleString typeErrorMessage now1 doc = Throw e <->
             normalize toLocaleString typeErrorMessage now2 doc = Throw e) /\
  (forall r1, normalize toLocaleString typeErrorMessage now1 doc = Return r1 ->
     exists r2, normalize toLocaleString typeErrorMessage now2 doc = Return r2).
Proof.
  unfold normalize.
  destruct (parseFloatOf typeErrorMessage (get (doc_data doc) "latitude"));
    cbn [andThen]; [| split; [tauto | discriminate]].
  destruct (parseFloatOf typeErrorMessage (get (doc_data doc) "longitude"));
    cbn [andThen]; [| split; [tauto | discriminate]].
  destruct (timestampStr toLocaleString typeErrorMessage (doc_data doc));
    cbn [andThen]; [| split; [tauto | discriminate]].
  split.
  - intros e. split; discriminate.
  - intros r1 _. eexists. reflexivity.
Qed.

(** ** Coordinates *)

Lemma parseFloat_undefined : parseFloat VUndefined = Some NaN.
Proof. reflexivity. Qed.


(** The text of a [Timestamp] does not start with a numeral. *)
Lemma parseFloat_timestamp (sec ns : Z) :
  parseFloat (VTimestamp sec ns) = Some NaN.
Proof. reflexivity. Qed.






(** ** Image data *)

(** C9.  For every document, at every instant, in the report the callback
    pushes: if the [imageBase64] field is the string "...", the normalized
    image data is the empty string; and the normalized image data is never
    the string "...". *)
Theorem normalize_placeholder_image (toLocaleString : Z -> string)
  (typeErrorMessage : value -> string) (now : Z) (doc : Doc)
  (r : ReportOf value) :
  normalize toLocaleString typeErrorMessage now doc = Return r ->
  (get (doc_data doc) "imageBase64" = VStr "..." -> imageBase64 r = VStr "") /\
  imageBase64 r <> VStr "...".
Proof.
  intros Hreturns.
  destruct (normalize_returns _ _ _ _ _ Hreturns)
    as (lat & lng & ts & _ & _ & _ & ->).
  cbn [imageBase64]. unfold imgBase64. split.
  - now intros ->.
  - destruct (isPlaceholder (or_else (get (doc_data doc) "imageBase64") (VStr "")))
      eqn:Hp.
    + discriminate.
    + intros Heq. rewrite Heq in Hp. discriminate Hp.
Qed.

(** A document without image data normalizes to the empty string: on a
    report, absent image data is the empty string. *)
Lemma normalize_absent_image (toLocaleString : Z -> string)
  (typeErrorMessage : value -> string) (now : Z) (doc : Doc)
  (r : ReportOf value) :
  normalize toLocaleString typeErrorMessage now doc = Return r ->
  ~ In "imageBase64" (keys (doc_data doc)) ->
  imageBase64 r = VStr "".
Proof.
  intros Hreturns Habsent.
  destruct (normalize_returns _ _ _ _ _ Hreturns)
    as (lat & lng & ts & _ & _ & _ & ->).
  cbn [imageBase64]. unfold imgBase64.
  now rewrite (get_absent _ _ Habsent).
Qed.

Lemma normalize_placeholder_image_witness :
  exists r,
    normalize toLocaleString_enUS_UTC Samples.typeErrorMessage 0
      Samples.scenarioDoc = Return r /\
    imageBase64 r = VStr "".
Proof.
  eexists. split; [reflexivity |].
  apply (normalize_placeholder_image toLocaleString_enUS_UTC
           Samples.typeErrorMessage 0 Samples.scenarioDoc _ eq_refl).
  reflexivity.
Defined.

(** ** Dependence on the clock *)

(** C4, as amended.  Two runs on the same document, at instants [now1] and
    [now2], throw alike; when they complete, their reports agree on every
    field but [dateTime]; they agree on [dateTime] too, hence on the whole
    report, when the document's [dateTime] is truthy or the two instants
    are the same; when it is not truthy each run stores its own instant,
    as an ISO-8601 string. *)
Theorem normalize_clock_dependence (toLocaleString : Z -> string)
  (typeErrorMessage : value -> string) (now1 now2 : Z) (doc : Doc) :
  let run1 := normalize toLocaleString typeErrorMessage now1 doc in
  let run2 := normalize toLocaleString typeErrorMessage now2 doc in
  let raw := get (doc_data doc) "dateTime" in
  (forall e, run1 = Throw e <-> run2 = Throw e) /\
  (forall r1, run1 = Return r1 -> exists r2, run2 = Return r2) /\
  (forall r1 r2, run1 = Return r1 -> run2 = Return r2 ->
     id r1 = id r2 /\ address r1 = address r2 /\
     description r1 = description r2 /\ imageBase64 r1 = imageBase64 r2 /\
     latitude r1 = latitude r2 /\ longitude r1 = longitude r2 /\
     timestampString r1 = timestampString r2 /\
     (truthy raw = true -> r1 = r2) /\
     (now1 = now2 -> r1 = r2) /\
     (truthy raw = false ->
        dateTime r1 = VStr (toISOString now1) /\
        dateTime r2 = VStr (toISOString now2))).
Proof.
  cbv zeta.
  destruct (normalize_throws_alike toLocaleString typeErrorMessage now1 now2 doc)
    as [Hthrows Hreturns].
  split; [exact Hthrows | split; [exact Hreturns |]].
  intros r1 r2 H1 H2.
  destruct (normalize_returns _ _ _ _ _ H1)
    as (lat & lng & ts & Hlat & Hlng & Hts & ->).
  destruct (normalize_returns _ _ _ _ _ H2)
    as (lat' & lng' & ts' & Hlat' & Hlng' & Hts' & ->).
  rewrite Hlat in Hlat'. injection Hlat' as <-.
  rewrite Hlng in Hlng'. injection Hlng' as <-.
  rewrite Hts in Hts'. injection Hts' as <-.
  cbn [id address description imageBase64 latitude longitude timestampString
       dateTime].
  unfold or_else.
  do 7 (split; [reflexivity |]).
  split; [| split].
  - intros Hraw. now rewrite Hraw.
  - now intros ->.
  - intros Hraw. rewrite Hraw. split; reflexivity.
Qed.

Lemma normalize_clock_dependence_witness :
  exists r1 r2,
    normalize toLocaleString_enUS_UTC Samples.typeErrorMessage 0
      Samples.emptyDoc = Return r1 /\
    normalize toLocaleString_enUS_UTC Samples.typeErrorMessage 1000
      Samples.emptyDoc = Return r2 /\
    dateTime r1 = VStr "1970-01-01T00:00:00.000Z" /\
    dateTime r2 = VStr "1970-01-01T00:00:01.000Z".
Proof.
  do 2 eexists. split; [reflexivity | split; [reflexivity |]].
  destruct (normalize_clock_dependence toLocaleString_enUS_UTC
              Samples.typeErrorMessage 0 1000 Samples.emptyDoc)
    as (_ & _ & Hfields).
  apply (Hfields _ _ eq_refl eq_refl).
  reflexivity.
Defined.

(** C4, as stated, fails: the same document, normalized one second apart,
    gives two different reports. *)
Lemma normalize_differs_across_instants :
  normalize toLocaleString_enUS_UTC Samples.typeErrorMessage 0
    Samples.emptyDoc <>
  normalize toLocaleString_enUS_UTC Samples.typeErrorMessage 1000
    Samples.emptyDoc.
Proof.
  intros Heq. vm_compute in Heq. discriminate Heq.
Qed.

(** ** The whole fetch *)

Lemma normalize_id (toLocaleString : Z -> string)
  (typeErrorMessage : value -> string) (now : Z) (doc : Doc)
  (r : ReportOf value) :
  normalize toLocaleString typeErrorMessage now doc = Return r ->
  id r = doc_id doc.
Proof.
  intros Hreturns.
  now destruct (normalize_returns _ _ _ _ _ Hreturns)
    as (lat & lng & ts & _ & _ & _ & ->).
Qed.

Section ForEach.
Variable toLocaleString : Z -> string.
Variable typeErrorMessage : value -> string.
Variable clock : nat -> Z.

(** The loop returns exactly when every callback does, with what the
    callbacks pushed, in order. *)
Lemma forEach_returns (docs : list Doc) (i : nat)
  (reports : list (ReportOf value)) :
  forEach toLocaleString typeErrorMessage clock i docs = Return reports <->
  List.length reports = List.length docs /\
  forall n d, nth_error docs n = Some d ->
    exists r, nth_error reports n = Some r /\
              normalize toLocaleString typeErrorMessage
                (clock (i + n)%nat) d = Return r.
Proof.
  revert i reports. induction docs as [| d0 rest IH]; intros i reports.
  - cbn [forEach]. split.
    + intros [= <-]. split; [reflexivity |].
      intros n d Hnth. destruct n; discriminate Hnth.
    + intros [Hlen _]. destruct reports; [reflexivity | discriminate Hlen].
  - cbn [forEach]. split.
    + destruct (normalize toLocaleString typeErrorMessage (clock i) d0)
        as [r0 |] eqn:H0; cbn [andThen]; [| discriminate].
      destruct (forEach toLocaleString typeErrorMessage clock (S i) rest)
        as [rs |] eqn:Hrest; cbn [andThen]; [| discriminate].
      intros [= <-]. apply IH in Hrest. destruct Hrest as [Hlen Hnth].
      split; [simpl; now rewrite Hlen |].
      intros n d Hd. destruct n as [| n]; simpl in Hd.
      * injection Hd as <-. exists r0. rewrite Nat.add_0_r. now split.
      * destruct (Hnth n d Hd) as [r [Hr Hnorm]].
        exists r. rewrite Nat.add_succ_r. now split.
    + intros [Hlen Hnth].
      destruct reports as [| r0 rs]; [discriminate Hlen |].
      destruct (Hnth 0%nat d0 eq_refl) as [r [Hr Hnorm]].
      simpl in Hr. injection Hr as <-.
      rewrite Nat.add_0_r in Hnorm. rewrite Hnorm. cbn [andThen].
      assert (Hrest : forEach toLocaleString typeErrorMessage clock (S i) rest
                      = Return rs).
      { apply IH. split; [now injection Hlen |].
        intros n d Hd. destruct (Hnth (S n) d Hd) as [r [Hr Hn]].
        exists r. rewrite Nat.add_succ_r in Hn. now split. }
      now rewrite Hrest.
Qed.

(** The loop returns when every callback does. *)
Lemma forEach_completes (docs : list Doc) (i : nat) :
  (forall n d, nth_error docs n = Some d ->
     exists r, normalize toLocaleString typeErrorMessage
                 (clock (i + n)%nat) d = Return r) ->
  exists reports,
    forEach toLocaleString typeErrorMessage clock i docs = Return reports.
Proof.
  revert i. induction docs as [| d0 rest IH]; intros i Hcomplete.
  - now eexists.
  - cbn [forEach].
    destruct (Hcomplete 0%nat d0 eq_refl) as [r0 H0].
    rewrite Nat.add_0_r in H0. rewrite H0. cbn [andThen].
    destruct (IH (S i)) as [reports Hrest].
    + intros n d Hd. destruct (Hcomplete (S n) d Hd) as [r Hr].
      exists r. now rewrite Nat.add_succ_r in Hr.
    + rewrite Hrest. now eexists.
Qed.

(** The loop throws what the first callback that throws throws. *)
Lemma forEach_throws (docs : list Doc) (i n : nat) (d : Doc) (e : Exn) :
  nth_error docs n = Some d ->
  normalize toLocaleString typeErrorMessage (clock (i + n)%nat) d = Throw e ->
  (forall m d', (m < n)%nat -> nth_error docs m = Some d' ->
     exists r, normalize toLocaleString typeErrorMessage
                 (clock (i + m)%nat) d' = Return r) ->
  forEach toLocaleString typeErrorMessage clock i docs = Throw e.
Proof.
  revert i n. induction docs as [| d0 rest IH]; intros i n Hd Hthrows Hbefore.
  - destruct n; discriminate Hd.
  - cbn [forEach]. destruct n as [| n]; simpl in Hd.
    + injection Hd as <-. rewrite Nat.add_0_r in Hthrows.
      now rewrite Hthrows.
    + destruct (Hbefore 0%nat d0 (Nat.lt_0_succ n) eq_refl) as [r0 H0].
      rewrite Nat.add_0_r in H0. rewrite H0. cbn [andThen].
      rewrite (IH (S i) n Hd).
      * reflexivity.
      * now rewrite Nat.add_succ_r in Hthrows.
      * intros m d' Hm Hd'.
        destruct (Hbefore (S m) d' (proj1 (Nat.succ_lt_mono m n) Hm) Hd')
          as [r Hr].
        exists r. now rewrite Nat.add_succ_r in Hr.
Qed.

End ForEach.

(** X5.  When the store lists its documents, [fetchReports] resolves
    exactly when the callback completes on every document, and then with
    one report per document, in the store's order, each carrying its
    document's identifier and being what the callback pushed for it.  When
    the callback throws on a document, the fetch fails with an [Error]
    that carries the message of what the first such callback threw, or
    "Unknown Firestore Error" when that message is empty. *)
Theorem fetchReports_one_per_document (toLocaleString : Z -> string)
  (typeErrorMessage : value -> string) (clock : nat -> Z) (docs : list Doc) :
  let fetch := fetchReports toLocaleString typeErrorMessage clock (inr docs) in
  (forall reports,
     fetch = Return reports <->
     List.length reports = List.length docs /\
     forall n d, nth_error docs n = Some d ->
       exists r, nth_error reports n = Some r /\
                 normalize toLocaleString typeErrorMessage (clock n) d =
                 Return r) /\
  (forall reports, fetch = Return reports ->
     map id reports = map doc_id docs) /\
  (forall n d e,
     nth_error docs n = Some d ->
     normalize toLocaleString typeErrorMessage (clock n) d = Throw e ->
     (forall m d', (m < n)%nat -> nth_error docs m = Some d' ->
        exists r, normalize toLocaleString typeErrorMessage (clock m) d' =
                  Return r) ->
     fetch = Throw (Error (messageOr e "Unknown Firestore Error"))).
Proof.
  cbv zeta.
  assert (Hfetch : forall reports,
            fetchReports toLocaleString typeErrorMessage clock (inr docs) =
              Return reports <->
            forEach toLocaleString typeErrorMessage clock 0 docs =
              Return reports).
  { intros reports. unfold fetchReports.
    destruct (forEach toLocaleString typeErrorMessage clock 0 docs);
      split; intros H; try discriminate H; now injection H as <-. }
  split; [| split].
  - intros reports. rewrite Hfetch. apply forEach_returns.
  - intros reports Hreturns. apply Hfetch, forEach_returns in Hreturns.
    destruct Hreturns as [Hlen Hnth].
    apply nth_error_ext. intros n.
    rewrite !nth_error_map.
    destruct (nth_error docs n) as [d |] eqn:Hd.
    + destruct (Hnth n d Hd) as [r [-> Hnorm]]. cbn.
      now rewrite (normalize_id _ _ _ _ _ Hnorm).
    + apply nth_error_None in Hd. rewrite <- Hlen in Hd.
      apply nth_error_None in Hd. now rewrite Hd.
  - intros n d e Hd Hthrows Hbefore. unfold fetchReports.
    now rewrite (forEach_throws toLocaleString typeErrorMessage clock
                   docs 0 n d e Hd Hthrows Hbefore).
Qed.

End NormalizerProps.

(* ================================================================== *)
(** * Properties of the Triage Analyzer and the Verification Auditor *)
(* ================================================================== *)

Module GeminiProps.
Import JS Types Gemini.

Section Service.
Variable JSON_parse : string -> string + value.
Variable generateContent : GenRequest -> Failure + GenResponse.

(** ** The request and its three outcomes *)

Lemma requestJSON_issues_one (req : GenRequest) :
  snd (requestJSON JSON_parse generateContent req) = [req].
Proof.
  unfold requestJSON.
  destruct (generateContent req) as [f | response]; [reflexivity |].
  destruct (present (text response)) as [t |]; [| reflexivity].
  destruct (JSON_parse t); reflexivity.
Qed.

Lemma requestJSON_empty (req : GenRequest) (response : GenResponse) :
  generateContent req = inr response ->
  present (text response) = None ->
  requestJSON JSON_parse generateContent req = (Return None, [req]).
Proof.
  unfold requestJSON. now intros -> ->.
Qed.

Lemma requestJSON_parsed (req : GenRequest) (response : GenResponse)
  (t : string) (v : value) :
  generateContent req = inr response ->
  present (text response) = Some t ->
  JSON_parse t = inr v ->
  requestJSON JSON_parse generateContent req = (Return (Some v), [req]).
Proof.
  unfold requestJSON. now intros -> -> ->.
Qed.

Lemma requestJSON_syntax_error (req : GenRequest) (response : GenResponse)
  (t msg : string) :
  generateContent req = inr response ->
  present (text response) = Some t ->
  JSON_parse t = inl msg ->
  requestJSON JSON_parse generateContent req =
  (Throw (SyntaxError msg), [req]).
Proof.
  unfold requestJSON. now intros -> -> ->.
Qed.

Lemma present_empty (t : option string) :
  t = None \/ t = Some "" -> present t = None.
Proof. now intros [-> | ->]. Qed.

Lemma nonempty_batch (reports : list Report) :
  reports <> [] -> (List.length reports =? 0)%nat = false.
Proof. destruct reports; [contradiction | reflexivity]. Qed.

(** ** The image guard *)

Lemma noValidImage_length (report : Report) :
  noValidImage report = (String.length (imageBase64 report) <? 50)%nat.
Proof.
  unfold noValidImage.
  destruct (String.eqb_spec (imageBase64 report) "") as [-> | _]; reflexivity.
Qed.

End Service.

(** C7.  [analyzeReports] on the empty batch resolves with [null] and
    issues no request, whatever the service and the parser are; that
    outcome is not a thrown failure. *)
Theorem analyzeReports_empty_batch
  (JSON_parse : string -> string + value)
  (generateContent : GenRequest -> Failure + GenResponse) :
  analyzeReports JSON_parse generateContent [] = (Return None, []) /\
  forall e, fst (analyzeReports JSON_parse generateContent []) <> Throw e.
Proof.
  split.
  - reflexivity.
  - intros e. simpl. discriminate.
Qed.

(** C3, as amended.  On a non-empty batch, when the service answers with a
    non-empty text: if the text is not JSON, [analyzeReports] throws the
    parser's error to its caller; if it is JSON, the parsed value is
    returned as the analysis result as it is, whether or not it follows
    the schema.  One request was issued either way. *)
Theorem analyzeReports_present_response
  (JSON_parse : string -> string + value)
  (generateContent : GenRequest -> Failure + GenResponse)
  (reports : list Report) (response : GenResponse) (t : string) :
  reports <> [] ->
  generateContent (analysisRequest reports) = inr response ->
  text response = Some t ->
  t <> "" ->
  (forall msg, JSON_parse t = inl msg ->
   analyzeReports JSON_parse generateContent reports =
   (Throw (SyntaxError msg), [analysisRequest reports])) /\
  (forall v, JSON_parse t = inr v ->
   analyzeReports JSON_parse generateContent reports =
   (Return (Some v), [analysisRequest reports])).
Proof.
  intros Hne Hgen Htext Hnonempty. unfold analyzeReports.
  assert (Hpresent : present (text response) = Some t).
  { rewrite Htext. simpl. apply String.eqb_neq in Hnonempty.
    now rewrite Hnonempty. }
  rewrite (nonempty_batch _ Hne). split.
  - intros msg Hparse. now apply requestJSON_syntax_error with response t.
  - intros v Hparse. now apply requestJSON_parsed with response t.
Qed.

Lemma analyzeReports_present_response_witness :
  analyzeReports Samples.JSON_parse Samples.proseService [Samples.pothole] =
  (Throw (SyntaxError "Unexpected token"), [analysisRequest [Samples.pothole]]).
Proof.
  apply (analyzeReports_present_response Samples.JSON_parse Samples.proseService
           [Samples.pothole]
           (mkGenResponse (Some "I cannot help with that."))
           "I cannot help with that.").
  - discriminate.
  - reflexivity.
  - reflexivity.
  - discriminate.
  - vm_compute. reflexivity.
Defined.

(** C3, as stated, fails: the text of an empty JSON object is present and
    does not follow the analysis schema, and [analyzeReports] returns it as
    the analysis result. *)
Lemma analyzeReports_returns_schema_violation :
  fst (analyzeReports Samples.JSON_parse Samples.emptyObjectService [Samples.pothole]) =
    Return (Some (VObject [])) /\
  Spec.conforms analysisSchema (VObject []) = false.
Proof. split; reflexivity. Qed.

(** C6.  For every report: when its image data is shorter than 50 code
    units [verifyReportImage] throws "No valid image to verify" and issues
    no request; when it has 50 code units or more the audit request is
    issued; so a request is issued only when the image data is present and
    of non-trivial length.  (types.ts declares the field a string: absent
    image data is the empty string, which is how [fetchReports] stores
    it.) *)
Theorem verifyReportImage_precondition
  (JSON_parse : string -> string + value)
  (generateContent : GenRequest -> Failure + GenResponse)
  (report : Report) :
  let n := String.length (imageBase64 report) in
  let run := verifyReportImage JSON_parse generateContent report in
  ((n < 50)%nat -> run = (Throw (Error "No valid image to verify"), [])) /\
  ((50 <= n)%nat -> snd run = [verificationRequest report]) /\
  (snd run <> [] -> imageBase64 report <> "" /\ (50 <= n)%nat).
Proof.
  cbv zeta. unfold verifyReportImage. rewrite noValidImage_length.
  destruct (Nat.ltb_spec (String.length (imageBase64 report)) 50) as [Hlt | Hge].
  - split; [reflexivity | split].
    + intros Hge. lia.
    + intros Hsent. now contradiction Hsent.
  - split; [intros Hlt; lia | split].
    + intros _. apply requestJSON_issues_one.
    + intros _. split; [| assumption].
      intros Hempty. rewrite Hempty in Hge. simpl in Hge. lia.
Qed.

Lemma verifyReportImage_precondition_witness :
  verifyReportImage Samples.JSON_parse Samples.silentService Samples.pothole =
  (Throw (Error "No valid image to verify"), []).
Proof.
  apply (verifyReportImage_precondition Samples.JSON_parse Samples.silentService
           Samples.pothole).
  simpl. lia.
Defined.

(** C10.  For every report that passes the image guard, when the audit
    service answers without failing and the text of the answer is
    [undefined] or empty, [verifyReportImage] resolves with [null]:
    neither a verification result nor an error. *)
Theorem verifyReportImage_empty_response
  (JSON_parse : string -> string + value)
  (generateContent : GenRequest -> Failure + GenResponse)
  (report : Report) (response : GenResponse) :
  (50 <= String.length (imageBase64 report))%nat ->
  generateContent (verificationRequest report) = inr response ->
  text response = None \/ text response = Some "" ->
  verifyReportImage JSON_parse generateContent report =
  (Return None, [verificationRequest report]).
Proof.
  intros Hlen Hgen Htext. unfold verifyReportImage.
  rewrite noValidImage_length.
  apply Nat.ltb_ge in Hlen. rewrite Hlen.
  apply requestJSON_empty with response; [assumption |].
  now apply present_empty.
Qed.

Lemma verifyReportImage_empty_response_witness :
  verifyReportImage Samples.JSON_parse Samples.silentService Samples.fallenTree =
  (Return None, [verificationRequest Samples.fallenTree]).
Proof.
  apply (verifyReportImage_empty_response Samples.JSON_parse Samples.silentService
           Samples.fallenTree (mkGenResponse (Some ""))).
  - simpl. lia.
  - reflexivity.
  - right. reflexivity.
Defined.

(** X4.  On a non-empty batch, when the classification service fails, the
    failure is rethrown to the caller of [analyzeReports] as it is; when
    the service answers with no text or an empty text, [analyzeReports]
    resolves with [null].  One request was issued either way. *)
Theorem analyzeReports_failure_and_empty
  (JSON_parse : string -> string + value)
  (generateContent : GenRequest -> Failure + GenResponse)
  (reports : list Report) :
  reports <> [] ->
  (forall f, generateContent (analysisRequest reports) = inl f ->
     analyzeReports JSON_parse generateContent reports =
     (Throw (Rejected f), [analysisRequest reports])) /\
  (forall response, generateContent (analysisRequest reports) = inr response ->
     text response = None \/ text response = Some "" ->
     analyzeReports JSON_parse generateContent reports =
     (Return None, [analysisRequest reports])).
Proof.
  intros Hne. unfold analyzeReports. rewrite (nonempty_batch _ Hne). split.
  - intros f Hgen. unfold requestJSON. now rewrite Hgen.
  - intros response Hgen Htext.
    apply requestJSON_empty with response; [assumption |].
    now apply present_empty.
Qed.

Lemma analyzeReports_failure_and_empty_witness :
  analyzeReports Samples.JSON_parse Samples.silentService [Samples.pothole] =
  (Return None, [analysisRequest [Samples.pothole]]).
Proof.
  destruct (analyzeReports_failure_and_empty Samples.JSON_parse Samples.silentService
              [Samples.pothole]) as [_ Hempty].
  - discriminate.
  - apply (Hempty (mkGenResponse (Some ""))).
    + reflexivity.
    + right. reflexivity.
Defined.

End GeminiProps.

(* ================================================================== *)
(** * Properties of the Consultation Session *)
(* ================================================================== *)

Module ChatProps.
Import JS Types SolutionPanel.

Lemma sendChatMessage_rethrows (chat : Chat) (message : string) (f : Failure) :
  chat message = inl f ->
  Gemini.sendChatMessage chat message = (Throw (Rejected f), [message]).
Proof. unfold Gemini.sendChatMessage. now intros ->. Qed.

(** C1, as amended.  When the handler sends the operator's text and the
    chat call fails: [sendChatMessage] rethrows the failure to its caller,
    [handleSendChat]; the handler catches it and resolves; the message
    list grows by the operator's message followed by one message of
    role [model] carrying a fixed apology, and by nothing from the
    service. *)
Theorem handleSendChat_failure (t0 t1 : Z) (st : State) (chat : Chat)
  (f : Failure) :
  chatRef st = Some chat ->
  trim (input st) <> "" ->
  chat (input st) = inl f ->
  Gemini.sendChatMessage chat (input st) = (Throw (Rejected f), [input st]) /\
  handleSendChat t0 t1 st =
  ({| chatRef := Some chat;
      messages := messages st ++
                  [ mkChatMessage user (input st) (Some t0);
                    mkChatMessage model apology (Some t1) ];
      input := "";
      chatLoading := false |}, Return tt, [input st]).
Proof.
  intros Href Hinput Hfail.
  pose proof (sendChatMessage_rethrows chat (input st) f Hfail) as Hsend.
  split; [exact Hsend |].
  unfold handleSendChat. rewrite Href.
  apply String.eqb_neq in Hinput. rewrite Hinput.
  simpl. rewrite Hsend. simpl.
  now rewrite <- app_assoc.
Qed.

Lemma handleSendChat_failure_witness :
  messages (fst (fst (handleSendChat 10 20 Samples.askingState))) =
  [ Samples.greeting;
    mkChatMessage user "Who handles r1?" (Some 10);
    mkChatMessage model apology (Some 20) ].
Proof.
  destruct (handleSendChat_failure 10 20 Samples.askingState
              Samples.failingChat Samples.unavailable) as [_ Hrun].
  - reflexivity.
  - vm_compute. discriminate.
  - reflexivity.
  - rewrite Hrun. reflexivity.
Defined.

(** C1, as stated, fails: after a failed call the handler has appended
    the operator's message and then a message of role [model]. *)
Lemma handleSendChat_appends_model_message :
  map role (messages (fst (fst (handleSendChat 10 20 Samples.askingState)))) =
    (map role (messages Samples.askingState) ++ [user; model])%list /\
  ~ Spec.send_failure_claim 10 20 Samples.askingState.
Proof.
  split; [reflexivity |].
  intros Hclaim.
  specialize (Hclaim Samples.failingChat Samples.unavailable eq_refl).
  assert (Hne : trim (input Samples.askingState) <> "")
    by (vm_compute; discriminate).
  destruct (Hclaim Hne eq_refl) as [_ [appended [Happ [_ Hroles]]]].
  vm_compute in Happ. injection Happ as <-.
  inversion Hroles as [| m l _ Hrest]; subst.
  inversion Hrest as [| m l Hrole _]; subst.
  now apply Hrole.
Qed.

End ChatProps.

(* ================================================================== *)
(** * Properties of the Deletion Workflow *)
(* ================================================================== *)

Module DeletionProps.
Import JS Types Deletion.

(** ** Timers *)

Lemma fired_state (due : list Z) (w : World) :
  deleteState (fold_left (fun acc _ => timerCallback acc) due w) =
  match due with [] => deleteState w | _ => reverted (deleteState w) end.
Proof.
  revert w. induction due as [| d rest IH]; intros w; simpl.
  - reflexivity.
  - rewrite IH. destruct rest; simpl; [reflexivity |].
    now destruct (deleteState w).
Qed.

Lemma fired_frame (due : list Z) (w : World) :
  let w' := fold_left (fun acc _ => timerCallback acc) due w in
  reports w' = reports w /\ deleteDocCalls w' = deleteDocCalls w /\
  alerts w' = alerts w /\ awaiting w' = awaiting w.
Proof.
  revert w. induction due as [| d rest IH]; intros w; simpl.
  - repeat split.
  - destruct (IH (timerCallback w)) as [Hr [Hc [Ha Hw]]].
    rewrite Hr, Hc, Ha, Hw. repeat split.
Qed.

Lemma advance_frame (dt : Z) (w : World) :
  reports (advance dt w) = reports w /\
  deleteDocCalls (advance dt w) = deleteDocCalls w /\
  awaiting (advance dt w) = awaiting w /\
  clock (advance dt w) = clock w + dt.
Proof.
  unfold advance; simpl.
  destruct (fired_frame (filter (fun d => d <=? clock w + dt) (timers w)) w)
    as [Hr [Hc [_ Hw]]].
  repeat split; assumption.
Qed.




(** ** Removal from the working set *)


(** ** The store's answer *)


(** What [deleteReport] calls the store with does not depend on how the
    store answers: the identifier, once, unless it is empty. *)
Lemma deleteReport_calls (reply : option Failure) (rid : string) :
  snd (Firebase.deleteReport reply rid) =
  if String.eqb rid "" then [] else [rid].
Proof.
  unfold Firebase.deleteReport.
  destruct (String.eqb rid ""); [reflexivity |].
  destruct reply as [f |]; [| reflexivity].
  now destruct (String.eqb (code f) "permission-denied").
Qed.

(** The second click. *)
Lemma handleDeleteClick_confirm (rid : string) (w : World) :
  deleteState w = confirm ->
  handleDeleteClick rid w =
  if String.eqb rid "" then
    resume rid None (set_deleteState (fun _ => deleting) w)
  else
    {| clock := clock w; deleteState := deleting; timers := timers w;
       awaiting := true; reports := reports w; alerts := alerts w;
       deleteDocCalls := deleteDocCalls w ++ [rid] |}.
Proof.
  intros Hconfirm. unfold handleDeleteClick.
  rewrite Hconfirm, deleteReport_calls.
  now destruct (String.eqb rid "").
Qed.

(** ** The workflow *)



(** X1.  When the store's delete fails, the report stays in the working
    set, the operator is alerted (with a permission-specific message when
    the failure's code is [permission-denied], otherwise with the
    failure's message), and the row returns to [idle]. *)
Theorem deletion_failure (rid : string) (f : Failure) (w : World) :
  rid <> "" ->
  awaiting w = true ->
  let w' := settle rid (Some f) w in
  deleteState w' = idle /\
  reports w' = reports w /\
  alerts w' =
    (alerts w ++
     [ ("Failed to delete report: " ++
        (if String.eqb (code f) "permission-denied"
         then "Permission denied: You do not have rights to delete this report."
         else if String.eqb (message f) "" then "Failed to delete report"
         else message f))%string ])%list.
Proof.
  intros Hrid Hawait. cbv zeta. unfold settle. rewrite Hawait.
  apply String.eqb_neq in Hrid.
  unfold resume, Firebase.deleteReport. rewrite Hrid.
  destruct (String.eqb (code f) "permission-denied"); simpl; repeat split.
Qed.

Lemma deletion_failure_witness :
  let w2 := handleDeleteClick "r1"
              (advance 1200 (handleDeleteClick "r1" Samples.freshWorld)) in
  let w3 := settle "r1" (Some (mkFailure "permission-denied" "denied")) w2 in
  deleteState w3 = idle /\
  reports w3 = [Samples.pothole; Samples.fallenTree] /\
  alerts w3 =
    [ "Failed to delete report: Permission denied: You do not have rights to delete this report." ].
Proof.
  cbv zeta.
  apply (deletion_failure "r1" (mkFailure "permission-denied" "denied")
           (handleDeleteClick "r1"
              (advance 1200 (handleDeleteClick "r1" Samples.freshWorld)))).
  - discriminate.
  - reflexivity.
Defined.


End DeletionProps.

(* ================================================================== *)
(** * Facts about strings *)
(* ================================================================== *)

Module StringFacts.
Import JS Text.

Lemma append_assoc (a b c : string) : (a ++ b) ++ c = a ++ b ++ c.
Proof. induction a as [| x a IH]; simpl; [reflexivity | now rewrite IH]. Qed.

Lemma length_append (a b : string) :
  String.length (a ++ b) = (String.length a + String.length b)%nat.
Proof. induction a as [| x a IH]; simpl; [reflexivity | now rewrite IH]. Qed.

Lemma substring_all (s : string) : substring 0 (String.length s) s = s.
Proof. induction s as [| x s IH]; simpl; [reflexivity | now rewrite IH]. Qed.

Lemma prefix_append (p s : string) : String.prefix p (p ++ s) = true.
Proof.
  induction p as [| x p IH]; simpl.
  - now destruct s.
  - destruct (ascii_dec x x) as [_ | Hne]; [exact IH | now contradiction Hne].
Qed.

(** Dropping a prefix, as the code does with [substring]. *)
Lemma drop_prefix (p s : string) :
  substring (String.length p)
            (String.length (p ++ s) - String.length p) (p ++ s) = s.
Proof.
  induction p as [| x p IH]; simpl.
  - rewrite Nat.sub_0_r. apply substring_all.
  - exact IH.
Qed.

Lemma prefix_head_differs (x y : ascii) (p s : string) :
  x <> y -> String.prefix (String x p) (String y s) = false.
Proof.
  intros Hne. simpl. destruct (ascii_dec x y); [contradiction | reflexivity].
Qed.

(** ** [splitFirst] and [includes] *)

Lemma splitFirst_unfold (p s : string) :
  splitFirst p s =
  if String.prefix p s then
    Some (EmptyString,
          substring (String.length p) (String.length s - String.length p) s)
  else
    match s with
    | EmptyString => None
    | String c r =>
        match splitFirst p r with
        | Some (b, a) => Some (String c b, a)
        | None => None
        end
    end.
Proof. destruct s; reflexivity. Qed.

Lemma splitFirst_append (a p b : string) :
  exists before after, splitFirst p (a ++ p ++ b) = Some (before, after).
Proof.
  induction a as [| x a [u [v IH]]].
  - change (EmptyString ++ p ++ b) with (p ++ b).
    rewrite splitFirst_unfold, prefix_append. eauto.
  - change (String x a ++ p ++ b) with (String x (a ++ p ++ b)).
    rewrite splitFirst_unfold.
    destruct (String.prefix p (String x (a ++ p ++ b))); [eauto |].
    rewrite IH. eauto.
Qed.

Lemma includes_append (a p b : string) : includes (a ++ p ++ b) p = true.
Proof.
  unfold includes.
  destruct (splitFirst_append a p b) as [u [v Hsplit]]. now rewrite Hsplit.
Qed.

Lemma includes_prefix (p b : string) : includes (p ++ b) p = true.
Proof. apply (includes_append EmptyString p b). Qed.

(** ** [span] *)

Lemma span_all (f : ascii -> bool) (s : string) :
  allChars f s = true -> span f s = (s, EmptyString).
Proof.
  induction s as [| x s IH]; simpl; intros Hall.
  - reflexivity.
  - apply andb_prop in Hall. destruct Hall as [Hx Hs].
    now rewrite Hx, (IH Hs).
Qed.

End StringFacts.

(* ================================================================== *)
(** * Properties of media-type detection and image sources *)
(* ================================================================== *)

Module ImageProps.
Import JS Types Text StringFacts Gemini.

Lemma lazyUntil_unfold (p s : string) :
  lazyUntil p s =
  if String.prefix p s then
    Some (EmptyString,
          substring (String.length p) (String.length s - String.length p) s)
  else
    match s with
    | EmptyString => None
    | String c r =>
        if isLineTerminator c then None
        else match lazyUntil p r with
             | Some (g, rest) => Some (String c g, rest)
             | None => None
             end
    end.
Proof. destruct s; reflexivity. Qed.

(** The lazy group stops at the first [;base64,]: a media type without a
    semicolon is matched whole. *)
Lemma lazyUntil_media_type (mime payload : string) :
  plainMediaType mime = true ->
  lazyUntil ";base64," (mime ++ ";base64," ++ payload) = Some (mime, payload).
Proof.
  induction mime as [| c mime IH]; intros Hplain.
  - change (EmptyString ++ ";base64," ++ payload) with (";base64," ++ payload).
    rewrite lazyUntil_unfold, prefix_append. now rewrite drop_prefix.
  - change (String c mime ++ ";base64," ++ payload)
      with (String c (mime ++ ";base64," ++ payload)).
    unfold plainMediaType in Hplain. simpl in Hplain.
    apply andb_prop in Hplain. destruct Hplain as [Hc Hrest].
    apply andb_prop in Hc. destruct Hc as [Hsemi Hline].
    apply negb_true_iff in Hsemi, Hline.
    apply Ascii.eqb_neq in Hsemi.
    rewrite lazyUntil_unfold.
    rewrite prefix_head_differs by (intros Heq; now apply Hsemi).
    rewrite Hline. now rewrite (IH Hrest).
Qed.

Lemma matchDataUrl_unfold (s : string) :
  matchDataUrl s =
  match (if String.prefix "data:" s then
           match lazyUntil ";base64," (substring 5 (String.length s - 5) s) with
           | Some (g1, rest) =>
               Some (g1, fst (span (fun c => negb (isLineTerminator c)) rest))
           | None => None
           end
         else None) with
  | Some m => Some m
  | None =>
      match s with
      | EmptyString => None
      | String _ r => matchDataUrl r
      end
  end.
Proof. destruct s; reflexivity. Qed.

(** A data URL is taken apart into its media type and its payload. *)
Lemma detectMime_of_data_url (mime payload : string) :
  plainMediaType mime = true ->
  singleLine payload = true ->
  detectMime ("data:" ++ mime ++ ";base64," ++ payload) = (mime, payload).
Proof.
  intros Hmime Hpayload. unfold detectMime.
  rewrite includes_prefix.
  assert (Hmarker : includes ("data:" ++ mime ++ ";base64," ++ payload)
                             "base64," = true).
  { change (";base64," ++ payload) with (";" ++ "base64," ++ payload).
    rewrite <- (append_assoc mime), <- (append_assoc "data:").
    apply includes_append. }
  rewrite Hmarker. cbn [andb].
  rewrite matchDataUrl_unfold, prefix_append.
  change 5%nat with (String.length "data:").
  rewrite drop_prefix, (lazyUntil_media_type _ _ Hmime).
  unfold singleLine in Hpayload. now rewrite (span_all _ _ Hpayload).
Qed.

Lemma imageSrc_cases (img : string) :
  (startsWith img "data:image" = true /\ Views.imageSrc img = img) \/
  (startsWith img "data:image" = false /\
   Views.imageSrc img = "data:" ++ "image/jpeg" ++ ";base64," ++ img).
Proof.
  unfold Views.imageSrc.
  destruct (startsWith img "data:image"); [left | right]; split; reflexivity.
Qed.

(** X6.  When a report's image is a data URL, [data:] followed by a media
    type (a single line without a semicolon), [;base64,] and a payload
    without line breaks, the audit request carries exactly that media type
    and that payload as its inline data, followed by the prompt. *)
Theorem verificationRequest_of_data_url (report : Report)
  (mime payload : string) :
  imageBase64 report = "data:" ++ mime ++ ";base64," ++ payload ->
  plainMediaType mime = true ->
  singleLine payload = true ->
  contents (verificationRequest report) =
  parts [ inlineData mime payload; textPart (verificationPrompt report) ].
Proof.
  intros Himg Hmime Hpayload. unfold verificationRequest.
  now rewrite Himg, (detectMime_of_data_url _ _ Hmime Hpayload).
Qed.

Lemma verificationRequest_of_data_url_witness :
  contents (verificationRequest Samples.fallenTree) =
  parts [ inlineData "image/png" "iVBORw0KGgoAAAANSUhEUgAAAAEAAAABCAYAAAAfFcSJ";
          textPart (verificationPrompt Samples.fallenTree) ].
Proof.
  apply (verificationRequest_of_data_url Samples.fallenTree "image/png"
           "iVBORw0KGgoAAAANSUhEUgAAAAEAAAABCAYAAAAfFcSJ");
    reflexivity.
Defined.

(** X7.  The image source the components display always starts with
    [data:image]; computing it twice changes nothing; and for a bare
    payload without line breaks it is a data URL from which the audit's
    media-type detection recovers the JPEG default and the payload
    itself. *)
Theorem imageSrc_is_data_url (img : string) :
  startsWith (Views.imageSrc img) "data:image" = true /\
  Views.imageSrc (Views.imageSrc img) = Views.imageSrc img /\
  (startsWith img "data:image" = false -> singleLine img = true ->
   detectMime (Views.imageSrc img) = ("image/jpeg", img)).
Proof.
  assert (Hstarts : startsWith (Views.imageSrc img) "data:image" = true).
  { destruct (imageSrc_cases img) as [[Hyes ->] | [_ ->]]; [exact Hyes |].
    unfold startsWith.
    change ("data:" ++ "image/jpeg" ++ ";base64," ++ img)
      with ("data:image" ++ "/jpeg;base64," ++ img).
    apply prefix_append. }
  split; [exact Hstarts | split].
  - unfold Views.imageSrc at 1. now rewrite Hstarts.
  - intros Hraw Hline.
    destruct (imageSrc_cases img) as [[Hyes _] | [_ ->]]; [congruence |].
    now apply detectMime_of_data_url.
Qed.

Lemma imageSrc_is_data_url_witness :
  detectMime (Views.imageSrc "iVBORw0KGgo=") = ("image/jpeg", "iVBORw0KGgo=").
Proof.
  apply (imageSrc_is_data_url "iVBORw0KGgo="); reflexivity.
Defined.

End ImageProps.

(* ================================================================== *)
(** * Properties of the audit, from the service to the row *)
(* ================================================================== *)

Module AuditProps.
Import JS Types Gemini.

Lemma present_nonempty (t : string) : t <> "" -> present (Some t) = Some t.
Proof.
  intros Hne. simpl. apply String.eqb_neq in Hne. now rewrite Hne.
Qed.

Lemma guard_passed (report : Report) :
  (50 <= String.length (imageBase64 report))%nat ->
  noValidImage report = false /\ String.eqb (imageBase64 report) "" = false.
Proof.
  intros Hlen. split.
  - rewrite GeminiProps.noValidImage_length. now apply Nat.ltb_ge.
  - apply String.eqb_neq. intros Hempty. rewrite Hempty in Hlen.
    simpl in Hlen. lia.
Qed.

(** X8.  For every report that passes the image guard, [verifyReportImage]
    issues exactly one request and: rethrows the service's failure as it
    is; throws the parser's error when the answer's text is not JSON;
    and otherwise returns the parsed value as the verification result
    without checking it. *)
Theorem verifyReportImage_outcomes
  (JSON_parse : string -> string + value)
  (generateContent : GenRequest -> Failure + GenResponse)
  (report : Report) :
  (50 <= String.length (imageBase64 report))%nat ->
  let run := verifyReportImage JSON_parse generateContent report in
  let request := verificationRequest report in
  snd run = [request] /\
  (forall f, generateContent request = inl f ->
     fst run = Throw (Rejected f)) /\
  (forall response t, generateContent request = inr response ->
     text response = Some t -> t <> "" ->
     (forall msg, JSON_parse t = inl msg -> fst run = Throw (SyntaxError msg)) /\
     (forall v, JSON_parse t = inr v -> fst run = Return (Some v))).
Proof.
  intros Hlen. cbv zeta. unfold verifyReportImage.
  destruct (guard_passed report Hlen) as [-> _].
  split; [apply GeminiProps.requestJSON_issues_one | split].
  - intros f Hgen. unfold requestJSON. now rewrite Hgen.
  - intros response t Hgen Htext Hne.
    assert (Hpresent : present (text response) = Some t)
      by (rewrite Htext; now apply present_nonempty).
    split.
    + intros msg Hparse.
      now rewrite (GeminiProps.requestJSON_syntax_error _ _ _ _ _ _ Hgen Hpresent Hparse).
    + intros v Hparse.
      now rewrite (GeminiProps.requestJSON_parsed _ _ _ _ _ _ Hgen Hpresent Hparse).
Qed.

Lemma verifyReportImage_outcomes_witness :
  fst (verifyReportImage Samples.JSON_parse Samples.proseService
         Samples.fallenTree) = Throw (SyntaxError "Unexpected token").
Proof.
  destruct (verifyReportImage_outcomes Samples.JSON_parse Samples.proseService
              Samples.fallenTree) as [_ [_ Htext]].
  - simpl. lia.
  - apply (Htext (mkGenResponse (Some "I cannot help with that."))
             "I cannot help with that.").
    + reflexivity.
    + reflexivity.
    + discriminate.
    + vm_compute. reflexivity.
Defined.

(** X9.  The row's button is enabled by any non-empty image, but the
    auditor refuses images shorter than 50 code units: for such a report a
    click issues no request, raises the "Verification failed" alert and
    leaves the row idle with its button still enabled.  With an empty
    image a click does nothing at all. *)
Theorem handleVerifyClick_short_image
  (JSON_parse : string -> string + value)
  (generateContent : GenRequest -> Failure + GenResponse)
  (report : Report) (st : AuditColumn.State) :
  let click := AuditColumn.handleVerifyClick JSON_parse generateContent report in
  (imageBase64 report = "" -> click st = (st, [])) /\
  (imageBase64 report <> "" ->
   (String.length (imageBase64 report) < 50)%nat ->
   click st =
     ({| AuditColumn.verifyState := AuditColumn.idle;
         AuditColumn.auditResult := AuditColumn.auditResult st;
         AuditColumn.alerts :=
           AuditColumn.alerts st ++ [AuditColumn.verificationFailed] |}, []) /\
   AuditColumn.cell report (fst (click st)) = AuditColumn.Button false).
Proof.
  cbv zeta. unfold AuditColumn.handleVerifyClick. split.
  - now intros ->.
  - intros Hne Hshort. apply String.eqb_neq in Hne. rewrite Hne.
    unfold verifyReportImage. rewrite GeminiProps.noValidImage_length.
    apply Nat.ltb_lt in Hshort. rewrite Hshort. simpl.
    split; [reflexivity |].
    unfold AuditColumn.cell; simpl. now rewrite Hne.
Qed.

Lemma handleVerifyClick_short_image_witness :
  AuditColumn.handleVerifyClick Samples.JSON_parse Samples.silentService
    Samples2.thumbnail AuditColumn.initial =
  ({| AuditColumn.verifyState := AuditColumn.idle;
      AuditColumn.auditResult := None;
      AuditColumn.alerts := [AuditColumn.verificationFailed] |}, []).
Proof.
  apply (handleVerifyClick_short_image Samples.JSON_parse Samples.silentService
           Samples2.thumbnail AuditColumn.initial).
  - discriminate.
  - simpl. lia.
Defined.

(** X10.  For every report that passes the image guard, when the service
    answers without text, with an empty text, or with JSON text that parses
    to a falsy value, a click leaves the row in [done] with nothing to
    show: the audit column renders neither the button nor a result. *)
Theorem handleVerifyClick_blank_cell
  (JSON_parse : string -> string + value)
  (generateContent : GenRequest -> Failure + GenResponse)
  (report : Report) (st : AuditColumn.State) (response : GenResponse) :
  (50 <= String.length (imageBase64 report))%nat ->
  generateContent (verificationRequest report) = inr response ->
  (text response = None \/ text response = Some "" \/
   exists t v, text response = Some t /\ t <> "" /\
               JSON_parse t = inr v /\ truthy v = false) ->
  let st' := fst (AuditColumn.handleVerifyClick JSON_parse generateContent
                    report st) in
  AuditColumn.verifyState st' = AuditColumn.done /\
  AuditColumn.cell report st' = AuditColumn.Nothing.
Proof.
  intros Hlen Hgen Hanswer. cbv zeta.
  destruct (guard_passed report Hlen) as [Hguard Hnonempty].
  unfold AuditColumn.handleVerifyClick. rewrite Hnonempty.
  unfold verifyReportImage. rewrite Hguard.
  destruct Hanswer as [Hnone | [Hempty | [t [v [Htext [Hne [Hparse Hfalsy]]]]]]].
  - rewrite (GeminiProps.requestJSON_empty _ _ _ response Hgen)
      by (now rewrite Hnone).
    split; reflexivity.
  - rewrite (GeminiProps.requestJSON_empty _ _ _ response Hgen)
      by (now rewrite Hempty).
    split; reflexivity.
  - assert (Hpresent : present (text response) = Some t)
      by (rewrite Htext; now apply present_nonempty).
    rewrite (GeminiProps.requestJSON_parsed _ _ _ _ _ _ Hgen Hpresent Hparse).
    unfold AuditColumn.cell; simpl. rewrite Hfalsy. split; reflexivity.
Qed.

Lemma handleVerifyClick_blank_cell_witness :
  AuditColumn.cell Samples.fallenTree
    (fst (AuditColumn.handleVerifyClick Samples.JSON_parse Samples2.nullService
            Samples.fallenTree AuditColumn.initial)) = AuditColumn.Nothing.
Proof.
  apply (handleVerifyClick_blank_cell Samples.JSON_parse Samples2.nullService
           Samples.fallenTree AuditColumn.initial
           (mkGenResponse (Some "null"))).
  - simpl. lia.
  - reflexivity.
  - right. right. exists "null", VNull.
    split; [reflexivity | split; [discriminate | split]].
    + vm_compute. reflexivity.
    + reflexivity.
Defined.

End AuditProps.

(* ================================================================== *)
(** * Properties of the panel: sending and generating *)
(* ================================================================== *)

Module PanelProps.
Import JS Types SolutionPanel.

Lemma trim_nonempty (s0 : string) : trim s0 <> "" -> s0 <> "".
Proof. intros Htrim ->. now apply Htrim. Qed.

(** The text [sendChatMessage] resolves with is never empty. *)
Lemma sendChatMessage_text (chat : Chat) (message : string) :
  (exists f, Gemini.sendChatMessage chat message =
             (Throw (Rejected f), [message])) \/
  (exists reply, reply <> "" /\
     Gemini.sendChatMessage chat message = (Return reply, [message]) /\
     forall response, chat message = inr response ->
       match Gemini.present (Gemini.text response) with
       | Some t => reply = t
       | None => reply = "I couldn't generate a response."
       end).
Proof.
  unfold Gemini.sendChatMessage.
  destruct (chat message) as [f | result] eqn:Hchat.
  - left. now exists f.
  - right. destruct (Gemini.present (Gemini.text result)) as [t |] eqn:Hpresent.
    + exists t. split; [| split; [reflexivity |]].
      * destruct (Gemini.text result) as [t' |]; [| discriminate Hpresent].
        simpl in Hpresent.
        destruct (String.eqb_spec t' ""); [discriminate Hpresent |].
        now injection Hpresent as <-.
      * intros response Heq. injection Heq as <-. now rewrite Hpresent.
    + exists "I couldn't generate a response.".
      split; [discriminate | split; [reflexivity |]].
      intros response Heq. injection Heq as <-. now rewrite Hpresent.
Qed.

(** What one run of [handleSendChat] does, in every case. *)
Lemma handleSendChat_cases (t0 t1 : Z) (st : State) :
  (chatRef st = None \/ trim (input st) = "" ->
   handleSendChat t0 t1 st = (st, Return tt, [])) /\
  (forall chat, chatRef st = Some chat -> trim (input st) <> "" ->
   exists reply,
     reply <> "" /\ input st <> "" /\
     handleSendChat t0 t1 st =
     ({| chatRef := Some chat;
         messages := messages st ++
                     [ mkChatMessage user (input st) (Some t0);
                       mkChatMessage model reply (Some t1) ];
         input := "";
         chatLoading := false |}, Return tt, [input st]) /\
     (forall f, chat (input st) = inl f -> reply = apology) /\
     (forall response t, chat (input st) = inr response ->
        Gemini.text response = Some t -> t <> "" -> reply = t) /\
     (forall response, chat (input st) = inr response ->
        Gemini.text response = None \/ Gemini.text response = Some "" ->
        reply = "I couldn't generate a response.")).
Proof.
  split.
  - intros Hguard. unfold handleSendChat.
    destruct (chatRef st) as [chat |]; [| reflexivity].
    destruct Hguard as [Hnone | Hblank]; [discriminate Hnone |].
    now rewrite Hblank.
  - intros chat Href Hinput.
    pose proof (trim_nonempty _ Hinput) as Htyped.
    assert (Hrun : forall reply settled,
              Gemini.sendChatMessage chat (input st) = (settled, [input st]) ->
              reply = match settled with
                      | Return responseText => responseText
                      | Throw _ => apology
                      end ->
              handleSendChat t0 t1 st =
              ({| chatRef := Some chat;
                  messages := messages st ++
                              [ mkChatMessage user (input st) (Some t0);
                                mkChatMessage model reply (Some t1) ];
                  input := "";
                  chatLoading := false |}, Return tt, [input st])).
    { intros reply settled Hsend ->. unfold handleSendChat. rewrite Href.
      apply String.eqb_neq in Hinput. rewrite Hinput.
      cbn [text]. rewrite Hsend. cbn [chatRef messages input].
      rewrite <- app_assoc. now destruct settled. }
    destruct (sendChatMessage_text chat (input st))
      as [[f Hsend] | [reply [Hne [Hsend Hreply]]]].
    + exists apology. split; [discriminate | split; [assumption |]].
      split; [now apply (Hrun apology (Throw (Rejected f))) |].
      unfold Gemini.sendChatMessage in Hsend.
      repeat split.
      * intros response t Hchat. rewrite Hchat in Hsend. discriminate Hsend.
      * intros response Hchat. rewrite Hchat in Hsend. discriminate Hsend.
    + exists reply. split; [assumption | split; [assumption |]].
      split; [now apply (Hrun reply (Return reply)) |].
      unfold Gemini.sendChatMessage in Hsend.
      repeat split.
      * intros f Hchat. rewrite Hchat in Hsend. discriminate Hsend.
      * intros response t Hchat Htext Ht.
        specialize (Hreply response Hchat). rewrite Htext in Hreply.
        simpl in Hreply. apply String.eqb_neq in Ht. now rewrite Ht in Hreply.
      * intros response Hchat Htext.
        specialize (Hreply response Hchat).
        now destruct Htext as [Htext | Htext]; rewrite Htext in Hreply.
Qed.

(** X14.  A send with a blank input or without a chat handle changes
    nothing and sends nothing.  Any other send resolves, sends the
    operator's text once as typed, clears the input and appends exactly two
    messages: the operator's, then one of role [model] whose text is never
    empty: the service's text when it has one, a fixed fallback when its
    answer has none, the apology when the call fails. *)
Theorem handleSendChat_turn (t0 t1 : Z) (st : State) :
  (chatRef st = None \/ trim (input st) = "" ->
   handleSendChat t0 t1 st = (st, Return tt, [])) /\
  (forall chat, chatRef st = Some chat -> trim (input st) <> "" ->
   exists reply,
     reply <> "" /\ input st <> "" /\
     handleSendChat t0 t1 st =
     ({| chatRef := Some chat;
         messages := messages st ++
                     [ mkChatMessage user (input st) (Some t0);
                       mkChatMessage model reply (Some t1) ];
         input := "";
         chatLoading := false |}, Return tt, [input st]) /\
     (forall f, chat (input st) = inl f -> reply = apology) /\
     (forall response t, chat (input st) = inr response ->
        Gemini.text response = Some t -> t <> "" -> reply = t) /\
     (forall response, chat (input st) = inr response ->
        Gemini.text response = None \/ Gemini.text response = Some "" ->
        reply = "I couldn't generate a response.")).
Proof. apply handleSendChat_cases. Qed.

Lemma handleSendChat_turn_witness :
  exists reply,
    reply <> "" /\
    messages (fst (fst (handleSendChat 10 20 Samples.askingState))) =
    [ Samples.greeting;
      mkChatMessage user "Who handles r1?" (Some 10);
      mkChatMessage model reply (Some 20) ].
Proof.
  destruct (handleSendChat_turn 10 20 Samples.askingState) as [_ Hturn].
  destruct (Hturn Samples.failingChat) as [reply [Hne [_ [Hrun _]]]].
  - reflexivity.
  - vm_compute. discriminate.
  - exists reply. split; [exact Hne |]. rewrite Hrun. reflexivity.
Defined.

(** ** The invariant of the panel *)

Lemma turns_pair (roles : list Role) :
  (Panel.turns roles = true -> Panel.turns (roles ++ [user; model]) = true) /\
  (forall r, Panel.turns (r :: roles) = true ->
             Panel.turns ((r :: roles) ++ [user; model]) = true).
Proof.
  induction roles as [| a roles [IHa IHb]]; split.
  - reflexivity.
  - intros r Hr. destruct r; discriminate Hr.
  - apply IHb.
  - intros r Hr. destruct r; [| discriminate Hr].
    destruct a; [discriminate Hr |]. simpl in *. now apply IHa.
Qed.

Lemma wellFormed_initial : Panel.wellFormed Panel.initial.
Proof.
  unfold Panel.wellFormed; simpl. repeat split. constructor.
Qed.

Lemma wellFormed_setInput (typed : string) (st : Panel.State) :
  Panel.wellFormed st -> Panel.wellFormed (Panel.setInput typed st).
Proof. unfold Panel.wellFormed; simpl. tauto. Qed.

Lemma wellFormed_sendChat (t0 t1 : Z) (st : Panel.State) :
  Panel.wellFormed st -> Panel.wellFormed (Panel.sendChat t0 t1 st).
Proof.
  intros (Hload & Hchat & Hconv & Htexts).
  destruct (handleSendChat_cases t0 t1 (Panel.chat st)) as [Hskip Hturn].
  unfold Panel.sendChat, Panel.wellFormed; cbn [Panel.loading Panel.chat Panel.analysis].
  destruct (chatRef (Panel.chat st)) as [handle |] eqn:Href.
  - destruct (String.eqb_spec (trim (input (Panel.chat st))) "") as [Hblank | Htyped].
    + rewrite (Hskip (or_intror Hblank)); cbn [fst]. rewrite Href. tauto.
    + destruct (Hturn handle eq_refl Htyped)
        as (reply & Hreply & Hinput & Hrun & _).
      rewrite Hrun; cbn [fst chatRef messages chatLoading].
      destruct Hconv as (Han & greeting & rest & Hmsgs & Hrole & Htext & Hturns).
      split; [assumption | split; [reflexivity | split]].
      * split; [assumption |].
        exists greeting,
          (rest ++ [ mkChatMessage user (input (Panel.chat st)) (Some t0);
                     mkChatMessage model reply (Some t1) ])%list.
        rewrite Hmsgs. repeat split; try assumption.
        rewrite map_app. now apply turns_pair.
      * apply Forall_app. split; [assumption |].
        repeat constructor; assumption.
  - rewrite (Hskip (or_introl eq_refl)); cbn [fst]. rewrite Href. tauto.
Qed.

Lemma wellFormed_generate
  (JSON_parse : string -> string + value)
  (generateContent : Gemini.GenRequest -> Failure + Gemini.GenResponse)
  (create : GeminiChat.ChatRequest -> Chat)
  (reports : list Report) (now : Z) (st : Panel.State) :
  Panel.wellFormed st ->
  Panel.wellFormed
    (fst (Panel.handleGenerateSolution JSON_parse generateContent create
            reports now st)).
Proof.
  intros (Hload & Hchat & Hconv & Htexts).
  assert (Hkept : forall a e,
            (a = Panel.analysis st \/ a <> None) ->
            Panel.wellFormed {| Panel.analysis := a; Panel.loading := false;
                                Panel.error := e; Panel.chat := Panel.chat st |}).
  { intros a e Ha. unfold Panel.wellFormed; cbn [Panel.loading Panel.chat Panel.analysis].
    split; [reflexivity | split; [assumption | split; [| assumption]]].
    destruct (chatRef (Panel.chat st)); [| assumption].
    destruct Hconv as [Han Hrest]. split; [| assumption].
    destruct Ha as [-> | Ha]; assumption. }
  unfold Panel.handleGenerateSolution.
  destruct (Gemini.analyzeReports JSON_parse generateContent reports)
    as [settled issued]; cbn [fst].
  destruct settled as [[result |] | err]; try (apply Hkept; now left).
  destruct (truthy result); [| apply Hkept; now left].
  destruct (GeminiChat.createAnalysisChat create reports result) as [handle |].
  - unfold Panel.wellFormed; cbn.
    split; [reflexivity | split; [assumption | split]].
    + split; [discriminate |].
      exists (mkChatMessage model Panel.greetingText (Some now)), [].
      repeat split.
    + repeat constructor. discriminate.
  - apply Hkept. right. discriminate.
Qed.

(** X13.  Whatever the operator and the collaborators do, one handler run
    at a time from the panel's initial state: no request is left pending;
    a chat handle exists only together with an analysis; without a handle
    the conversation is empty, and with one it is the model's greeting
    followed by user and model messages in alternation; and no message in
    it has an empty text. *)
Theorem panel_invariant (events : list Panel.Event) :
  Panel.wellFormed (Panel.run events Panel.initial).
Proof.
  unfold Panel.run.
  assert (Hstep : forall es st, Panel.wellFormed st ->
                                Panel.wellFormed (fold_left Panel.step es st)).
  { induction es as [| e es IH]; intros st Hst; simpl; [assumption |].
    apply IH. destruct e as [parse gen create reports now | typed | t0 t1]; simpl.
    - now apply wellFormed_generate.
    - now apply wellFormed_setInput.
    - now apply wellFormed_sendChat. }
  apply Hstep, wellFormed_initial.
Qed.

End PanelProps.

(* ================================================================== *)
(** * Properties of the prompts and of the grounding instruction *)
(* ================================================================== *)

Module PromptProps.
Import JS Types Text StringFacts.

(** ** Occurrences *)

Lemma occursIn_here (x before after : string) :
  occursIn x (before ++ x ++ after).
Proof. now exists before, after. Qed.

Lemma occursIn_self (x : string) : occursIn x x.
Proof.
  exists EmptyString, EmptyString. simpl.
  induction x as [| c x IH]; simpl; [reflexivity | now rewrite <- IH].
Qed.

Lemma occursIn_append_r (x a b : string) : occursIn x b -> occursIn x (a ++ b).
Proof.
  intros [before [after ->]]. exists (a ++ before), after.
  now rewrite append_assoc.
Qed.

Lemma occursIn_append_l (x a b : string) : occursIn x a -> occursIn x (a ++ b).
Proof.
  intros [before [after ->]]. exists before, (after ++ b).
  now rewrite !append_assoc.
Qed.

(** Every element of a joined list occurs in the result. *)
Lemma occursIn_join (sep x : string) (l : list string) :
  In x l -> occursIn x (Gemini.join sep l).
Proof.
  induction l as [| y l IH]; intros Hin; [contradiction |].
  destruct l as [| z l].
  - destruct Hin as [-> | []]. apply occursIn_self.
  - change (Gemini.join sep (y :: z :: l))
      with (y ++ sep ++ Gemini.join sep (z :: l)).
    destruct Hin as [-> | Hin].
    + apply occursIn_append_l, occursIn_self.
    + apply occursIn_append_r, occursIn_append_r. now apply IH.
Qed.

(** X15.  The analysis prompt contains the block of every report of the
    batch: its identifier, address and description, labelled, and as its
    time the report's timestamp string when it has a non-empty one and its
    [dateTime] otherwise. *)
Theorem analysisPrompt_covers_batch (reports : list Report) (r : Report) :
  In r reports ->
  occursIn ("ID: " ++ id r ++ String LF "    Location: " ++ address r ++
            String LF "    Issue: " ++ description r ++
            String LF "    Time: " ++
            match timestampString r with
            | Some t => if String.eqb t "" then dateTime r else t
            | None => dateTime r
            end)
           (Gemini.analysisPrompt reports).
Proof.
  intros Hin.
  assert (Hblock : occursIn (Gemini.reportSummary r)
                     (Gemini.join (String LF "---" ++ String LF "")
                        (map Gemini.reportSummary reports)))
    by (apply occursIn_join; now apply in_map).
  assert (Hsame : Gemini.reportSummary r =
                  "ID: " ++ id r ++ String LF "    Location: " ++ address r ++
                  String LF "    Issue: " ++ description r ++
                  String LF "    Time: " ++
                  match timestampString r with
                  | Some t => if String.eqb t "" then dateTime r else t
                  | None => dateTime r
                  end).
  { unfold Gemini.reportSummary, Gemini.timeLabel, Gemini.present.
    destruct (timestampString r) as [t |]; [| reflexivity].
    destruct (String.eqb t ""); reflexivity. }
  rewrite <- Hsame. unfold Gemini.analysisPrompt.
  repeat first [ apply occursIn_append_l; exact Hblock
               | apply occursIn_append_r ].
Qed.

Lemma analysisPrompt_covers_batch_witness :
  occursIn ("ID: r3" ++ String LF "    Location: Jalan Bukit" ++
            String LF "    Issue: Fallen tree blocking road" ++
            String LF "    Time: 2024-01-06T09:30:00.000Z")
           (Gemini.analysisPrompt [Samples.pothole; Samples.fallenTree]).
Proof.
  apply (analysisPrompt_covers_batch [Samples.pothole; Samples.fallenTree]
           Samples.fallenTree).
  right. left. reflexivity.
Defined.

End PromptProps.

(* ================================================================== *)
(** * Properties of [createAnalysisChat] and [handleGenerateSolution] *)
(* ================================================================== *)

Module GroundingProps.
Import JS Types Text GeminiChat.

(** What following the analysis schema gives [createAnalysisChat]: an
    object whose [strategicOverview] prints and whose
    [prioritizedReports] is an array of verdicts. *)
Lemma conforming_verdict (p : value) :
  Spec.conforms
    (Gemini.OBJECT
       [ ("reportId", Gemini.STRING (Some "The exact ID of the report being referenced.") None);
         ("severity", Gemini.STRING None (Some ["Critical"; "High"; "Medium"; "Low"]));
         ("displayTitle", Gemini.STRING (Some "A short 3-5 word title for the problem (e.g. 'Fallen Tree Blocking Road')") None);
         ("actionPlan", Gemini.STRING (Some "Specific instruction on what to do. If irrelevant, explain why.") None);
         ("recommendedResource", Gemini.STRING (Some "The specific team to send (e.g. 'Fire Dept', 'TNB', 'Public Works'). If irrelevant, use 'None' or 'Private'.") None);
         ("justification", Gemini.STRING (Some "Why this priority level was chosen.") None);
         ("isRelevant", Gemini.BOOLEAN (Some "Set to FALSE if the issue is a private matter (e.g. broken TV, personal dispute) or outside government jurisdiction. Set to TRUE for public issues.")) ]
       [ "reportId"; "severity"; "displayTitle"; "actionPlan";
         "recommendedResource"; "justification"; "isRelevant" ]) p = true ->
  isVerdict p.
Proof.
  intros Hp. destruct p as [| | | | | | | fields]; try discriminate Hp.
  cbn [Spec.conforms forallb] in Hp.
  repeat match type of Hp with
         | (_ && _)%bool = true =>
             let H := fresh "H" in
             apply andb_prop in Hp; destruct Hp as [H Hp]
         end.
  repeat match goal with
         | H : (_ && _)%bool = true |- _ =>
             let H' := fresh "H" in
             apply andb_prop in H; destruct H as [H' H]
         end.
  repeat match goal with
         | Hkey : existsb ?f fields = true,
           H : (if existsb ?f fields then _ else _) = true |- _ =>
             rewrite Hkey in H
         end.
  exists fields. split; [reflexivity | split].
  - destruct (get fields "severity"); try discriminate. now eexists.
  - destruct (get fields "isRelevant") as [| | [|] | | | | |];
      try discriminate; now eexists.
Qed.

Lemma conforming_analysis (analysis : value) :
  Spec.conforms Gemini.analysisSchema analysis = true ->
  prints (field analysis "strategicOverview") /\
  exists l, field analysis "prioritizedReports" = VArray l /\
            Forall isVerdict l.
Proof.
  intros Hconf. destruct analysis; try discriminate Hconf.
  unfold Gemini.analysisSchema in Hconf. cbn [Spec.conforms forallb] in Hconf.
  apply andb_prop in Hconf. destruct Hconf as [Hreq Heach].
  apply andb_prop in Hreq. destruct Hreq as [Hoverview Hreq].
  apply andb_prop in Hreq. destruct Hreq as [Hkey _].
  apply andb_prop in Heach. destruct Heach as [Htext Heach].
  apply andb_prop in Heach. destruct Heach as [Harr _].
  rewrite Hoverview in Htext. rewrite Hkey in Harr. unfold field. split.
  - destruct (get fields "strategicOverview"); try discriminate Htext.
    now eexists.
  - destruct (get fields "prioritizedReports") as [| | | | | | l |];
      try discriminate Harr.
    exists l. split; [reflexivity |].
    apply Forall_forall. intros p Hp.
    apply (proj1 (forallb_forall _ _) Harr) in Hp.
    now apply conforming_verdict.
Qed.

Lemma isVerdict_isObject (p : value) : isVerdict p -> isObject p.
Proof. intros [fields [-> _]]. now eexists. Qed.

Lemma findPriority_total (rid : string) (l : list value) :
  Forall isVerdict l ->
  exists found,
    findPriority rid l = Some found /\
    forall p, found = Some p -> isVerdict p.
Proof.
  induction 1 as [| p l Hp _ [found [IH Hfound]]].
  - exists None. split; [reflexivity | discriminate].
  - pose proof Hp as [fields [Heq _]]. subst p. simpl.
    destruct (get fields "reportId") as [| | | | s0 | | |];
      try (exists found; split; [exact IH | exact Hfound]).
    destruct (String.eqb s0 rid).
    + eexists. split; [reflexivity |]. now intros p [= <-].
    + exists found. split; [exact IH | exact Hfound].
Qed.

Lemma findPriority_no_verdict (rid : string) (l : list value) :
  Forall isVerdict l ->
  Forall (fun p => field p "reportId" <> VStr rid) l ->
  findPriority rid l = Some None.
Proof.
  induction 1 as [| p l [fields [-> _]] _ IH]; intros Hnone; simpl.
  - reflexivity.
  - inversion Hnone as [| ? ? Hp Hrest]; subst. simpl in Hp.
    destruct (get fields "reportId") as [| | | | s0 | | |]; try now apply IH.
    destruct (String.eqb_spec s0 rid) as [-> | _]; [now contradiction Hp |].
    now apply IH.
Qed.

Section Grounded.
Variable analysis : value.
Variable verdicts : list value.
Hypothesis Hverdicts : field analysis "prioritizedReports" = VArray verdicts.
Hypothesis Hobjects : Forall isVerdict verdicts.

Lemma chatLine_total (r : Report) : exists line, chatLine analysis r = Some line.
Proof.
  unfold chatLine, priorityOf. rewrite Hverdicts.
  destruct (findPriority_total (id r) verdicts Hobjects)
    as [found [-> Hfound]].
  destruct found as [p |]; [| now eexists].
  destruct (Hfound p eq_refl) as [fields [-> [[severity Hs] [relevant Hr]]]].
  cbn [field]. rewrite Hr. unfold or_else.
  destruct (truthy (get fields "severity")); [rewrite Hs |]; now eexists.
Qed.

Lemma chatLines_total (reports : list Report) :
  exists lines,
    chatLines analysis reports = Some lines /\
    forall r, In r reports ->
      exists line, chatLine analysis r = Some line /\ In line lines.
Proof.
  induction reports as [| r0 reports [lines [Hlines Hcover]]]; simpl.
  - exists []. split; [reflexivity | contradiction].
  - destruct (chatLine_total r0) as [line0 Hline0]. rewrite Hline0, Hlines.
    exists (line0 :: lines). split; [reflexivity |].
    intros r [<- | Hin].
    + exists line0. split; [assumption | now left].
    + destruct (Hcover r Hin) as [line [Hline Hthere]].
      exists line. split; [assumption | now right].
Qed.

End Grounded.

(** X11.  For every analysis that follows the analysis schema, and every
    batch, [createAnalysisChat] does not throw: it creates the chat with a
    grounding instruction that contains one line per report of the batch;
    the line of a report that no verdict references reads severity "N/A"
    and relevance "undefined". *)
Theorem createAnalysisChat_on_conforming_analysis
  (create : ChatRequest -> SolutionPanel.Chat)
  (reports : list Report) (analysis : value) :
  Spec.conforms Gemini.analysisSchema analysis = true ->
  exists instruction,
    createAnalysisChat create reports analysis =
      Some (create {| chat_model := "gemini-3-flash-preview";
                      chat_systemInstruction := instruction |}) /\
    (forall r, In r reports ->
       exists line, chatLine analysis r = Some line /\
                    occursIn line instruction) /\
    (forall r verdicts,
       field analysis "prioritizedReports" = VArray verdicts ->
       Forall (fun p => field p "reportId" <> VStr (id r)) verdicts ->
       chatLine analysis r =
       Some ("[ID: " ++ id r ++ "] Loc: " ++ address r ++ " | Issue: " ++
             description r ++ " | Severity: N/A | Relevant: undefined")).
Proof.
  intros Hconf.
  destruct (conforming_analysis analysis Hconf)
    as [[overview Hoverview] [verdicts [Hfield Hobjects]]].
  destruct (chatLines_total analysis verdicts Hfield Hobjects reports)
    as [lines [Hlines Hcover]].
  unfold createAnalysisChat, systemInstruction. rewrite Hlines, Hoverview.
  eexists. split; [reflexivity | split].
  - intros r Hin. destruct (Hcover r Hin) as [line [Hline Hthere]].
    exists line. split; [assumption |].
    pose proof (PromptProps.occursIn_join (String LF "") line lines Hthere)
      as Hjoined.
    repeat first [ apply PromptProps.occursIn_append_l; exact Hjoined
                 | apply PromptProps.occursIn_append_r ].
  - intros r verdicts' Hfield' Hnone.
    rewrite Hfield in Hfield'. injection Hfield' as <-.
    unfold chatLine, priorityOf. rewrite Hfield.
    now rewrite (findPriority_no_verdict _ _ Hobjects Hnone).
Qed.

Lemma createAnalysisChat_on_conforming_analysis_witness :
  exists instruction,
    createAnalysisChat (fun _ => Samples.failingChat)
      [Samples.pothole; Samples.fallenTree] Samples2.calmAnalysis =
    Some (Samples.failingChat) /\
    occursIn "[ID: r1] Loc: Jalan Reko | Issue: Deep pothole | Severity: N/A | Relevant: undefined"
             instruction.
Proof.
  destruct (createAnalysisChat_on_conforming_analysis
              (fun _ => Samples.failingChat)
              [Samples.pothole; Samples.fallenTree] Samples2.calmAnalysis)
    as [instruction [Hcreated [Hcover _]]].
  - vm_compute. reflexivity.
  - exists instruction. split; [exact Hcreated |].
    destruct (Hcover Samples.pothole (or_introl eq_refl)) as [line [Hline Hin]].
    vm_compute in Hline. injection Hline as <-. exact Hin.
Defined.

(** ** Answers the panel cannot use *)

Lemma systemInstruction_without_array (r : Report) (rest : list Report)
  (analysis : value) :
  (forall l, field analysis "prioritizedReports" <> VArray l) ->
  systemInstruction (r :: rest) analysis = None.
Proof.
  intros Hnot. unfold systemInstruction; simpl. unfold chatLine, priorityOf.
  destruct (field analysis "prioritizedReports") as [| | | | | | l |];
    try reflexivity.
  now contradiction (Hnot l).
Qed.

(** X12.  On a non-empty batch, when the service's text parses as JSON:
    if the parsed value is falsy, the panel reports "AI returned empty
    results." and keeps its analysis and chat; if it is truthy but its
    [prioritizedReports] is not an array, the panel stores it as the
    analysis all the same, keeps the former chat handle and conversation,
    and reports the generic failure. *)
Theorem handleGenerateSolution_unusable_answer
  (JSON_parse : string -> string + value)
  (generateContent : Gemini.GenRequest -> Failure + Gemini.GenResponse)
  (create : ChatRequest -> SolutionPanel.Chat)
  (reports : list Report) (now : Z) (st : Panel.State)
  (response : Gemini.GenResponse) (t : string) (v : value) :
  reports <> [] ->
  generateContent (Gemini.analysisRequest reports) = inr response ->
  Gemini.text response = Some t -> t <> "" ->
  JSON_parse t = inr v ->
  let st' := fst (Panel.handleGenerateSolution JSON_parse generateContent
                    create reports now st) in
  (truthy v = false ->
   st' = {| Panel.analysis := Panel.analysis st; Panel.loading := false;
            Panel.error := Some Panel.noResults; Panel.chat := Panel.chat st |}) /\
  (truthy v = true ->
   (forall l, field v "prioritizedReports" <> VArray l) ->
   st' = {| Panel.analysis := Some v; Panel.loading := false;
            Panel.error := Some Panel.noPlan; Panel.chat := Panel.chat st |}).
Proof.
  intros Hbatch Hgen Htext Hne Hparse. cbv zeta.
  assert (Hpresent : Gemini.present (Gemini.text response) = Some t)
    by (rewrite Htext; now apply AuditProps.present_nonempty).
  unfold Panel.handleGenerateSolution, Gemini.analyzeReports.
  rewrite (GeminiProps.nonempty_batch _ Hbatch).
  rewrite (GeminiProps.requestJSON_parsed _ _ _ _ _ _ Hgen Hpresent Hparse).
  cbn [fst]. split.
  - now intros ->.
  - intros -> Hnot. unfold createAnalysisChat.
    destruct reports as [| r rest]; [now contradiction Hbatch |].
    now rewrite (systemInstruction_without_array r rest v Hnot).
Qed.

Lemma handleGenerateSolution_unusable_answer_witness :
  fst (Panel.handleGenerateSolution Samples.JSON_parse
         Samples.emptyObjectService (fun _ => Samples.failingChat)
         [Samples.pothole] 0 Panel.initial) =
  {| Panel.analysis := Some (VObject []); Panel.loading := false;
     Panel.error := Some Panel.noPlan; Panel.chat := Panel.chat Panel.initial |}.
Proof.
  apply (handleGenerateSolution_unusable_answer Samples.JSON_parse
           Samples.emptyObjectService (fun _ => Samples.failingChat)
           [Samples.pothole] 0 Panel.initial
           (Gemini.mkGenResponse (Some "{}")) "{}" (VObject [])).
  - discriminate.
  - reflexivity.
  - reflexivity.
  - discriminate.
  - vm_compute. reflexivity.
  - reflexivity.
  - intros l. discriminate.
Defined.

End GroundingProps.

(* ================================================================== *)
(** * Properties of loading and of the map *)
(* ================================================================== *)

Module ShellProps.
Import JS Types.

(** ** [loadData] *)

(** [error.message || fallback] is never empty when the fallback is not. *)
Lemma messageOr_nonempty (e : Exn) (fallback : string) :
  fallback <> "" -> Firebase.messageOr e fallback <> "".
Proof.
  intros Hfallback. unfold Firebase.messageOr.
  destruct (String.eqb_spec (exn_message e) ""); assumption.
Qed.

(** A nonempty message is kept by [error.message || fallback]. *)
Lemma messageOr_error (msg fallback : string) :
  msg <> "" -> Firebase.messageOr (Error msg) fallback = msg.
Proof.
  intros Hmsg. unfold Firebase.messageOr; cbn.
  apply String.eqb_neq in Hmsg. now rewrite Hmsg.
Qed.

(** [fetchReports] only ever throws an [Error], with a message that is not
    empty. *)
Lemma fetchReports_message (toLocaleString : Z -> string)
  (typeErrorMessage : value -> string) (clock : nat -> Z)
  (getDocs : Failure + list Firebase.Doc) (e : Exn) :
  Firebase.fetchReports toLocaleString typeErrorMessage clock getDocs = Throw e ->
  exists msg, e = Error msg /\ msg <> "".
Proof.
  unfold Firebase.fetchReports.
  destruct (match getDocs with
            | inl f => Throw (Rejected f)
            | inr docs =>
                Firebase.forEach toLocaleString typeErrorMessage clock 0 docs
            end) as [reports | thrown]; [discriminate |].
  intros [= <-]. eexists. split; [reflexivity |].
  now apply messageOr_nonempty.
Qed.

(** X16.  After [loadData] the spinner is gone.  When the fetch resolves,
    as it does when the store lists its documents and the callback
    completes on each of them, the working set is replaced by what it
    resolved with, one report per document, and no error is shown; an
    empty collection shows the empty state.  When the fetch fails, because
    the store fails or because the callback throws on a document, the
    working set is left as it was and the error banner shows the message
    of the failure, or "Unknown Firestore Error" when it has none: the
    banner is never empty, and the fallback text of [loadData] itself is
    never used. *)
Theorem loadData_outcome (toLocaleString : Z -> string)
  (typeErrorMessage : value -> string) (clock : nat -> Z)
  (getDocs : Failure + list Firebase.Doc) (st : App.State) :
  let fetch :=
    Firebase.fetchReports toLocaleString typeErrorMessage clock getDocs in
  let st' := App.loadData toLocaleString typeErrorMessage clock getDocs st in
  App.loading st' = false /\
  (forall reports, fetch = Return reports ->
     App.reports st' = reports /\ App.error st' = None /\
     App.errorBanner st' = false /\
     (reports = [] -> App.emptyState st' = true)) /\
  (forall docs, getDocs = inr docs ->
     (forall n d, nth_error docs n = Some d ->
        exists r, Firebase.normalize toLocaleString typeErrorMessage
                    (clock n) d = Return r) ->
     App.error st' = None /\
     List.length (App.reports st') = List.length docs /\
     map id (App.reports st') = map Firebase.doc_id docs /\
     (docs = [] -> App.emptyState st' = true)) /\
  (forall e, fetch = Throw e ->
     App.reports st' = App.reports st /\
     App.errorBanner st' = true /\ App.emptyState st' = false /\
     exists msg, e = Error msg /\ msg <> "" /\ App.error st' = Some msg) /\
  (forall f, getDocs = inl f ->
     App.error st' = Some (if String.eqb (message f) ""
                           then "Unknown Firestore Error" else message f)) /\
  (forall docs n d e, getDocs = inr docs ->
     nth_error docs n = Some d ->
     Firebase.normalize toLocaleString typeErrorMessage (clock n) d = Throw e ->
     (forall m d', (m < n)%nat -> nth_error docs m = Some d' ->
        exists r, Firebase.normalize toLocaleString typeErrorMessage
                    (clock m) d' = Return r) ->
     App.reports st' = App.reports st /\
     App.error st' =
       Some (Firebase.messageOr e "Unknown Firestore Error")).
Proof.
  cbv zeta.
  assert (Hresolved : forall reports,
            Firebase.fetchReports toLocaleString typeErrorMessage clock getDocs
              = Return reports ->
            App.loadData toLocaleString typeErrorMessage clock getDocs st =
            {| App.reports := reports; App.loading := false;
               App.error := None |})
    by (intros reports Hfetch; unfold App.loadData; now rewrite Hfetch).
  assert (Hfailed : forall e,
            Firebase.fetchReports toLocaleString typeErrorMessage clock getDocs
              = Throw e ->
            exists msg,
              e = Error msg /\ msg <> "" /\
              App.loadData toLocaleString typeErrorMessage clock getDocs st =
              {| App.reports := App.reports st; App.loading := false;
                 App.error := Some msg |}).
  { intros e Hfetch.
    destruct (fetchReports_message _ _ _ _ _ Hfetch) as [msg [-> Hmsg]].
    exists msg. split; [reflexivity | split; [assumption |]].
    unfold App.loadData. rewrite Hfetch.
    now rewrite (messageOr_error _ _ Hmsg). }
  split; [| split; [| split; [| split; [| split]]]].
  - unfold App.loadData.
    now destruct (Firebase.fetchReports toLocaleString typeErrorMessage
                    clock getDocs).
  - intros reports Hfetch. rewrite (Hresolved reports Hfetch).
    repeat split. now intros ->.
  - intros docs -> Hcomplete.
    destruct (NormalizerProps.forEach_completes toLocaleString
                typeErrorMessage clock docs 0 Hcomplete) as [reports Hloop].
    assert (Hfetch : Firebase.fetchReports toLocaleString typeErrorMessage
                       clock (inr docs) = Return reports)
      by (unfold Firebase.fetchReports; now rewrite Hloop).
    rewrite (Hresolved reports Hfetch). cbn [App.error App.reports].
    apply NormalizerProps.forEach_returns in Hloop.
    destruct Hloop as [Hlen Hnth].
    split; [reflexivity | split; [assumption | split]].
    + apply nth_error_ext. intros n. rewrite !nth_error_map.
      destruct (nth_error docs n) as [d |] eqn:Hd.
      * destruct (Hnth n d Hd) as [r [-> Hnorm]]. cbn.
        now rewrite (NormalizerProps.normalize_id _ _ _ _ _ Hnorm).
      * apply nth_error_None in Hd. rewrite <- Hlen in Hd.
        apply nth_error_None in Hd. now rewrite Hd.
    + intros ->. now destruct reports.
  - intros e Hfetch.
    destruct (Hfailed e Hfetch) as [msg [-> [Hmsg ->]]].
    unfold App.errorBanner, App.emptyState; cbn.
    apply String.eqb_neq in Hmsg. rewrite Hmsg; cbn.
    repeat split. exists msg. apply String.eqb_neq in Hmsg. now repeat split.
  - intros f ->. unfold App.loadData, Firebase.fetchReports; cbn.
    unfold Firebase.messageOr; cbn.
    destruct (String.eqb_spec (message f) "") as [_ | Hne]; [reflexivity |].
    apply String.eqb_neq in Hne. now rewrite Hne.
  - intros docs n d e -> Hd Hthrows Hbefore.
    unfold App.loadData, Firebase.fetchReports.
    rewrite (NormalizerProps.forEach_throws toLocaleString typeErrorMessage
               clock docs 0 n d e Hd Hthrows Hbefore).
    cbn [App.reports App.error]. split; [reflexivity |].
    f_equal. apply messageOr_error. now apply messageOr_nonempty.
Qed.

Lemma loadData_outcome_witness :
  App.error (App.loadData toLocaleString_enUS_UTC Samples.typeErrorMessage
               (fun _ => 0) (inl (mkFailure "unavailable" "")) App.initial) =
    Some "Unknown Firestore Error" /\
  App.error (App.loadData toLocaleString_enUS_UTC Samples.typeErrorMessage
               (fun _ => 0)
               (inr [Samples.scenarioDoc; Samples.opaqueLatitudeDoc])
               App.initial) =
    Some "Cannot convert object to primitive value".
Proof.
  destruct (loadData_outcome toLocaleString_enUS_UTC Samples.typeErrorMessage
              (fun _ => 0) (inl (mkFailure "unavailable" "")) App.initial)
    as (_ & _ & _ & _ & Hstore & _).
  destruct (loadData_outcome toLocaleString_enUS_UTC Samples.typeErrorMessage
              (fun _ => 0)
              (inr [Samples.scenarioDoc; Samples.opaqueLatitudeDoc])
              App.initial)
    as (_ & _ & _ & _ & _ & Hcallback).
  split.
  - exact (Hstore (mkFailure "unavailable" "") eq_refl).
  - destruct (Hcallback [Samples.scenarioDoc; Samples.opaqueLatitudeDoc]
                1%nat Samples.opaqueLatitudeDoc
                (TypeError "Cannot convert object to primitive value")
                eq_refl eq_refl eq_refl) as [_ Herror].
    + intros m d' Hm Hd'. destruct m as [| m]; [| lia].
      injection Hd' as <-. eexists. reflexivity.
    + exact Herror.
Defined.

(** ** The map *)

Lemma plotted_extendsBounds {S : Type} (r : ReportOf S) :
  MapView.plotted r = MapView.extendsBounds r.
Proof. unfold MapView.plotted, MapView.extendsBounds. apply negb_andb. Qed.

Lemma existsb_filter {A : Type} (f : A -> bool) (l : list A) :
  existsb f l = true <-> filter f l <> [].
Proof.
  induction l as [| a l IH]; simpl.
  - split; [discriminate | now intros H].
  - destruct (f a); simpl; [| exact IH].
    split; [discriminate | reflexivity].
Qed.

(** X17.  When the reports change, the first effect runs and then the
    second.  If the maps API is loaded and the map view is active, the two
    agree: the reports that get a marker are exactly the ones the bounds
    are extended with, in the same order and at the same positions, and
    the map is refitted exactly when at least one marker was created.  If
    the view is not active, or no map exists yet, the bounds are extended
    with nothing and the map is not refitted, whatever markers there are.
    If the API is not loaded the first effect leaves the refs as they
    were. *)
Theorem markers_match_bounds (apiLoaded advanced isActive : bool)
  (reports : list Report) (refs : MapView.Refs) :
  let refs' := MapView.manageMarkers apiLoaded advanced reports refs in
  (apiLoaded = true -> isActive = true ->
     MapView.markersRef refs' = MapView.markers advanced reports /\
     map MapView.position (MapView.markersRef refs') =
       MapView.boundsPoints isActive reports refs' /\
     (MapView.hasValidBounds isActive reports refs' = true <->
      MapView.markersRef refs' <> [])) /\
  (isActive = false \/ MapView.mapInstance refs' = false ->
     MapView.boundsPoints isActive reports refs' = [] /\
     MapView.hasValidBounds isActive reports refs' = false) /\
  (apiLoaded = false -> refs' = refs).
Proof.
  cbv zeta. split; [| split].
  - intros -> ->.
    assert (Hfilter : filter MapView.plotted reports =
                      filter MapView.extendsBounds reports)
      by (apply filter_ext; intros r; apply plotted_extendsBounds).
    unfold MapView.manageMarkers, MapView.boundsPoints, MapView.hasValidBounds,
      MapView.focuses, MapView.markers.
    cbn [MapView.markersRef MapView.mapInstance andb].
    rewrite Hfilter. split; [reflexivity |].
    destruct reports as [| r0 rest]; [cbn; now intuition |].
    change (0 <? List.length (r0 :: rest))%nat with true. cbn [andb]. split.
    + now rewrite map_map.
    + rewrite existsb_filter.
      destruct (filter MapView.extendsBounds (r0 :: rest)); simpl;
        split; intros H; try assumption; try discriminate; now contradiction H.
  - unfold MapView.boundsPoints, MapView.hasValidBounds, MapView.focuses.
    intros [-> | ->]; [now split |].
    rewrite andb_false_r. now split.
  - now intros ->.
Qed.

(** X18.  In the report the callback pushes for a document, a coordinate
    that is absent, unparsable or zero is 0.  When that holds of both the
    latitude and the longitude the report gets no marker and does not
    extend the bounds; when it holds of the latitude only, the report is
    still put on the map, with latitude 0. *)
Theorem unlocated_document_is_not_mapped (toLocaleString : Z -> string)
  (typeErrorMessage : value -> string) (now : Z) (doc : Firebase.Doc)
  (r : ReportOf value) :
  Firebase.normalize toLocaleString typeErrorMessage now doc = Return r ->
  let data := Firebase.doc_data doc in
  let lat := parseFloat (get data "latitude") in
  let lng := parseFloat (get data "longitude") in
  (~ In "latitude" (keys data) -> ~ In "longitude" (keys data) ->
   MapView.plotted r = false /\ MapView.extendsBounds r = false) /\
  (forall x y, lat = Some x -> lng = Some y ->
     isNaN x || MapView.isZero x = true ->
     isNaN y || MapView.isZero y = true ->
     MapView.plotted r = false /\ MapView.extendsBounds r = false) /\
  (forall x y, lat = Some x -> lng = Some y ->
     isNaN x || MapView.isZero x = true ->
     isNaN y || MapView.isZero y = false ->
     MapView.plotted r = true /\ latitude r = (if isNaN x then zero else x) /\
     MapView.isZero (latitude r) = true /\ longitude r = y).
Proof.
  intros Hreturns. cbv zeta.
  destruct (NormalizerProps.normalize_returns _ _ _ _ _ Hreturns)
    as (lat & lng & ts & Hlat & Hlng & _ & ->).
  assert (Hboth : forall x y, lat = x -> lng = y ->
            isNaN x || MapView.isZero x = true ->
            isNaN y || MapView.isZero y = true ->
            MapView.plotted
              {| id := Firebase.doc_id doc;
                 address := or_else (get (Firebase.doc_data doc) "address")
                              (VStr "Unknown Location");
                 dateTime := or_else (get (Firebase.doc_data doc) "dateTime")
                               (VStr (toISOString now));
                 description := or_else
                                  (get (Firebase.doc_data doc) "description")
                                  (VStr "No description provided");
                 imageBase64 := Firebase.imgBase64 (Firebase.doc_data doc);
                 latitude := if isNaN lat then zero else lat;
                 longitude := if isNaN lng then zero else lng;
                 timestampString := Some ts |} = false).
  { intros x y <- <- Hx Hy. unfold MapView.plotted. cbn [latitude longitude].
    destruct lat as [| |? mx ?]; destruct lng as [| |? my ?];
      cbn in *; try discriminate; try reflexivity;
      try (rewrite Hx); try (rewrite Hy); reflexivity. }
  split; [| split].
  - intros Hnolat Hnolng.
    rewrite (NormalizerProps.get_absent _ _ Hnolat) in Hlat.
    rewrite (NormalizerProps.get_absent _ _ Hnolng) in Hlng.
    injection Hlat as <-. injection Hlng as <-.
    rewrite <- plotted_extendsBounds. split; now apply (Hboth NaN NaN).
  - intros x y Hx Hy Hxz Hyz. rewrite Hlat in Hx. rewrite Hlng in Hy.
    injection Hx as <-. injection Hy as <-.
    rewrite <- plotted_extendsBounds. split; now apply (Hboth lat lng).
  - intros x y Hx Hy Hxz Hyz. rewrite Hlat in Hx. rewrite Hlng in Hy.
    injection Hx as <-. injection Hy as <-.
    unfold MapView.plotted. cbn [latitude longitude].
    destruct lat as [| |? mx ?]; destruct lng as [| |? my ?];
      cbn in *; try discriminate; try (rewrite Hxz); try (rewrite Hyz);
      repeat split.
Qed.

Lemma unlocated_document_is_not_mapped_witness :
  exists r,
    Firebase.normalize toLocaleString_enUS_UTC Samples.typeErrorMessage 0
      Samples2.faintDoc = Return r /\
    MapView.plotted r = false /\ MapView.extendsBounds r = false.
Proof.
  eexists. split; [reflexivity |].
  destruct (unlocated_document_is_not_mapped toLocaleString_enUS_UTC
              Samples.typeErrorMessage 0 Samples2.faintDoc _ eq_refl)
    as (_ & Hboth & _).
  apply (Hboth NaN (Dec false 0 0)); reflexivity.
Defined.

(** X19.  Whenever a marker shows a report's photo, the audit's image
    guard accepts that report and the photo is the report's image source;
    the converse fails at exactly 50 code units, an image the audit
    accepts and the marker replaces by the fallback icon. *)
Theorem marker_photo_passes_audit_guard (r : Report) :
  (forall src, MapView.markerContent r = MapView.Photo src ->
     Gemini.noValidImage r = false /\ src = Views.imageSrc (imageBase64 r)) /\
  (String.length (imageBase64 r) = 50%nat ->
     Gemini.noValidImage r = false /\
     MapView.markerContent r = MapView.FallbackIcon).
Proof.
  unfold MapView.markerContent. rewrite GeminiProps.noValidImage_length. split.
  - intros src.
    destruct (String.eqb (imageBase64 r) ""); cbn [negb andb]; [discriminate |].
    destruct (Nat.ltb_spec 50 (String.length (imageBase64 r))) as [Hlong | _];
      [| discriminate].
    intros Hphoto. injection Hphoto as <-. split; [| reflexivity].
    apply Nat.ltb_ge. lia.
  - intros ->. split; [reflexivity |]. now rewrite andb_false_r.
Qed.

Lemma marker_photo_passes_audit_guard_witness :
  Gemini.noValidImage Samples.fallenTree = false.
Proof.
  destruct (marker_photo_passes_audit_guard Samples.fallenTree) as [Hphoto _].
  apply (Hphoto (Views.imageSrc (imageBase64 Samples.fallenTree))).
  reflexivity.
Defined.

End ShellProps.

(* ================================================================== *)
(** * Properties of every run of the deletion workflow *)
(* ================================================================== *)

Module RunProps.
Import JS Types Deletion DeletionRun.

(** ** What a step can do to the row *)

Lemma advance_state (dt : Z) (w : World) :
  deleteState (advance dt w) = deleteState w \/
  deleteState (advance dt w) = reverted (deleteState w).
Proof.
  unfold advance; cbn [deleteState]. rewrite DeletionProps.fired_state.
  destruct (filter (fun d => d <=? clock w + dt) (timers w)); [now left | now right].
Qed.

Lemma advance_alerts (dt : Z) (w : World) : alerts (advance dt w) = alerts w.
Proof.
  unfold advance; cbn [alerts].
  now destruct (DeletionProps.fired_frame
                  (filter (fun d => d <=? clock w + dt) (timers w)) w)
    as [_ [_ [Ha _]]].
Qed.

Lemma reverted_deleting (st : DeleteState) :
  reverted st = deleting <-> st = deleting.
Proof. destruct st; simpl; split; congruence. Qed.

Lemma resume_frame (rid : string) (reply : option Failure) (w : World) :
  deleteState (resume rid reply w) = idle /\
  awaiting (resume rid reply w) = false /\
  deleteDocCalls (resume rid reply w) = deleteDocCalls w /\
  (reports (resume rid reply w) = reports w \/
   (rid <> "" /\ reply = None /\
    reports (resume rid reply w) =
      filter (fun r => negb (String.eqb (id r) rid)) (reports w))).
Proof.
  unfold resume, Firebase.deleteReport.
  destruct (String.eqb_spec rid "") as [-> | Hrid]; cbn; [now auto |].
  destruct reply as [f |]; cbn.
  - destruct (String.eqb (code f) "permission-denied"); cbn; now auto.
  - repeat split. right. now auto.
Qed.

(** ** The guard of two clicks *)

Lemma guarded_step (rid : string) (n : nat) (w : World) (e : Event) :
  guarded rid n w ->
  guarded rid (n + (if isClick e then 1 else 0)) (step rid w e).
Proof.
  intros (Hcount & Hrid & Hempty & Hawait). unfold guarded, armed in *.
  destruct e as [| dt | reply]; cbn [step isClick].
  - destruct (deleteState w) eqn:Hstate.
    + unfold handleDeleteClick. rewrite Hstate.
      cbn. repeat split; try assumption; try lia; try discriminate.
      intros Htrue. apply Hawait in Htrue. discriminate Htrue.
    + rewrite (DeletionProps.handleDeleteClick_confirm rid w Hstate).
      destruct (String.eqb_spec rid "") as [-> | Hne].
      * destruct (resume_frame "" None (set_deleteState (fun _ => deleting) w))
          as (Hs & Ha & Hc & _).
        rewrite Hs, Ha, Hc. cbn.
        repeat split; try assumption; try lia; try discriminate.
      * cbn. rewrite length_app; cbn.
        repeat split; try lia; try reflexivity.
        -- apply Forall_app. split; [assumption | now repeat constructor].
        -- intros Hnil. now contradiction Hne.
    + unfold handleDeleteClick. rewrite Hstate.
      rewrite Hstate. repeat split; try assumption; try lia; now apply Hawait.
  - destruct (DeletionProps.advance_frame dt w) as (_ & Hcalls & Haw & _).
    rewrite Hcalls, Haw, Nat.add_0_r.
    destruct (advance_state dt w) as [-> | ->].
    + repeat split; try assumption; now apply Hawait.
    + repeat split; try assumption.
      * destruct (deleteState w); cbn in *; lia.
      * intros Htrue. apply reverted_deleting. now apply Hawait.
      * intros Hdel. apply Hawait. now apply reverted_deleting.
  - rewrite Nat.add_0_r. unfold settle.
    destruct (awaiting w) eqn:Haw.
    + destruct (resume_frame rid reply w) as (Hs & Ha & Hc & _).
      rewrite Hs, Ha, Hc. cbn.
      repeat split; try assumption; try discriminate.
      destruct (deleteState w); cbn in *; lia.
    + rewrite Haw. repeat split; try assumption; now apply Hawait.
Qed.

Lemma guarded_run (rid : string) (events : list Event) (n : nat) (w : World) :
  guarded rid n w -> guarded rid (n + clicks events) (run rid events w).
Proof.
  revert n w. unfold run, clicks.
  induction events as [| e events IH]; intros n w Hw; simpl.
  - now rewrite Nat.add_0_r.
  - apply (guarded_step rid n w e) in Hw. apply IH in Hw.
    destruct e; cbn [isClick] in *; cbn [List.length].
    + now replace (n + S (List.length (filter isClick events)))%nat
        with (n + 1 + List.length (filter isClick events))%nat by lia.
    + now rewrite Nat.add_0_r in Hw.
    + now rewrite Nat.add_0_r in Hw.
Qed.

(** X20.  Whatever happens to a freshly mounted row, clicks, delays and
    answers of the store in any order: the store's delete has been called
    at most once for every two clicks, only ever with the row's own
    identifier and never with an empty one; and the row awaits the store
    exactly when it is in [deleting]. *)
Theorem two_clicks_per_store_call (rid : string) (now : Z)
  (reports : list Report) (events : list Event) :
  let w := run rid events (fresh now reports) in
  (2 * List.length (deleteDocCalls w) <= clicks events)%nat /\
  Forall (eq rid) (deleteDocCalls w) /\
  (rid = "" -> deleteDocCalls w = []) /\
  (awaiting w = true <-> deleteState w = deleting).
Proof.
  cbv zeta.
  assert (Hfresh : guarded rid 0 (fresh now reports)).
  { unfold guarded; cbn. repeat split; try lia; try discriminate; constructor. }
  destruct (guarded_run rid events 0 _ Hfresh) as (Hcount & Hrest).
  split; [cbn in Hcount; lia | exact Hrest].
Qed.

(** ** The working set *)

Lemma filter_twice {A : Type} (f : A -> bool) (l : list A) :
  filter f (filter f l) = filter f l.
Proof.
  induction l as [| a l IH]; simpl; [reflexivity |].
  destruct (f a) eqn:Hfa; simpl; [now rewrite Hfa, IH | exact IH].
Qed.

Lemma step_reports (rid : string) (w : World) (e : Event) :
  reports (step rid w e) = reports w \/
  (isSuccess e = true /\
   reports (step rid w e) =
     filter (fun r => negb (String.eqb (id r) rid)) (reports w)).
Proof.
  destruct e as [| dt | reply]; cbn [step isSuccess].
  - left. destruct (deleteState w) eqn:Hstate;
      [unfold handleDeleteClick; now rewrite Hstate | |
       unfold handleDeleteClick; now rewrite Hstate].
    rewrite (DeletionProps.handleDeleteClick_confirm rid w Hstate).
    destruct (String.eqb_spec rid "") as [-> | _]; [| reflexivity].
    destruct (resume_frame "" None (set_deleteState (fun _ => deleting) w))
      as (_ & _ & _ & [Hsame | [Hne _]]); [exact Hsame | now contradiction Hne].
  - left. now destruct (DeletionProps.advance_frame dt w) as [Hr _].
  - unfold settle. destruct (awaiting w); [| now left].
    destruct (resume_frame rid reply w)
      as (_ & _ & _ & [Hsame | (_ & -> & Hremoved)]); [now left | now right].
Qed.

(** X21.  Whatever happens to a freshly mounted row, the working set is
    either the one it started with or that set without the reports
    carrying the row's identifier; it is unchanged as long as the store
    has not answered with success; and a report with another identifier
    is never removed. *)
Theorem working_set_after_run (rid : string) (now : Z)
  (reports0 : list Report) (events : list Event) :
  let w := run rid events (fresh now reports0) in
  let without := filter (fun r => negb (String.eqb (id r) rid)) reports0 in
  (reports w = reports0 \/ reports w = without) /\
  (forallb (fun e => negb (isSuccess e)) events = true ->
   reports w = reports0) /\
  (forall r, In r reports0 -> id r <> rid -> In r (reports w)).
Proof.
  cbv zeta.
  assert (Hrun : forall es w,
            (reports (run rid es w) = reports w \/
             reports (run rid es w) =
               filter (fun r => negb (String.eqb (id r) rid)) (reports w)) /\
            (forallb (fun e => negb (isSuccess e)) es = true ->
             reports (run rid es w) = reports w)).
  { unfold run. induction es as [| e es IH]; intros w; simpl.
    - split; [now left | reflexivity].
    - destruct (IH (step rid w e)) as [Hcases Hquiet].
      destruct (step_reports rid w e) as [Hsame | [Hsuccess Hremoved]].
      + rewrite Hsame in Hcases, Hquiet. split; [exact Hcases |].
        intros Hall. apply andb_prop in Hall. now apply Hquiet.
      + rewrite Hremoved, filter_twice in Hcases. split.
        * right. now destruct Hcases.
        * rewrite Hsuccess. discriminate. }
  destruct (Hrun events (fresh now reports0)) as [Hcases Hquiet].
  cbn [reports fresh] in Hcases, Hquiet.
  split; [exact Hcases | split; [exact Hquiet |]].
  intros r Hin Hother. destruct Hcases as [-> | ->]; [assumption |].
  apply filter_In. split; [assumption |].
  apply String.eqb_neq in Hother. now rewrite Hother.
Qed.

(** ** Timers that outlive their confirmation *)

Lemma advance_quiet (dt : Z) (w : World) :
  Forall (fun d => clock w + dt < d) (timers w) ->
  advance dt w =
  {| clock := clock w + dt; deleteState := deleteState w; timers := timers w;
     awaiting := awaiting w; reports := reports w; alerts := alerts w;
     deleteDocCalls := deleteDocCalls w |}.
Proof.
  intros Hlate. unfold advance.
  assert (Hdue : filter (fun d => d <=? clock w + dt) (timers w) = []).
  { induction Hlate as [| d rest Hd _ IH]; simpl; [reflexivity |].
    destruct (Z.leb_spec d (clock w + dt)); [lia | exact IH]. }
  assert (Hkept : filter (fun d => negb (d <=? clock w + dt)) (timers w) =
                  timers w).
  { clear Hdue. induction Hlate as [| d rest Hd _ IH]; simpl; [reflexivity |].
    destruct (Z.leb_spec d (clock w + dt)); [lia | simpl; now rewrite IH]. }
  now rewrite Hdue, Hkept.
Qed.

(** X2.  The confirmation timer is never cancelled.  For every row with a
    non-empty identifier: after a first click, a second click [t1] ms
    later, a refusal by the store [t2] ms after that and a new first click
    [t3] ms after the refusal, all within 3 seconds of the first click,
    the row is in [confirm] with two timers pending; the earlier one then
    reverts it to [idle] 3 seconds after the very first click, that is
    only [3000 - (t1 + t2 + t3)] ms into the new confirmation, and the
    store has been called once. *)
Theorem stale_timer_cuts_confirmation_short (rid : string) (f : Failure)
  (now : Z) (reports0 : list Report) (t1 t2 t3 : Z) :
  rid <> "" ->
  0 <= t1 -> 0 <= t2 -> 0 <= t3 -> 0 < t1 + t2 + t3 < 3000 ->
  let w := run rid [ Click; Wait t1; Click; Wait t2; Answer (Some f);
                     Wait t3; Click ] (fresh now reports0) in
  let w' := advance (3000 - (t1 + t2 + t3)) w in
  deleteState w = confirm /\
  clock w = now + t1 + t2 + t3 /\
  timers w = [now + 3000; now + t1 + t2 + t3 + 3000] /\
  deleteState w' = idle /\
  timers w' = [now + t1 + t2 + t3 + 3000] /\
  deleteDocCalls w' = [rid] /\
  reports w' = reports0.
Proof.
  intros Hrid H1 H2 H3 Hsum. cbv zeta.
  apply String.eqb_neq in Hrid.
  unfold run; cbn [fold_left step].
  (* the first click arms a timer for [now + 3000] *)
  assert (E1 : handleDeleteClick rid (fresh now reports0) =
               {| clock := now; deleteState := confirm; timers := [now + 3000];
                  awaiting := false; reports := reports0; alerts := [];
                  deleteDocCalls := [] |}) by reflexivity.
  rewrite E1; clear E1.
  rewrite (advance_quiet t1) by (cbn; repeat constructor; lia).
  cbn [clock deleteState timers awaiting reports alerts deleteDocCalls].
  (* the second click calls the store *)
  assert (E2 : handleDeleteClick rid
                 {| clock := now + t1; deleteState := confirm;
                    timers := [now + 3000]; awaiting := false;
                    reports := reports0; alerts := []; deleteDocCalls := [] |} =
               {| clock := now + t1; deleteState := deleting;
                  timers := [now + 3000]; awaiting := true;
                  reports := reports0; alerts := [];
                  deleteDocCalls := [rid] |}).
  { rewrite DeletionProps.handleDeleteClick_confirm by reflexivity. now rewrite Hrid. }
  rewrite E2; clear E2.
  rewrite (advance_quiet t2) by (cbn; repeat constructor; lia).
  cbn [clock deleteState timers awaiting reports alerts deleteDocCalls].
  (* the store refuses *)
  assert (E3 : exists msg,
            settle rid (Some f)
              {| clock := now + t1 + t2; deleteState := deleting;
                 timers := [now + 3000]; awaiting := true;
                 reports := reports0; alerts := [];
                 deleteDocCalls := [rid] |} =
            {| clock := now + t1 + t2; deleteState := idle;
               timers := [now + 3000]; awaiting := false;
               reports := reports0; alerts := [msg];
               deleteDocCalls := [rid] |}).
  { unfold settle, resume, Firebase.deleteReport; cbn. rewrite Hrid.
    destruct (String.eqb (code f) "permission-denied"); cbn;
      eexists; reflexivity. }
  destruct E3 as [msg E3]. rewrite E3; clear E3.
  rewrite (advance_quiet t3) by (cbn; repeat constructor; lia).
  cbn [clock deleteState timers awaiting reports alerts deleteDocCalls].
  (* the new first click arms a second timer; the first is still pending *)
  assert (E4 : handleDeleteClick rid
                 {| clock := now + t1 + t2 + t3; deleteState := idle;
                    timers := [now + 3000]; awaiting := false;
                    reports := reports0; alerts := [msg];
                    deleteDocCalls := [rid] |} =
               {| clock := now + t1 + t2 + t3; deleteState := confirm;
                  timers := [now + 3000; now + t1 + t2 + t3 + 3000];
                  awaiting := false; reports := reports0; alerts := [msg];
                  deleteDocCalls := [rid] |}) by reflexivity.
  rewrite E4; clear E4.
  assert (E5 : advance (3000 - (t1 + t2 + t3))
                 {| clock := now + t1 + t2 + t3; deleteState := confirm;
                    timers := [now + 3000; now + t1 + t2 + t3 + 3000];
                    awaiting := false; reports := reports0; alerts := [msg];
                    deleteDocCalls := [rid] |} =
               {| clock := now + t1 + t2 + t3 + (3000 - (t1 + t2 + t3));
                  deleteState := idle;
                  timers := [now + t1 + t2 + t3 + 3000];
                  awaiting := false; reports := reports0; alerts := [msg];
                  deleteDocCalls := [rid] |}).
  { unfold advance; cbn -[Z.add Z.sub Z.leb Z.opp].
    destruct (Z.leb_spec (now + 3000)
                (now + t1 + t2 + t3 + (3000 - (t1 + t2 + t3)))); [| lia].
    destruct (Z.leb_spec (now + t1 + t2 + t3 + 3000)
                (now + t1 + t2 + t3 + (3000 - (t1 + t2 + t3)))); [lia |].
    reflexivity. }
  rewrite E5; clear E5.
  cbn [clock deleteState timers awaiting reports alerts deleteDocCalls].
  repeat split.
Qed.

Lemma stale_timer_cuts_confirmation_short_witness :
  let w := run "r1" [ Click; Wait 100; Click; Wait 100;
                      Answer (Some Samples.unavailable); Wait 2300; Click ]
             (fresh 0 [Samples.pothole; Samples.fallenTree]) in
  deleteState w = confirm /\ deleteState (advance 500 w) = idle.
Proof.
  cbv zeta.
  destruct (stale_timer_cuts_confirmation_short "r1" Samples.unavailable 0
              [Samples.pothole; Samples.fallenTree] 100 100 2300)
    as (Hconfirm & _ & _ & Hidle & _); try lia; [discriminate |].
  split; [exact Hconfirm | exact Hidle].
Defined.

End RunProps.
